(** * Script executor: a shallow embedding of [script_executor.py]

    The executor replays a recorded script (structured data parsed from
    JSON) against a browser driver.  The driver is an external collaborator:
    every call to it is recorded in a history, and its replies come from an
    oracle that may depend on the whole history.  A wait
    ([WebDriverWait(...).until]) is one call that carries its timeout and
    its condition.  Python exceptions are an explicit outcome;
    [try]/[except]/[finally] are combinators on the resulting
    state-and-error monad, and every exception of the model is an instance
    of [Exception].  Logging has no effect and is left out.

    Conventions: a string is the UTF-8 encoding of a Python [str], which is
    iterated, indexed and measured by code point; [upper] acts on the ASCII
    letters; the keys of a dictionary are distinct; what Python and Selenium
    define outside this file ([repr], [str] of an exception, [int], [float],
    the [Keys] table, [sys.platform], the depth the interpreter lets calls
    nest) is a variable of the section that holds the executor.

    The callers of the executor are embedded after it: the module-level
    helper [execute_script], and from [server.py] the handler of an
    automation request and one round of the message loop.  Building the
    Chrome options, decoding JSON and the websocket connection are outside
    the model. *)

From Stdlib Require Import List String Ascii ZArith Bool Lia.
From Stdlib Require Import PrimFloat FloatOps SpecFloat Uint63 DecimalString.
Import ListNotations.
Local Open Scope string_scope.
Local Open Scope list_scope.

(** ** Python values *)

(** The values a script can contain (the JSON data model), the byte strings
    a screenshot yields and opaque handles to driver-side objects
    (web elements, alerts).  A dictionary keeps its insertion order; its keys
    are strings, distinct, and looked up from the front. *)
#[warnings="-register-all"]
Inductive PyVal : Type :=
| VNone
| VBool (b : bool)
| VInt (z : Z)
| VFloat (f : float)
| VStr (s : string)
| VList (l : list PyVal)
| VDict (kvs : list (string * PyVal))
| VBytes (bs : string)
| VObj (h : nat).

(** [bool(v)] *)
Definition truthy (v : PyVal) : bool :=
  match v with
  | VNone => false
  | VBool b => b
  | VInt z => negb (z =? 0)%Z
  | VFloat f => negb (PrimFloat.eqb f 0%float)
  | VStr s => negb (s =? "")
  | VList l => negb (Nat.eqb (List.length l) 0)
  | VDict kvs => negb (Nat.eqb (List.length kvs) 0)
  | VBytes bs => negb (bs =? "")
  | VObj _ => true
  end.

(** [v is None] and [v is False] *)
Definition is_None (v : PyVal) : bool :=
  match v with VNone => true | _ => false end.

Definition is_False (v : PyVal) : bool :=
  match v with VBool false => true | _ => false end.

(** [v == s] for a string literal [s] *)
Definition eq_str (v : PyVal) (s : string) : bool :=
  match v with VStr s' => s' =? s | _ => false end.

Fixpoint lookup (k : string) (kvs : list (string * PyVal)) : option PyVal :=
  match kvs with
  | [] => None
  | (k', v) :: rest => if k' =? k then Some v else lookup k rest
  end.

(** The value under [k], or [default] when the key is absent. *)
Definition get_or (k : string) (kvs : list (string * PyVal))
  (default : PyVal) : PyVal :=
  match lookup k kvs with Some v => v | None => default end.

(** [d[k] = v] on a dictionary used as a map from identifiers to blobs *)
Fixpoint store (k : string) (v : PyVal) (kvs : list (string * PyVal))
  : list (string * PyVal) :=
  match kvs with
  | [] => [(k, v)]
  | (k', v') :: rest =>
      if k' =? k then (k', v) :: rest else (k', v') :: store k v rest
  end.

(** ASCII [str.upper()] *)
Definition upper_ascii (c : ascii) : ascii :=
  let n := nat_of_ascii c in
  if (Nat.leb 97 n && Nat.leb n 122)%bool then ascii_of_nat (n - 32) else c.

Fixpoint upper (s : string) : string :=
  match s with
  | EmptyString => EmptyString
  | String c rest => String (upper_ascii c) (upper rest)
  end.

(** A continuation byte of UTF-8: [10xxxxxx]. *)
Definition is_continuation (c : ascii) : bool :=
  let n := nat_of_ascii c in (Nat.leb 128 n && Nat.ltb n 192)%bool.

(** The code points of a string, each as the string of its bytes: a byte
    joins the group after it when that group starts with a continuation
    byte. *)
Fixpoint code_points (s : string) : list string :=
  match s with
  | EmptyString => []
  | String c rest =>
      match code_points rest with
      | String d tail :: more =>
          if is_continuation d then String c (String d tail) :: more
          else String c EmptyString :: String d tail :: more
      | others => String c EmptyString :: others
      end
  end.

(** [list(s)] for a [str]: its characters, one string per code point. *)
Definition chars (s : string) : list PyVal :=
  List.map VStr (code_points s).

Definition byte_values (s : string) : list PyVal :=
  List.map (fun c => VInt (Z.of_nat (nat_of_ascii c))) (list_ascii_of_string s).

(** [f == z] for a float and an integer, compared exactly. *)
Definition float_eq_Z (f : float) (z : Z) : bool :=
  match Prim2SF f with
  | S754_zero _ => (z =? 0)%Z
  | S754_finite sign m e =>
      let v := if sign then Z.neg m else Z.pos m in
      if (0 <=? e)%Z then (z =? v * 2 ^ e)%Z
      else ((v mod 2 ^ (- e) =? 0) && (z =? v / 2 ^ (- e)))%Z
  | _ => false
  end.

(** [a == b].  Booleans are the integers 0 and 1; two dictionaries are equal
    when they hold equal values under the same keys, in any order (keys are
    taken to be distinct). *)
Fixpoint py_eqb (a b : PyVal) {struct a} : bool :=
  match a with
  | VNone => match b with VNone => true | _ => false end
  | VBool x =>
      match b with
      | VBool y => Bool.eqb x y
      | VInt z => (Z.b2z x =? z)%Z
      | VFloat f => float_eq_Z f (Z.b2z x)
      | _ => false
      end
  | VInt x =>
      match b with
      | VBool y => (x =? Z.b2z y)%Z
      | VInt y => (x =? y)%Z
      | VFloat f => float_eq_Z f x
      | _ => false
      end
  | VFloat f =>
      match b with
      | VBool y => float_eq_Z f (Z.b2z y)
      | VInt y => float_eq_Z f y
      | VFloat g => PrimFloat.eqb f g
      | _ => false
      end
  | VStr s => match b with VStr t => s =? t | _ => false end
  | VBytes s => match b with VBytes t => s =? t | _ => false end
  | VObj h => match b with VObj k => Nat.eqb h k | _ => false end
  | VList l =>
      match b with
      | VList m =>
          (fix all2 (l m : list PyVal) {struct l} : bool :=
             match l, m with
             | [], [] => true
             | x :: l', y :: m' => py_eqb x y && all2 l' m'
             | _, _ => false
             end) l m
      | _ => false
      end
  | VDict kvs =>
      match b with
      | VDict kvs' =>
          Nat.eqb (List.length kvs) (List.length kvs')
          && (fix all (kvs : list (string * PyVal)) : bool :=
                match kvs with
                | [] => true
                | (k, v) :: rest =>
                    match lookup k kvs' with
                    | Some v' => py_eqb v v'
                    | None => false
                    end && all rest
                end) kvs
      | _ => false
      end
  end.

Fixpoint is_substring (t s : string) : bool :=
  if String.prefix t s then true
  else match s with
       | EmptyString => false
       | String _ s' => is_substring t s'
       end.

(** Decimal digits of a natural number, as an f-string prints it. *)
Definition nat_to_string (n : nat) : string :=
  NilEmpty.string_of_uint (Nat.to_uint n).

(** A count as a float; counts stay far below 2^53, where this is exact. *)
Definition nat_to_float (n : nat) : float :=
  PrimFloat.of_uint63 (Uint63.of_Z (Z.of_nat n)).

Definition dquote : string := String (ascii_of_nat 34) EmptyString.

(** ** Exceptions *)

Inductive ExnClass : Type :=
| ValueError
| TypeError
| AttributeError
| KeyError
| IndexError
| RecursionError
| NoSuchElementException
| TimeoutException
| OtherException (name : string).

(** An exception instance: its class and the message it was built with. *)
Record Exn : Type := mkExn { exn_class : ExnClass; exn_msg : string }.

Definition is_class (c : ExnClass) (e : Exn) : bool :=
  match c, exn_class e with
  | ValueError, ValueError => true
  | TypeError, TypeError => true
  | AttributeError, AttributeError => true
  | KeyError, KeyError => true
  | IndexError, IndexError => true
  | RecursionError, RecursionError => true
  | NoSuchElementException, NoSuchElementException => true
  | TimeoutException, TimeoutException => true
  | OtherException n, OtherException m => n =? m
  | _, _ => false
  end.

(** [except (NoSuchElementException, TimeoutException)] *)
Definition not_found_or_timeout (e : Exn) : bool :=
  (is_class NoSuchElementException e || is_class TimeoutException e)%bool.

(** [except Exception]: every exception of the model is an [Exception]. *)
Definition any_exception (e : Exn) : bool := true.

(** ** The driver interface *)

(** [selenium.webdriver.common.by.By] *)
Inductive By : Type :=
| ID | XPATH | CSS_SELECTOR | CLASS_NAME | NAME
| LINK_TEXT | PARTIAL_LINK_TEXT | TAG_NAME.

(** The conditions handed to [WebDriverWait(...).until]: the
    [expected_conditions] the executor uses and its three lambdas. *)
Inductive Condition : Type :=
| presence_of_element_located (by_ : By) (value : PyVal)
| visibility_of_element_located (by_ : By) (value : PyVal)
| element_to_be_clickable (by_ : By) (value : PyVal)
| invisibility_of_element_located (by_ : By) (value : PyVal)
| ready_state_complete
| script_truthy (script : PyVal)
| url_to_be (url : PyVal)
| url_contains (substring : PyVal)
| title_is (title : PyVal)
| title_contains (substring : PyVal)
| alert_is_present
| number_of_windows_to_be (n : nat).

(** The steps queued on an [ActionChains] before [perform()]. *)
Inductive ChainStep : Type :=
| move_to_element_with_offset (element : PyVal) (dx dy : Z)
| move_to_element (element : PyVal)
| move_by_offset (x y : PyVal)
| click
| double_click (element : PyVal)
| context_click (element : PyVal)
| drag_and_drop (source target : PyVal)
| key_down (key : PyVal)
| key_up (key : PyVal).

(** One call on the driver (or on [time.sleep]). *)
Inductive Call : Type :=
| start_chrome (headless : bool)
| set_page_load_timeout (seconds : Z)
| quit
| driver_get (url : PyVal)
| wait_until (timeout : PyVal) (c : Condition) (message : string)
| wait_until_not (timeout : PyVal) (c : Condition)
| driver_execute_script (script : PyVal) (args : list PyVal)
| driver_execute_async_script (script : PyVal) (args : list PyVal)
| switch_to_frame (reference : PyVal)
| switch_to_default_content
| switch_to_parent_frame
| switch_to_window (handle : PyVal)
| switch_to_alert
| switch_to_active_element
| current_window_handle
| window_handles
| alert_text (alert : PyVal)
| alert_accept (alert : PyVal)
| alert_dismiss (alert : PyVal)
| send_keys (element : PyVal) (keys : PyVal)
| perform (chain : list ChainStep)
| Select (element : PyVal)
| select_by_value (select : PyVal) (value : PyVal)
| select_by_index (select : PyVal) (index : PyVal)
| select_by_visible_text (select : PyVal) (text : PyVal)
| driver_refresh
| driver_back
| driver_forward
| set_window_size (width height : PyVal)
| maximize_window
| minimize_window
| fullscreen_window
| get_screenshot_as_png
| save_screenshot (filename : PyVal)
| add_cookie (cookie : PyVal)
| delete_cookie (name : PyVal)
| delete_all_cookies
| get_cookies
| get_cookie (name : PyVal)
| sleep (seconds : PyVal).

Inductive Outcome (A : Type) : Type :=
| Returned (a : A)
| Raised (e : Exn).
Arguments Returned {A} a.
Arguments Raised {A} e.

(** What has happened so far: driver calls with their replies, and readings
    of the clock. *)
Inductive Event : Type :=
| Called (c : Call) (r : Outcome PyVal)
| Clock (t : float).

(** The executor object: whether [self.driver] is set, and the history. *)
Record State : Type := mkState { self_driver : bool; history : list Event }.

(** ** The monad *)

(** State and exceptions over a state [S]: a computation ends in a value or
    in an exception, and either way leaves a state behind, so that what was
    mutated before an exception is still there for the handler. *)
Definition ST (S A : Type) : Type := S -> Outcome A * S.

(** The handlers run on the executor object alone. *)
Definition M (A : Type) : Type := ST State A.

Definition ret {S A} (a : A) : ST S A := fun s => (Returned a, s).

Definition reraise {S A} (e : Exn) : ST S A := fun s => (Raised e, s).

Definition raise {S A} (c : ExnClass) (msg : string) : ST S A :=
  reraise (mkExn c msg).

Definition bind {S A B} (m : ST S A) (k : A -> ST S B) : ST S B :=
  fun s =>
    match m s with
    | (Returned a, s') => k a s'
    | (Raised e, s') => (Raised e, s')
    end.

Declare Scope py_scope.
Delimit Scope py_scope with py.
Notation "x <- m ;; k" := (bind m (fun x => k))
  (at level 61, m at next level, right associativity) : py_scope.
Notation "' p <- m ;; k" := (bind m (fun x => let p := x in k))
  (at level 61, p pattern, m at next level, right associativity) : py_scope.
Notation "m ;;; k" := (bind m (fun _ => k))
  (at level 61, right associativity) : py_scope.
Local Open Scope py_scope.

(** [try: body  except <classes> as e: handler e]; an exception of another
    class passes through. *)
Definition try_except {S A} (classes : Exn -> bool) (body : ST S A)
  (handler : Exn -> ST S A) : ST S A :=
  fun s =>
    match body s with
    | (Returned a, s') => (Returned a, s')
    | (Raised e, s') => if classes e then handler e s' else (Raised e, s')
    end.

(** [try: body  finally: cleanup]; the cleanup always runs, and an exception
    it raises replaces the outcome of the body. *)
Definition try_finally {S A} (body : ST S A) (cleanup : ST S unit) : ST S A :=
  fun s =>
    match body s with
    | (o, s') =>
        match cleanup s' with
        | (Returned _, s'') => (o, s'')
        | (Raised e, s'') => (Raised e, s'')
        end
    end.

(** [for x in l: body x] without [break]. *)
Fixpoint for_each {S A} (l : list A) (body : A -> ST S unit) : ST S unit :=
  match l with
  | [] => ret tt
  | x :: rest => body x ;;; for_each rest body
  end.

(** A local mutable object [L] next to the state: code that only touches the
    state is lifted, the object is read and updated in place. *)
Definition lift {L S A} (m : ST S A) : ST (L * S) A :=
  fun ls =>
    match m (snd ls) with
    | (o, s') => (o, (fst ls, s'))
    end.

Definition get_local {L S} : ST (L * S) L :=
  fun ls => (Returned (fst ls), ls).

Definition update_local {L S} (f : L -> L) : ST (L * S) unit :=
  fun ls => (Returned tt, (f (fst ls), snd ls)).

(** Run [body] with a fresh local object and drop the object at the end. *)
Definition with_local {L S A} (init : L) (body : ST (L * S) A) : ST S A :=
  fun s =>
    match body (init, s) with
    | (o, ls) => (o, snd ls)
    end.

(** ** Results *)

(** One entry of [results['actions']]. *)
Record ActionResult : Type := mkActionResult {
  action_index : nat;
  action_type : PyVal;
  action_description : PyVal;
  action_success : bool;
  action_start_time : float;
  action_end_time : option float;
  action_duration : float;
  action_error : option string;
  action_screenshot : option string
}.

(** One entry of [results['errors']]. *)
Record ErrorEntry : Type := mkErrorEntry {
  error_action : PyVal;
  error_text : string;
  error_action_index : nat;
  error_timestamp : float
}.

(** The [results] dictionary of [execute_script].  The keys
    ['completion_percentage'] and ['error'] are absent until the final
    update that sets them. *)
Record ExecutionResult : Type := mkExecutionResult {
  success : bool;
  executed_actions : nat;
  total_actions : nat;
  errors : list ErrorEntry;
  screenshots : list (string * PyVal);
  execution_time : float;
  start_time : float;
  end_time : option float;
  actions : list ActionResult;
  name : PyVal;
  description : PyVal;
  version : PyVal;
  created_at : PyVal;
  updated_at : PyVal;
  completion_percentage : option PyVal;
  error : option string
}.

Definition set_action_success (ok : bool) (ended : float) (took : float)
  (a : ActionResult) : ActionResult :=
  mkActionResult (action_index a) (action_type a) (action_description a)
    ok (action_start_time a) (Some ended) took (action_error a)
    (action_screenshot a).

Definition set_action_failure (ended : float) (took : float)
  (error_msg : string) (a : ActionResult) : ActionResult :=
  mkActionResult (action_index a) (action_type a) (action_description a)
    false (action_start_time a) (Some ended) took (Some error_msg)
    (action_screenshot a).

Definition set_action_screenshot (shot : string) (a : ActionResult)
  : ActionResult :=
  mkActionResult (action_index a) (action_type a) (action_description a)
    (action_success a) (action_start_time a) (action_end_time a)
    (action_duration a) (action_error a) (Some shot).

Definition set_action_end (ended : float) (a : ActionResult) : ActionResult :=
  mkActionResult (action_index a) (action_type a) (action_description a)
    (action_success a) (action_start_time a) (Some ended)
    (ended - action_start_time a)%float (action_error a)
    (action_screenshot a).

Definition add_screenshot (shot : string) (png : PyVal) (r : ExecutionResult)
  : ExecutionResult :=
  mkExecutionResult (success r) (executed_actions r) (total_actions r)
    (errors r) (store shot png (screenshots r)) (execution_time r)
    (start_time r) (end_time r) (actions r) (name r) (description r)
    (version r) (created_at r) (updated_at r) (completion_percentage r)
    (error r).

Definition count_executed (r : ExecutionResult) : ExecutionResult :=
  mkExecutionResult (success r) (S (executed_actions r)) (total_actions r)
    (errors r) (screenshots r) (execution_time r) (start_time r) (end_time r)
    (actions r) (name r) (description r) (version r) (created_at r)
    (updated_at r) (completion_percentage r) (error r).

Definition append_error (e : ErrorEntry) (r : ExecutionResult)
  : ExecutionResult :=
  mkExecutionResult (success r) (executed_actions r) (total_actions r)
    (errors r ++ [e]) (screenshots r) (execution_time r) (start_time r)
    (end_time r) (actions r) (name r) (description r) (version r)
    (created_at r) (updated_at r) (completion_percentage r) (error r).

Definition append_action (a : ActionResult) (r : ExecutionResult)
  : ExecutionResult :=
  mkExecutionResult (success r) (executed_actions r) (total_actions r)
    (errors r) (screenshots r) (execution_time r) (start_time r) (end_time r)
    (actions r ++ [a]) (name r) (description r) (version r) (created_at r)
    (updated_at r) (completion_percentage r) (error r).

Definition set_metadata (n d v c u : PyVal) (r : ExecutionResult)
  : ExecutionResult :=
  mkExecutionResult (success r) (executed_actions r) (total_actions r)
    (errors r) (screenshots r) (execution_time r) (start_time r) (end_time r)
    (actions r) n d v c u (completion_percentage r) (error r).

(** [100 * executed / total], or the integer 100 for an empty script. *)
Definition percentage (executed total : nat) : PyVal :=
  if Nat.ltb 0 total
  then VFloat (nat_to_float executed / nat_to_float total * 100)%float
  else VInt 100.

(** The final update on the normal path. *)
Definition finish (ended : float) (took : float) (r : ExecutionResult)
  : ExecutionResult :=
  mkExecutionResult (Nat.eqb (List.length (errors r)) 0) (executed_actions r)
    (total_actions r) (errors r) (screenshots r) took (start_time r)
    (Some ended) (actions r) (name r) (description r) (version r)
    (created_at r) (updated_at r)
    (Some (percentage (executed_actions r) (total_actions r))) (error r).

(** The update of the outer [except] block. *)
Definition fail_with (ended : float) (took : float) (error_msg : string)
  (r : ExecutionResult) : ExecutionResult :=
  mkExecutionResult false (executed_actions r) (total_actions r) (errors r)
    (screenshots r) took (start_time r) (Some ended) (actions r) (name r)
    (description r) (version r) (created_at r) (updated_at r)
    (completion_percentage r) (Some error_msg).

(** ** Example runtimes, sessions and scripts *)

(** A [repr] for the values that occur in the examples. *)
Fixpoint show (v : PyVal) : string :=
  (match v with
   | VNone => "None"
   | VBool true => "True"
   | VBool false => "False"
   | VInt z => NilEmpty.string_of_int (Z.to_int z)
   | VFloat _ => "<float>"
   | VStr s => "'" ++ s ++ "'"
   | VBytes bs => "b'" ++ bs ++ "'"
   | VObj h => "<object " ++ nat_to_string h ++ ">"
   | VList l =>
       "["
         ++ (fix items (l : list PyVal) : string :=
               match l with
               | [] => ""
               | [x] => show x
               | x :: rest => show x ++ ", " ++ items rest
               end) l
         ++ "]"
   | VDict kvs =>
       "{"
         ++ (fix items (kvs : list (string * PyVal)) : string :=
               match kvs with
               | [] => ""
               | [(k, x)] => "'" ++ k ++ "': " ++ show x
               | (k, x) :: rest =>
                   "'" ++ k ++ "': " ++ show x ++ ", " ++ items rest
               end) kvs
         ++ "}"
   end)%string.

(** A clock that advances by one second with every event. *)
Definition ticking (h : list Event) : float := nat_to_float (List.length h).

Definition int_of (v : PyVal) : Outcome Z :=
  match v with
  | VInt z => Returned z
  | VBool b => Returned (Z.b2z b)
  | _ => Raised (mkExn TypeError "int() argument must be a number")
  end.

Definition float_of (v : PyVal) : Outcome float :=
  match v with
  | VFloat f => Returned f
  | VInt z => Returned (PrimFloat.of_uint63 (Uint63.of_Z z))
  | _ => Raised (mkExn TypeError "float() argument must be a number")
  end.

(** The key at code point U+E0xx, in UTF-8. *)
Definition special_key (low : nat) : string :=
  String (ascii_of_nat 238)
    (String (ascii_of_nat 128) (String (ascii_of_nat (128 + low)) EmptyString)).

Definition some_keys (n : string) : PyVal :=
  if n =? "TAB" then VStr (special_key 4)
  else if n =? "ENTER" then VStr (special_key 7)
  else if n =? "SHIFT" then VStr (special_key 8)
  else if n =? "CONTROL" then VStr (special_key 9)
  else if n =? "DELETE" then VStr (special_key 23)
  else if n =? "COMMAND" then VStr (special_key 61)
  else VNone.

(** A session whose driver is started and that has not been used yet. *)
Definition fresh_session : State := mkState true [].

(** A driver that answers every call with some object. *)
Definition obliging (h : list Event) (c : Call) : Outcome PyVal :=
  Returned (VObj 1).

(** A driver on which every wait times out. *)
Definition unresponsive (h : list Event) (c : Call) : Outcome PyVal :=
  match c with
  | wait_until _ _ _ => Raised (mkExn TimeoutException "")
  | _ => Returned VNone
  end.

Definition located_value (c : Condition) : PyVal :=
  match c with
  | presence_of_element_located _ v
  | visibility_of_element_located _ v
  | element_to_be_clickable _ v
  | invisibility_of_element_located _ v => v
  | _ => VNone
  end.

(** A page on which nothing is found under the value ["missing"] and
    element 7 under any other value. *)
Definition one_missing (h : list Event) (c : Call) : Outcome PyVal :=
  match c with
  | wait_until _ cnd _ =>
      if eq_str (located_value cnd) "missing"
      then Raised (mkExn TimeoutException "")
      else Returned (VObj 7)
  | _ => Returned VNone
  end.

Definition waited_for_window (h : list Event) : bool :=
  existsb
    (fun ev =>
       match ev with
       | Called (wait_until _ (number_of_windows_to_be _) _) (Returned _) =>
           true
       | _ => false
       end) h.

(** A session with the windows A and B open, B current, in which a third
    window C opens while the executor waits for it. *)
Definition third_window (h : list Event) (c : Call) : Outcome PyVal :=
  match c with
  | current_window_handle => Returned (VStr "B")
  | window_handles =>
      if waited_for_window h
      then Returned (VList [VStr "A"; VStr "B"; VStr "C"])
      else Returned (VList [VStr "A"; VStr "B"])
  | _ => Returned VNone
  end.

(** A wait action with a chain of three locators, in the names the
    explicit-wait resolver knows. *)
Definition chain_action : list (string * PyVal) :=
  [ ("type", VStr "wait_for_element");
    ("locators",
     VList [ VList [VStr "css_selector"; VStr "missing"];
             VList [VStr "Id"; VStr "present"];
             VList [VStr "name"; VStr "unused"] ]);
    ("timeout", VInt 3) ].

(** The same chain in the names the generic resolver knows. *)
Definition input_action : list (string * PyVal) :=
  [ ("type", VStr "input");
    ("locators",
     VList [ VList [VStr "css"; VStr "missing"];
             VList [VStr "id"; VStr "present"];
             VList [VStr "name"; VStr "unused"] ]);
    ("text", VStr "hello") ].

Definition select_by_two : list (string * PyVal) :=
  [ ("type", VStr "select");
    ("locators", VList [VList [VStr "id"; VStr "colour"]]);
    ("index", VInt 2);
    ("value", VStr "red") ].

Definition select_by_nothing : list (string * PyVal) :=
  [ ("type", VStr "select");
    ("locators", VList [VList [VStr "id"; VStr "colour"]]) ].

Definition frame_action : list (string * PyVal) :=
  [ ("type", VStr "execute_in_frame");
    ("frame_locator", VDict [("type", VStr "index"); ("value", VInt 0)]);
    ("actions", VList [VDict [("type", VStr "refresh")]]) ].

Definition frame_action_without_actions : list (string * PyVal) :=
  [ ("type", VStr "execute_in_frame");
    ("frame_locator", VDict [("type", VStr "index"); ("value", VInt 0)]);
    ("actions", VList []) ].

Definition enter_frame : list (string * PyVal) :=
  [ ("type", VStr "switch_to_frame"); ("frame_reference", VInt 0) ].

Definition jquery_action : list (string * PyVal) :=
  [ ("type", VStr "wait_for_jquery") ].

Definition refresh_action : list (string * PyVal) :=
  [ ("type", VStr "refresh") ].

(** A navigation without a URL: its handler raises. *)
Definition lost_action : list (string * PyVal) :=
  [ ("type", VStr "navigate") ].

Definition lost_and_final : list (string * PyVal) :=
  [ ("type", VStr "navigate"); ("continue_on_error", VBool false) ].

Definition script_of (steps : list PyVal) : list (string * PyVal) :=
  [ ("name", VStr "example"); ("actions", VList steps) ].

(** A machine on which the browser cannot be started. *)
Definition no_browser (h : list Event) (c : Call) : Outcome PyVal :=
  match c with
  | start_chrome _ =>
      Raised (mkExn (OtherException "WebDriverException") "cannot start")
  | _ => Returned VNone
  end.

(** The page of [one_missing], on which every click is intercepted. *)
Definition unclickable (h : list Event) (c : Call) : Outcome PyVal :=
  match c with
  | perform _ =>
      Raised (mkExn (OtherException "ElementClickInterceptedException")
                "intercepted")
  | _ => one_missing h c
  end.

(** A session with the single window A, in which no window ever opens. *)
Definition single_window (h : list Event) (c : Call) : Outcome PyVal :=
  match c with
  | current_window_handle => Returned (VStr "A")
  | window_handles => Returned (VList [VStr "A"])
  | wait_until _ _ _ => Raised (mkExn TimeoutException "")
  | _ => Returned VNone
  end.

(** A session that has lost all its windows. *)
Definition no_windows (h : list Event) (c : Call) : Outcome PyVal :=
  match c with
  | window_handles => Returned (VList [])
  | _ => Returned VNone
  end.

(** A page that shows an alert with the text ["Saved"]. *)
Definition alerting (h : list Event) (c : Call) : Outcome PyVal :=
  match c with
  | alert_text _ => Returned (VStr "Saved")
  | _ => Returned (VObj 1)
  end.

Definition click_action : list (string * PyVal) :=
  [ ("type", VStr "click");
    ("locators",
     VList [ VList [VStr "css_selector"; VStr "missing"];
             VList [VStr "Id"; VStr "present"];
             VList [VStr "name"; VStr "unused"] ]);
    ("timeout", VInt 30) ].

(** A click with a locator that matches nothing and coordinates to fall
    back to. *)
Definition click_at_action : list (string * PyVal) :=
  [ ("type", VStr "click");
    ("locators", VList [VList [VStr "id"; VStr "missing"]]);
    ("x", VInt 10); ("y", VInt 20) ].

Definition click_intercepted_action : list (string * PyVal) :=
  [ ("type", VStr "click");
    ("locators",
     VList [ VList [VStr "id"; VStr "present"];
             VList [VStr "name"; VStr "missing"] ]);
    ("x", VInt 10); ("y", VInt 20) ].

Definition invisible_action : list (string * PyVal) :=
  [ ("type", VStr "wait_for_element_invisible");
    ("locators",
     VList [ VList [VStr "id"; VStr "missing"];
             VList [VStr "name"; VStr "present"] ]);
    ("timeout", VInt 3) ].

(** An action of a type the executor does not know. *)
Definition fly_action : list (string * PyVal) :=
  [ ("type", VStr "fly") ].

Definition frame_of_unknowns : list (string * PyVal) :=
  [ ("type", VStr "execute_in_frame");
    ("frame_locator", VDict [("type", VStr "index"); ("value", VInt 0)]);
    ("actions", VList [VDict fly_action; VDict [("note", VStr "no type")]]) ].

Definition alert_action (expected : string) : list (string * PyVal) :=
  [ ("type", VStr "wait_for_alert_text"); ("text", VStr expected) ].

Definition refresh_with_screenshot : list (string * PyVal) :=
  [ ("type", VStr "refresh"); ("take_screenshot", VBool true) ].

(** The click of [click_intercepted_action], marked as final. *)
Definition final_click : list (string * PyVal) :=
  click_intercepted_action ++ [("continue_on_error", VBool false)].

(** The letter e with an acute accent: one code point, two bytes. *)
Definition e_acute : string :=
  String (ascii_of_nat 195) (String (ascii_of_nat 169) EmptyString).

Definition accent_action : list (string * PyVal) :=
  [ ("type", VStr "input");
    ("locators", VList [VList [VStr "id"; VStr "present"]]);
    ("text", VStr e_acute); ("clear_first", VBool false) ].

(** The messages of a client of the server. *)
Definition automation_request (script : PyVal) : list (string * PyVal) :=
  [ ("type", VStr "automation_script"); ("script", script);
    ("headless", VBool true) ].

(** ** The runtime the executor runs on *)

Section Executor.

(** The browser driver: its reply to a call, given everything that happened
    before.  A reply is a value or an exception. *)
Variable driver : list Event -> Call -> Outcome PyVal.

(** [time.time()], given everything that happened before. *)
Variable clock : list Event -> float.

(** [repr(v)], as it appears when a value is formatted into a message. *)
Variable py_repr : PyVal -> string.

(** [str(e)] for an exception instance. *)
Variable exn_str : Exn -> string.

(** The depth of handler nesting the interpreter allows: a dispatch from
    inside a frame handler nested deeper than this raises
    [RecursionError]. *)
Variable recursion_limit : nat.

(** [int(v)] and [float(v)]. *)
Variable py_int : PyVal -> Outcome Z.
Variable py_float : PyVal -> Outcome float.

(** [getattr(Keys, name, None)], the four key constants the handlers name,
    and [sys.platform]. *)
Variable Keys_getattr : string -> PyVal.
Variables Keys_COMMAND Keys_CONTROL Keys_DELETE Keys_TAB : string.
Variable sys_platform : string.

(** [str(v)]: a string is itself, anything else is its [repr]. *)
Definition py_str (v : PyVal) : string :=
  match v with VStr s => s | _ => py_repr v end.

Definition call (c : Call) : M PyVal :=
  fun s =>
    let r := driver (history s) c in
    (r, mkState (self_driver s) (history s ++ [Called c r])).

Definition time_time : M float :=
  fun s =>
    let t := clock (history s) in
    (Returned t, mkState (self_driver s) (history s ++ [Clock t])).

Definition of_outcome {S A} (o : Outcome A) : ST S A := fun s => (o, s).

(** [d.get(k, default)]; only a dictionary has the method. *)
Definition py_get {S} (d : PyVal) (k : string) (default : PyVal) : ST S PyVal :=
  match d with
  | VDict kvs => ret (get_or k kvs default)
  | _ => raise AttributeError "object has no attribute 'get'"
  end.

(** [iter(v)], run to the end *)
Definition py_iter {S} (v : PyVal) : ST S (list PyVal) :=
  match v with
  | VList l => ret l
  | VStr s => ret (chars s)
  | VDict kvs => ret (List.map (fun kv => VStr (fst kv)) kvs)
  | VBytes bs => ret (byte_values bs)
  | _ => raise TypeError "object is not iterable"
  end.

(** [a, b = v] *)
Definition unpack2 {S} (v : PyVal) : ST S (PyVal * PyVal) :=
  items <- py_iter v ;;
  match items with
  | [a; b] => ret (a, b)
  | _ => raise ValueError "wrong number of values to unpack (expected 2)"
  end.

(** [len(v)] *)
Definition py_len {S} (v : PyVal) : ST S nat :=
  match v with
  | VList l => ret (List.length l)
  | VStr s => ret (List.length (chars s))
  | VDict kvs => ret (List.length kvs)
  | VBytes bs => ret (String.length bs)
  | _ => raise TypeError "object has no len()"
  end.

(** [v.upper()] *)
Definition py_upper {S} (v : PyVal) : ST S PyVal :=
  match v with
  | VStr s => ret (VStr (upper s))
  | VBytes bs => ret (VBytes (upper bs))
  | _ => raise AttributeError "object has no attribute 'upper'"
  end.

(** [x in c] *)
Definition py_in {S} (x c : PyVal) : ST S bool :=
  match c with
  | VDict kvs =>
      match x with
      | VList _ | VDict _ => raise TypeError "unhashable type"
      | VStr k => ret (existsb (fun kv => fst kv =? k) kvs)
      | _ => ret false
      end
  | VList l => ret (existsb (py_eqb x) l)
  | VStr s =>
      match x with
      | VStr t => ret (is_substring t s)
      | _ => raise TypeError "'in <string>' requires string as left operand"
      end
  | VBytes bs =>
      match x with
      | VBytes t => ret (is_substring t bs)
      | VInt _ | VBool _ => ret (existsb (py_eqb x) (byte_values bs))
      | _ => raise TypeError "a bytes-like object is required"
      end
  | _ => raise TypeError "argument is not iterable"
  end.

(** [l[i]] for a sequence of [n] items, counting from the end when [i] is
    negative. *)
Definition seq_index {S} (items : list PyVal) (i : Z) : ST S PyVal :=
  let n := Z.of_nat (List.length items) in
  let j := if (i <? 0)%Z then (i + n)%Z else i in
  if ((j <? 0) || (n <=? j))%Z then raise IndexError "index out of range"
  else match nth_error items (Z.to_nat j) with
       | Some v => ret v
       | None => raise IndexError "index out of range"
       end.

(** [c[k]] *)
Definition py_index {S} (c k : PyVal) : ST S PyVal :=
  match c with
  | VDict kvs =>
      match k with
      | VList _ | VDict _ => raise TypeError "unhashable type"
      | VStr key =>
          match lookup key kvs with
          | Some v => ret v
          | None => raise KeyError (py_repr k)
          end
      | _ => raise KeyError (py_repr k)
      end
  | VList l =>
      match k with
      | VInt i => seq_index l i
      | VBool b => seq_index l (Z.b2z b)
      | _ => raise TypeError "list indices must be integers or slices"
      end
  | VStr s =>
      match k with
      | VInt i => seq_index (chars s) i
      | VBool b => seq_index (chars s) (Z.b2z b)
      | _ => raise TypeError "string indices must be integers"
      end
  | VBytes bs =>
      match k with
      | VInt i => seq_index (byte_values bs) i
      | VBool b => seq_index (byte_values bs) (Z.b2z b)
      | _ => raise TypeError "byte indices must be integers or slices"
      end
  | _ => raise TypeError "object is not subscriptable"
  end.

(** ** Locator resolution *)

(** The table both [_get_by_from_string] and [_handle_click] look the
    upper-cased strategy name up in. *)
Definition by_table : list (string * By) :=
  [ ("ID", ID); ("XPATH", XPATH); ("CSS_SELECTOR", CSS_SELECTOR);
    ("CLASS_NAME", CLASS_NAME); ("NAME", NAME); ("LINK_TEXT", LINK_TEXT);
    ("PARTIAL_LINK_TEXT", PARTIAL_LINK_TEXT); ("TAG_NAME", TAG_NAME) ].

Fixpoint assoc {A} (k : string) (t : list (string * A)) : option A :=
  match t with
  | [] => None
  | (k', a) :: rest => if k' =? k then Some a else assoc k rest
  end.

(** [table.get(key)] where the keys of the table are strings: a list or a
    dictionary is unhashable, any other non-string key is absent. *)
Definition table_get {S A} (t : list (string * A)) (key : PyVal)
  : ST S (option A) :=
  match key with
  | VStr s => ret (assoc s t)
  | VList _ | VDict _ => raise TypeError "unhashable type"
  | _ => ret None
  end.

Definition _get_by_from_string (locator_type_str : PyVal) : M (option By) :=
  key <- py_upper locator_type_str ;;
  table_get by_table key.

Definition not_found_with_wait (locators : PyVal) : string :=
  "Element not found with locators: " ++ py_repr locators.

(** The [for] loop of [_find_element_with_wait] over the locators that
    remain. *)
Fixpoint find_with_wait_loop (condition : By -> PyVal -> Condition)
  (timeout locators : PyVal) (remaining : list PyVal) : M PyVal :=
  match remaining with
  | [] => raise NoSuchElementException (not_found_with_wait locators)
  | locator :: rest =>
      '(locator_type_str, locator_value) <- unpack2 locator ;;
      by_ <- _get_by_from_string locator_type_str ;;
      match by_ with
      | None => find_with_wait_loop condition timeout locators rest
      | Some by_ =>
          try_except not_found_or_timeout
            (call (wait_until timeout (condition by_ locator_value) ""))
            (fun _ => find_with_wait_loop condition timeout locators rest)
      end
  end.

Definition _find_element_with_wait (action : PyVal)
  (condition : By -> PyVal -> Condition) : M PyVal :=
  locators <- py_get action "locators" (VList []) ;;
  timeout <- py_get action "timeout" (VInt 10) ;;
  if negb (truthy locators) then
    raise ValueError "No locators provided for wait action"
  else
    remaining <- py_iter locators ;;
    find_with_wait_loop condition timeout locators remaining.

(** The [if]/[elif] chain of [_find_element]: the strategy a name selects,
    compared as written. *)
Definition strategy_of (locator_type : PyVal) : option By :=
  if eq_str locator_type "id" then Some ID
  else if eq_str locator_type "xpath" then Some XPATH
  else if eq_str locator_type "css" then Some CSS_SELECTOR
  else if eq_str locator_type "name" then Some NAME
  else if eq_str locator_type "class_name" then Some CLASS_NAME
  else if eq_str locator_type "link_text" then Some LINK_TEXT
  else if eq_str locator_type "partial_link_text" then Some PARTIAL_LINK_TEXT
  else if eq_str locator_type "tag_name" then Some TAG_NAME
  else None.

Definition not_found_any (locators : PyVal) : string :=
  "Could not find element with any of the provided locators: "
    ++ py_repr locators.

Fixpoint find_element_loop (timeout locators : PyVal)
  (remaining : list PyVal) : M PyVal :=
  match remaining with
  | [] => raise NoSuchElementException (not_found_any locators)
  | locator :: rest =>
      '(locator_type, locator_value) <- unpack2 locator ;;
      match strategy_of locator_type with
      | Some by_ =>
          try_except not_found_or_timeout
            (call (wait_until timeout
                     (visibility_of_element_located by_ locator_value) ""))
            (fun _ => find_element_loop timeout locators rest)
      | None => find_element_loop timeout locators rest
      end
  end.

Definition _find_element (action : PyVal) : M PyVal :=
  locators <- py_get action "locators" (VList []) ;;
  timeout <- py_get action "timeout" (VInt 10) ;;
  remaining <- py_iter locators ;;
  find_element_loop timeout locators remaining.

(** ** Action handlers *)

Definition Handler : Type := PyVal -> M PyVal.

Definition _handle_navigate : Handler := fun action =>
  url <- py_get action "url" VNone ;;
  if negb (truthy url) then
    raise ValueError "No URL provided for navigation action"
  else
    call (driver_get url) ;;;
    call (wait_until (VInt 30) ready_state_complete "") ;;;
    ret (VBool true).

Definition jquery_ready_script : string :=
  "return (typeof jQuery !== " ++ dquote ++ "undefined" ++ dquote
    ++ ") && jQuery.active === 0;".

Definition ajax_idle_script : string :=
  "return (typeof jQuery === " ++ dquote ++ "undefined" ++ dquote
    ++ ") || (jQuery.active === 0);".

Definition _handle_wait_for_jquery : Handler := fun action =>
  timeout <- py_get action "timeout" (VInt 10) ;;
  call (wait_until timeout (script_truthy (VStr jquery_ready_script))
          "Timed out waiting for jQuery to be ready") ;;;
  call (wait_until timeout (script_truthy (VStr ajax_idle_script))
          "Timed out waiting for AJAX requests to complete") ;;;
  ret VNone.

(** What one round of the locator loop of [_handle_click] ends in: the
    handler returns, or the loop goes on with the current [element]. *)
Inductive ClickRound : Type :=
| ClickReturn (v : PyVal)
| ClickContinue (element : PyVal).

(** The [try] statement inside the loop.  Whatever is raised, the loop goes
    on; [element] keeps the value the wait assigned when only the click
    after it failed. *)
Definition click_round (element locator : PyVal) : M ClickRound :=
  try_except any_exception
    ('(locator_type_str, locator_value) <- unpack2 locator ;;
     key <- py_upper locator_type_str ;;
     locator_type <- table_get by_table key ;;
     match locator_type with
     | None => ret (ClickContinue element)
     | Some by_ =>
         found <- call (wait_until (VInt 5)
                          (element_to_be_clickable by_ locator_value) "") ;;
         try_except any_exception
           (call (perform [move_to_element_with_offset found 1 1; click]) ;;;
            ret (ClickReturn (VBool true)))
           (fun _ => ret (ClickContinue found))
     end)
    (fun _ => ret (ClickContinue element)).

Fixpoint click_loop (element : PyVal) (remaining : list PyVal)
  : M ClickRound :=
  match remaining with
  | [] => ret (ClickContinue element)
  | locator :: rest =>
      r <- click_round element locator ;;
      match r with
      | ClickReturn v => ret (ClickReturn v)
      | ClickContinue element' => click_loop element' rest
      end
  end.

Definition _handle_click : Handler := fun action =>
  locators <- py_get action "locators" (VList []) ;;
  x <- py_get action "x" VNone ;;
  y <- py_get action "y" VNone ;;
  r <- (if truthy locators
        then remaining <- py_iter locators ;; click_loop VNone remaining
        else ret (ClickContinue VNone)) ;;
  match r with
  | ClickReturn v => ret v
  | ClickContinue element =>
      if is_None element && negb (is_None x) && negb (is_None y) then
        try_except any_exception
          (call (perform [move_by_offset x y; click]) ;;; ret (VBool true))
          (fun e => reraise e)
      else if is_None element then
        raise NoSuchElementException
          "Could not find element with provided locators"
      else ret (VBool false)
  end.

Definition select_all_keys : string :=
  if sys_platform =? "darwin" then Keys_COMMAND ++ "a"
  else Keys_CONTROL ++ "a".

Definition _handle_input : Handler := fun action =>
  element <- _find_element action ;;
  text <- py_get action "text" (VStr "") ;;
  clear_first <- py_get action "clear_first" (VBool true) ;;
  try_except any_exception
    ((if truthy clear_first then
        call (send_keys element (VStr select_all_keys)) ;;;
        call (send_keys element (VStr Keys_DELETE)) ;;;
        ret tt
      else ret tt) ;;;
     typed <- py_iter text ;;
     for_each typed (fun char =>
       call (send_keys element char) ;;;
       call (sleep (VFloat 0x1.47ae147ae147bp-7)) ;;;
       ret tt) ;;;
     ret (VBool true))
    (fun e => reraise e).

Definition _handle_select : Handler := fun action =>
  element <- _find_element action ;;
  select <- call (Select element) ;;
  try_except any_exception
    (by_value <- py_in (VStr "value") action ;;
     (if by_value then
        value <- py_index action (VStr "value") ;;
        call (select_by_value select value)
      else
        by_index <- py_in (VStr "index") action ;;
        if by_index then
          index <- py_index action (VStr "index") ;;
          call (select_by_index select index)
        else
          by_text <- py_in (VStr "visible_text") action ;;
          if by_text then
            text <- py_index action (VStr "visible_text") ;;
            call (select_by_visible_text select text)
          else
            raise ValueError
              "No valid selection criteria provided for select action") ;;;
     ret (VBool true))
    (fun e => reraise e).

Definition _handle_wait : Handler := fun action =>
  time <- py_get action "time" (VInt 1) ;;
  wait_time <- of_outcome (py_float time) ;;
  call (sleep (VFloat wait_time)) ;;;
  ret (VBool true).

Definition _handle_wait_for_element : Handler := fun action =>
  _find_element_with_wait action presence_of_element_located ;;;
  ret (VBool true).

Definition _handle_wait_for_element_visible : Handler := fun action =>
  _find_element_with_wait action visibility_of_element_located ;;;
  ret (VBool true).

Definition _handle_wait_for_element_clickable : Handler := fun action =>
  _find_element_with_wait action element_to_be_clickable ;;;
  ret (VBool true).

Definition _handle_wait_for_element_invisible : Handler := fun action =>
  locators <- py_get action "locators" (VList []) ;;
  timeout <- py_get action "timeout" (VInt 10) ;;
  if negb (truthy locators) then
    raise ValueError "No locators provided for wait_for_element_invisible"
  else
    first <- py_index locators (VInt 0) ;;
    '(locator_type_str, locator_value) <- unpack2 first ;;
    by_ <- _get_by_from_string locator_type_str ;;
    match by_ with
    | None =>
        raise ValueError
          ("Unsupported locator type: " ++ py_str locator_type_str)
    | Some by_ =>
        call (wait_until timeout
                (invisibility_of_element_located by_ locator_value) "") ;;;
        ret (VBool true)
    end.

Definition _handle_wait_for_page_load : Handler := fun action =>
  timeout <- py_get action "timeout" (VInt 30) ;;
  call (wait_until timeout ready_state_complete "") ;;;
  ret (VBool true).

Definition _handle_wait_for_ajax : Handler := fun action =>
  timeout <- py_get action "timeout" (VInt 10) ;;
  call (wait_until timeout (script_truthy (VStr ajax_idle_script))
          "Timed out waiting for AJAX requests to complete") ;;;
  ret (VBool true).

Definition newline : string := String (ascii_of_nat 10) EmptyString.

Definition angular_idle_script : string :=
  newline
    ++ "            return (typeof angular === 'undefined') || " ++ newline
    ++ "                   (angular.element(document).injector().get('$http').pendingRequests.length === 0);"
    ++ newline ++ "        ".

Definition _handle_wait_for_angular : Handler := fun action =>
  timeout <- py_get action "timeout" (VInt 10) ;;
  call (wait_until timeout (script_truthy (VStr angular_idle_script))
          "Timed out waiting for Angular to be ready") ;;;
  ret (VBool true).

Definition _handle_wait_for_js_condition : Handler := fun action =>
  script <- py_get action "script" VNone ;;
  timeout <- py_get action "timeout" (VInt 10) ;;
  if negb (truthy script) then
    raise ValueError "No script provided for wait_for_js_condition"
  else
    call (wait_until timeout (script_truthy script)
            ("Timed out waiting for JS condition: " ++ py_str script)) ;;;
    ret (VBool true).

Definition _handle_wait_for_url : Handler := fun action =>
  url <- py_get action "url" VNone ;;
  timeout <- py_get action "timeout" (VInt 10) ;;
  if negb (truthy url) then raise ValueError "No URL provided for wait_for_url"
  else call (wait_until timeout (url_to_be url) "") ;;; ret (VBool true).

Definition _handle_wait_for_url_contains : Handler := fun action =>
  substring <- py_get action "substring" VNone ;;
  timeout <- py_get action "timeout" (VInt 10) ;;
  if negb (truthy substring) then
    raise ValueError "No substring provided for wait_for_url_contains"
  else
    call (wait_until timeout (url_contains substring) "") ;;;
    ret (VBool true).

Definition _handle_wait_for_title : Handler := fun action =>
  title <- py_get action "title" VNone ;;
  timeout <- py_get action "timeout" (VInt 10) ;;
  if negb (truthy title) then
    raise ValueError "No title provided for wait_for_title"
  else call (wait_until timeout (title_is title) "") ;;; ret (VBool true).

Definition _handle_wait_for_title_contains : Handler := fun action =>
  substring <- py_get action "substring" VNone ;;
  timeout <- py_get action "timeout" (VInt 10) ;;
  if negb (truthy substring) then
    raise ValueError "No substring provided for wait_for_title_contains"
  else
    call (wait_until timeout (title_contains substring) "") ;;;
    ret (VBool true).

Definition _handle_wait_for_alert : Handler := fun action =>
  timeout <- py_get action "timeout" (VInt 10) ;;
  call (wait_until timeout alert_is_present "") ;;;
  ret (VBool true).

Definition _handle_wait_for_alert_text : Handler := fun action =>
  text <- py_get action "text" VNone ;;
  timeout <- py_get action "timeout" (VInt 10) ;;
  if negb (truthy text) then
    raise ValueError "No text provided for wait_for_alert_text"
  else
    _handle_wait_for_alert action ;;;
    alert <- call switch_to_alert ;;
    shown <- call (alert_text alert) ;;
    if py_eqb shown text then ret (VBool true)
    else
      actual <- call (alert_text alert) ;;
      raise TimeoutException
        ("Alert text did not match. Expected: '" ++ py_str text
           ++ "', Actual: '" ++ py_str actual ++ "'").

Definition _handle_wait_for_alert_text_contains : Handler := fun action =>
  substring <- py_get action "substring" VNone ;;
  timeout <- py_get action "timeout" (VInt 10) ;;
  if negb (truthy substring) then
    raise ValueError "No substring provided for wait_for_alert_text_contains"
  else
    _handle_wait_for_alert action ;;;
    alert <- call switch_to_alert ;;
    shown <- call (alert_text alert) ;;
    inside <- py_in substring shown ;;
    if inside then ret (VBool true)
    else
      actual <- call (alert_text alert) ;;
      raise TimeoutException
        ("Alert text did not contain substring. Substring: '"
           ++ py_str substring ++ "', Actual: '" ++ py_str actual ++ "'").

Definition _handle_wait_for_alert_not_present : Handler := fun action =>
  timeout <- py_get action "timeout" (VInt 10) ;;
  call (wait_until_not timeout alert_is_present) ;;;
  ret (VBool true).

Definition _handle_execute_js : Handler := fun action =>
  script <- py_get action "script" VNone ;;
  if negb (truthy script) then
    raise ValueError "No script provided for execute_js action"
  else
    try_except any_exception
      (call (driver_execute_script script []) ;;; ret (VBool true))
      (fun e => reraise e).

Definition _handle_switch_window : Handler := fun action =>
  target <- py_get action "target" (VStr "new") ;;
  if eq_str target "new" then
    original_window <- call current_window_handle ;;
    opened <- try_except (is_class TimeoutException)
                (before <- call window_handles ;;
                 n <- py_len before ;;
                 call (wait_until (VInt 10)
                         (number_of_windows_to_be (n + 1)) "") ;;;
                 ret true)
                (fun _ => ret false) ;;
    if negb opened then ret (VBool false)
    else
      after <- call window_handles ;;
      handles <- py_iter after ;;
      let new_window_handles :=
        List.filter (fun h => negb (py_eqb h original_window)) handles in
      match new_window_handles with
      | h :: _ => call (switch_to_window h) ;;; ret (VBool true)
      | [] => ret (VBool false)
      end
  else if eq_str target "original" then
    handles <- call window_handles ;;
    if truthy handles then
      again <- call window_handles ;;
      first <- py_index again (VInt 0) ;;
      call (switch_to_window first) ;;;
      ret (VBool true)
    else ret (VBool false)
  else ret (VBool false).

(** [getattr(Keys, key.upper(), None)]: the attribute name must be a
    string. *)
Definition key_constant_of (key : PyVal) : M PyVal :=
  name_ <- py_upper key ;;
  match name_ with
  | VStr n => ret (Keys_getattr n)
  | _ => raise TypeError "attribute name must be string"
  end.

Definition _handle_key_down : Handler := fun action =>
  key <- py_get action "key" VNone ;;
  if negb (truthy key) then
    raise ValueError "No key provided for key_down action"
  else
    try_except any_exception
      (key_constant <- key_constant_of key ;;
       if negb (truthy key_constant) then
         raise ValueError ("Invalid key: " ++ py_str key)
       else
         call (perform [key_down key_constant]) ;;; ret (VBool true))
      (fun e => reraise e).

Definition _handle_key_up : Handler := fun action =>
  key <- py_get action "key" VNone ;;
  if negb (truthy key) then
    raise ValueError "No key provided for key_up action"
  else
    try_except any_exception
      (key_constant <- key_constant_of key ;;
       if negb (truthy key_constant) then
         raise ValueError ("Invalid key: " ++ py_str key)
       else
         call (perform [key_up key_constant]) ;;; ret (VBool true))
      (fun e => reraise e).

Definition invalid_credential (credential_type : PyVal) : string :=
  "Invalid or missing credential type: " ++ py_str credential_type.

Definition _handle_type_credential : Handler := fun action =>
  credential_type <- py_get action "credential_type" VNone ;;
  credentials <- py_get action "credentials" (VDict []) ;;
  known <- (if negb (truthy credential_type) then ret false
            else py_in credential_type credentials) ;;
  if negb known then raise ValueError (invalid_credential credential_type)
  else
    try_except any_exception
      (active_element <- call switch_to_active_element ;;
       secret <- py_index credentials credential_type ;;
       call (send_keys active_element secret) ;;;
       ret (VBool true))
      (fun e => reraise e).

Definition _handle_tab : Handler := fun action =>
  requested <- py_get action "times" (VInt 1) ;;
  times <- of_outcome (py_int requested) ;;
  try_except any_exception
    (active_element <- call switch_to_active_element ;;
     for_each (List.repeat tt (Z.to_nat times)) (fun _ =>
       call (send_keys active_element (VStr Keys_TAB)) ;;; ret tt) ;;;
     ret (VBool true))
    (fun e => reraise e).

Definition _handle_click_coordinates : Handler := fun action =>
  x <- py_get action "x" VNone ;;
  y <- py_get action "y" VNone ;;
  if is_None x || is_None y then
    raise ValueError "Both x and y coordinates are required"
  else
    try_except any_exception
      (call (perform [move_by_offset x y; click]) ;;; ret (VBool true))
      (fun e => reraise e).

Definition _handle_switch_default_content : Handler := fun action =>
  try_except any_exception
    (call switch_to_default_content ;;; ret (VBool true))
    (fun e => reraise e).

Definition _handle_move_to_element : Handler := fun action =>
  element <- _find_element action ;;
  call (perform [move_to_element element]) ;;;
  ret (VBool true).

Definition _handle_double_click : Handler := fun action =>
  element <- _find_element action ;;
  call (perform [double_click element]) ;;;
  ret (VBool true).

Definition _handle_right_click : Handler := fun action =>
  element <- _find_element action ;;
  call (perform [context_click element]) ;;;
  ret (VBool true).

Definition _handle_drag_and_drop : Handler := fun action =>
  source_action <- py_get action "source" VNone ;;
  source <- _find_element source_action ;;
  target_action <- py_get action "target" VNone ;;
  target <- _find_element target_action ;;
  call (perform [drag_and_drop source target]) ;;;
  ret (VBool true).

Definition _handle_scroll_to : Handler := fun action =>
  element <- _find_element action ;;
  call (driver_execute_script (VStr "arguments[0].scrollIntoView(true);")
          [element]) ;;;
  ret (VBool true).

Definition _handle_hover : Handler := fun action =>
  element <- _find_element action ;;
  call (perform [move_to_element element]) ;;;
  ret (VBool true).

Definition _handle_refresh : Handler := fun action =>
  call driver_refresh ;;; ret (VBool true).

Definition _handle_back : Handler := fun action =>
  call driver_back ;;; ret (VBool true).

Definition _handle_forward : Handler := fun action =>
  call driver_forward ;;; ret (VBool true).

Definition _handle_accept_alert : Handler := fun action =>
  alert <- call switch_to_alert ;;
  call (alert_accept alert) ;;;
  ret (VBool true).

Definition _handle_dismiss_alert : Handler := fun action =>
  alert <- call switch_to_alert ;;
  call (alert_dismiss alert) ;;;
  ret (VBool true).

Definition _handle_switch_to_frame : Handler := fun action =>
  frame_reference <- py_get action "frame_reference" VNone ;;
  if is_None frame_reference then
    raise ValueError "frame_reference is required for switch_to_frame action"
  else
    call (switch_to_frame frame_reference) ;;;
    ret (VBool true).

Definition _handle_switch_to_parent_frame : Handler := fun action =>
  call switch_to_parent_frame ;;; ret (VBool true).

Definition _handle_execute_async_js : Handler := fun action =>
  script <- py_get action "script" VNone ;;
  args <- py_get action "args" (VList []) ;;
  if negb (truthy script) then
    raise ValueError "No script provided for execute_async_js action"
  else
    unpacked <- py_iter args ;;
    call (driver_execute_async_script script unpacked) ;;;
    ret (VBool true).

Definition _handle_set_window_size : Handler := fun action =>
  width <- py_get action "width" VNone ;;
  height <- py_get action "height" VNone ;;
  if is_None width || is_None height then
    raise ValueError
      "Both width and height are required for set_window_size action"
  else
    call (set_window_size width height) ;;;
    ret (VBool true).

Definition _handle_maximize_window : Handler := fun action =>
  call maximize_window ;;; ret (VBool true).

Definition _handle_minimize_window : Handler := fun action =>
  call minimize_window ;;; ret (VBool true).

Definition _handle_fullscreen_window : Handler := fun action =>
  call fullscreen_window ;;; ret (VBool true).

Definition _handle_take_screenshot : Handler := fun action =>
  call get_screenshot_as_png.

Definition _handle_save_screenshot : Handler := fun action =>
  filename <- py_get action "filename" (VStr "screenshot.png") ;;
  call (save_screenshot filename) ;;;
  ret (VBool true).

Definition _handle_set_cookie : Handler := fun action =>
  name_ <- py_get action "name" VNone ;;
  value <- py_get action "value" VNone ;;
  if negb (truthy name_) || is_None value then
    raise ValueError "Both name and value are required for set_cookie action"
  else
    call (add_cookie (VDict [("name", name_); ("value", value)])) ;;;
    ret (VBool true).

Definition _handle_delete_cookie : Handler := fun action =>
  name_ <- py_get action "name" VNone ;;
  if negb (truthy name_) then
    raise ValueError "Name is required for delete_cookie action"
  else
    call (delete_cookie name_) ;;;
    ret (VBool true).

Definition _handle_delete_all_cookies : Handler := fun action =>
  call delete_all_cookies ;;; ret (VBool true).

Definition _handle_get_cookies : Handler := fun action =>
  call get_cookies.

Definition _handle_get_cookie : Handler := fun action =>
  name_ <- py_get action "name" VNone ;;
  if negb (truthy name_) then
    raise ValueError "Name is required for get_cookie action"
  else call (get_cookie name_).

Definition _handle_add_cookie : Handler := fun action =>
  cookie <- py_get action "cookie" VNone ;;
  if negb (truthy cookie) then
    raise ValueError "Cookie object is required for add_cookie action"
  else
    call (add_cookie cookie) ;;;
    ret (VBool true).

(** ** Dispatch and frames *)

Section Dispatch.

(** [self._get_action_handler] as a handler sees it, one call further down
    the stack. *)
Variable nested_handler : PyVal -> M (option Handler).

Definition run_in_frame (action_item : PyVal) : M unit :=
  action_type <- py_get action_item "type" VNone ;;
  handler <- nested_handler action_type ;;
  match handler with
  | Some handler => handler action_item ;;; ret tt
  | None => ret tt
  end.

Definition _handle_execute_in_frame : Handler := fun action =>
  frame_locator <- py_get action "frame_locator" VNone ;;
  actions <- py_get action "actions" (VList []) ;;
  if negb (truthy frame_locator) || negb (truthy actions) then ret VNone
  else
    try_finally
      (try_except any_exception
         (kind <- py_get frame_locator "type" VNone ;;
          (if eq_str kind "index" then
             value <- py_index frame_locator (VStr "value") ;;
             call (switch_to_frame value)
           else
             frame_element <-
               _find_element (VDict [("locators", VList [frame_locator])]) ;;
             call (switch_to_frame frame_element)) ;;;
          items <- py_iter actions ;;
          for_each items run_in_frame ;;;
          ret VNone)
         (fun e => reraise e))
      (call switch_to_default_content ;;; ret tt).

Definition handlers : list (string * Handler) :=
  [ ("navigate", _handle_navigate);
    ("go_to_url", _handle_navigate);
    ("click", _handle_click);
    ("input", _handle_input);
    ("type", _handle_input);
    ("select", _handle_select);
    ("wait", _handle_wait);
    ("sleep", _handle_wait);
    ("execute_js", _handle_execute_js);
    ("js", _handle_execute_js);
    ("switch_to_window", _handle_switch_window);
    ("key_down", _handle_key_down);
    ("key_up", _handle_key_up);
    ("type_credential", _handle_type_credential);
    ("tab", _handle_tab);
    ("click_coordinates", _handle_click_coordinates);
    ("switch_to_default_content", _handle_switch_default_content);
    ("move_to_element", _handle_move_to_element);
    ("double_click", _handle_double_click);
    ("right_click", _handle_right_click);
    ("drag_and_drop", _handle_drag_and_drop);
    ("scroll_to", _handle_scroll_to);
    ("hover", _handle_hover);
    ("refresh", _handle_refresh);
    ("back", _handle_back);
    ("forward", _handle_forward);
    ("accept_alert", _handle_accept_alert);
    ("dismiss_alert", _handle_dismiss_alert);
    ("switch_to_frame", _handle_switch_to_frame);
    ("switch_to_parent_frame", _handle_switch_to_parent_frame);
    ("execute_async_js", _handle_execute_async_js);
    ("set_window_size", _handle_set_window_size);
    ("maximize_window", _handle_maximize_window);
    ("minimize_window", _handle_minimize_window);
    ("fullscreen_window", _handle_fullscreen_window);
    ("take_screenshot", _handle_take_screenshot);
    ("save_screenshot", _handle_save_screenshot);
    ("set_cookie", _handle_set_cookie);
    ("delete_cookie", _handle_delete_cookie);
    ("delete_all_cookies", _handle_delete_all_cookies);
    ("get_cookies", _handle_get_cookies);
    ("get_cookie", _handle_get_cookie);
    ("add_cookie", _handle_add_cookie);
    ("execute_in_frame", _handle_execute_in_frame);
    ("wait_for_element", _handle_wait_for_element);
    ("wait_for_element_visible", _handle_wait_for_element_visible);
    ("wait_for_element_clickable", _handle_wait_for_element_clickable);
    ("wait_for_element_invisible", _handle_wait_for_element_invisible);
    ("wait_for_page_load", _handle_wait_for_page_load);
    ("wait_for_ajax", _handle_wait_for_ajax);
    ("wait_for_angular", _handle_wait_for_angular);
    ("wait_for_jquery", _handle_wait_for_jquery);
    ("wait_for_js_condition", _handle_wait_for_js_condition);
    ("wait_for_url", _handle_wait_for_url);
    ("wait_for_url_contains", _handle_wait_for_url_contains);
    ("wait_for_title", _handle_wait_for_title);
    ("wait_for_title_contains", _handle_wait_for_title_contains);
    ("wait_for_alert", _handle_wait_for_alert);
    ("wait_for_alert_text", _handle_wait_for_alert_text);
    ("wait_for_alert_text_contains", _handle_wait_for_alert_text_contains);
    ("wait_for_alert_not_present", _handle_wait_for_alert_not_present) ].

Definition lookup_handler (action_type : PyVal) : M (option Handler) :=
  table_get handlers action_type.

End Dispatch.

(** The dispatcher with [depth] levels of nesting left. *)
Fixpoint get_action_handler_within (depth : nat)
  : PyVal -> M (option Handler) :=
  lookup_handler
    match depth with
    | O => fun _ => raise RecursionError "maximum recursion depth exceeded"
    | S depth' => get_action_handler_within depth'
    end.

Definition _get_action_handler : PyVal -> M (option Handler) :=
  get_action_handler_within recursion_limit.

(** ** The session *)

Definition set_driver (present : bool) : M unit :=
  fun s => (Returned tt, mkState present (history s)).

Definition start_driver (headless : bool) : M PyVal :=
  try_except any_exception
    (created <- call (start_chrome headless) ;;
     set_driver true ;;;
     call (set_page_load_timeout 30) ;;;
     ret created)
    (fun e => reraise e).

Definition close : M unit :=
  fun s =>
    if self_driver s then
      try_finally
        (try_except any_exception (call quit ;;; ret tt) (fun _ => ret tt))
        (set_driver false) s
    else (Returned tt, s).

(** ** The orchestrator *)

Definition screenshot_name (prefix : string) (index : nat)
  (action_type : PyVal) : string :=
  prefix ++ "_" ++ nat_to_string index ++ "_" ++ py_str action_type ++ ".png".

(** [screenshot = self.driver.get_screenshot_as_png()] and the two stores
    that follow it, inside their own [try]; a failure is only logged. *)
Definition capture (prefix : string) (index : nat) (action_type : PyVal)
  : ST (ActionResult * (ExecutionResult * State)) unit :=
  try_except any_exception
    (let shot := screenshot_name prefix index action_type in
     screenshot <- lift (lift (call get_screenshot_as_png)) ;;
     lift (update_local (add_screenshot shot screenshot)) ;;;
     update_local (set_action_screenshot shot))
    (fun _ => ret tt).

(** The [try] block of one step. *)
Definition attempt (index : nat) (action action_type : PyVal)
  : ST (ActionResult * (ExecutionResult * State)) bool :=
  handler <- lift (lift (_get_action_handler action_type)) ;;
  match handler with
  | None =>
      raise ValueError
        ("No handler found for action type: " ++ py_str action_type)
  | Some handler =>
      result <- lift (lift (handler action)) ;;
      ended <- lift (lift time_time) ;;
      now <- lift (lift time_time) ;;
      update_local (fun a =>
        set_action_success (truthy result) ended
          (now - action_start_time a)%float a) ;;;
      action_result <- get_local ;;
      (if action_success action_result then
         take <- py_get action "take_screenshot" (VBool false) ;;
         if truthy take then capture "screenshot" index action_type
         else ret tt
       else ret tt) ;;;
      lift (update_local count_executed) ;;;
      ret false
  end.

(** The [except Exception as e] block of one step; its value tells whether
    the loop is left by [break]. *)
Definition recover (index : nat) (action action_type : PyVal) (e : Exn)
  : ST (ActionResult * (ExecutionResult * State)) bool :=
  let error_msg := exn_str e in
  ended <- lift (lift time_time) ;;
  now <- lift (lift time_time) ;;
  update_local (fun a =>
    set_action_failure ended (now - action_start_time a)%float error_msg a) ;;;
  capture "error" index action_type ;;;
  stamp <- lift (lift time_time) ;;
  lift (update_local (append_error (mkErrorEntry action error_msg index stamp))) ;;;
  continue_on_error <- py_get action "continue_on_error" (VBool true) ;;
  ret (is_False continue_on_error).

(** The [finally] block of one step. *)
Definition conclude : ST (ActionResult * (ExecutionResult * State)) unit :=
  action_result <- get_local ;;
  (match action_end_time action_result with
   | None =>
       ended <- lift (lift time_time) ;;
       update_local (set_action_end ended)
   | Some _ => ret tt
   end) ;;;
  action_result <- get_local ;;
  lift (update_local (append_action action_result)).

(** One round of the loop over the actions; [true] when it ends in
    [break]. *)
Definition run_action (index : nat) (action : PyVal)
  : ST (ExecutionResult * State) bool :=
  action_type <- lift (py_get action "type" VNone) ;;
  description <- lift (py_get action "description" (VStr "")) ;;
  started <- lift time_time ;;
  with_local
    (mkActionResult index action_type description false started None 0
       None None)
    (try_finally
       (try_except any_exception
          (attempt index action action_type)
          (recover index action action_type))
       conclude).

Fixpoint run_actions (index : nat) (remaining : list PyVal)
  : ST (ExecutionResult * State) unit :=
  match remaining with
  | [] => ret tt
  | action :: rest =>
      stop <- run_action index action ;;
      if stop then ret tt else run_actions (S index) rest
  end.

Definition initial_results (total : nat) (started : float)
  : ExecutionResult :=
  mkExecutionResult true 0 total [] [] 0 started None [] VNone VNone VNone
    VNone VNone None None.

(** The outer [try] block. *)
Definition replay (script_data : PyVal)
  : ST (ExecutionResult * State) ExecutionResult :=
  name_ <- py_get script_data "name" (VStr "Unnamed Script") ;;
  description_ <- py_get script_data "description" (VStr "") ;;
  version_ <- py_get script_data "version" (VStr "1.0") ;;
  created <- py_get script_data "created_at" (VStr "") ;;
  updated <- py_get script_data "updated_at" (VStr "") ;;
  update_local (set_metadata name_ description_ version_ created updated) ;;;
  listed <- py_get script_data "actions" (VList []) ;;
  remaining <- py_iter listed ;;
  run_actions 1 remaining ;;;
  ended <- lift time_time ;;
  now <- lift time_time ;;
  update_local (fun r => finish ended (now - start_time r)%float r) ;;;
  get_local.

(** The outer [except Exception as e] block. *)
Definition give_up_with (e : Exn)
  : ST (ExecutionResult * State) ExecutionResult :=
  let error_msg :=
    ("Unexpected error during script execution: " ++ exn_str e)%string in
  ended <- lift time_time ;;
  now <- lift time_time ;;
  update_local (fun r =>
    fail_with ended (now - start_time r)%float error_msg r) ;;;
  get_local.

Definition execute_script (script_data : PyVal) : M ExecutionResult :=
  (fun s =>
     if self_driver s then (Returned tt, s)
     else (start_driver false ;;; ret tt) s) ;;;
  listed <- py_get script_data "actions" (VList []) ;;
  total <- py_len listed ;;
  started <- time_time ;;
  with_local (initial_results total started)
    (try_except any_exception (replay script_data) give_up_with).

(** ** The callers of the executor *)

(** [ScriptExecutor(...)]: a new executor object holds no driver. *)
Definition __init__ : M unit := set_driver false.

(** [__exit__] calls [close] and returns [None], so an exception of the
    body of the [with] statement goes on to the caller. *)
Definition __exit__ : M unit := close.

(** The module-level helper [execute_script(script_data, chrome_options,
    headless)] of [script_executor.py]: the [with] statement over a new
    executor. *)
Definition module_execute_script (script_data headless : PyVal)
  : M ExecutionResult :=
  __init__ ;;;
  try_finally
    (start_driver (truthy headless) ;;;
     execute_script script_data)
    __exit__.

(** The ['details'] of a response of the server: the ['errors'] are the
    entries of the results on the normal path and a list of one message on
    the path of the [except] block. *)
Record Details : Type := mkDetails {
  details_executed_actions : nat;
  details_total_actions : nat;
  details_errors : list ErrorEntry + list string
}.

(** The response dictionary of [handle_automation_script]. *)
Record Response : Type := mkResponse {
  response_type : string;
  response_status : string;
  response_message : string;
  response_details : Details
}.

(** The response of the [try] block of [handle_automation_script]. *)
Definition completed_response (script_name : PyVal)
  (results : ExecutionResult) : Response :=
  mkResponse "automation_response"
    (if success results then "success" else "error")
    ("Script " ++ dquote ++ py_str script_name ++ dquote ++ " completed")
    (mkDetails (executed_actions results) (total_actions results)
       (inl (errors results))).

(** The response of its [except] block. *)
Definition failed_response (e : Exn) (total : nat) : Response :=
  mkResponse "automation_response" "error"
    ("Script execution failed: " ++ exn_str e)
    (mkDetails 0 total (inr [exn_str e])).

(** [AutomationServer.handle_automation_script] of [server.py].  The three
    reads of the request come before the [try] statement; the [finally]
    block closes the executor the [try] block created. *)
Definition handle_automation_script (data : PyVal) : M Response :=
  script_data <- py_get data "script" (VDict []) ;;
  script_name <- py_get script_data "name" (VStr "Unnamed Script") ;;
  headless <- py_get data "headless" (VBool false) ;;
  try_finally
    (try_except any_exception
       (__init__ ;;;
        start_driver (truthy headless) ;;;
        results <- execute_script script_data ;;
        ret (completed_response script_name results))
       (fun e =>
          listed <- py_get script_data "actions" (VList []) ;;
          total <- py_len listed ;;
          ret (failed_response e total)))
    close.

(** [type(e).__name__] *)
Definition class_name (c : ExnClass) : string :=
  match c with
  | ValueError => "ValueError"
  | TypeError => "TypeError"
  | AttributeError => "AttributeError"
  | KeyError => "KeyError"
  | IndexError => "IndexError"
  | RecursionError => "RecursionError"
  | NoSuchElementException => "NoSuchElementException"
  | TimeoutException => "TimeoutException"
  | OtherException n => n
  end.

(** What the server hands to [websocket.send], before [json.dumps]: the
    four shapes of its response dictionaries. *)
Inductive Reply : Type :=
| chrome_response (status message : string)
| automation_response (response : Response)
| pong (timestamp : PyVal) (server_time : Z)
| error_reply (message : string) (error_type : option string).

(** [AutomationServer.handle_chrome_integration].  [self.chrome_process] is
    [None] from [__init__] on and never assigned a process, so the ['stop']
    branch terminates nothing.  An action other than ['start'] and ['stop']
    falls off the end of the function: the result is [None]. *)
Definition handle_chrome_integration (data : PyVal) : M (option Reply) :=
  try_except any_exception
    (action <- py_get data "action" VNone ;;
     if eq_str action "start" then
       ret (Some (chrome_response "success" "Chrome integration started"))
     else if eq_str action "stop" then
       ret (Some (chrome_response "success" "Chrome integration stopped"))
     else ret None)
    (fun e => ret (Some (chrome_response "error" (exn_str e)))).

(** One round of the message loop of [AutomationServer.handle_message], from
    the decoded message on: the response that is sent, if any.  Decoding
    and the connection itself are outside the model. *)
Definition handle_message (data : PyVal) : M (option Reply) :=
  try_except any_exception
    (message_type <- py_get data "type" VNone ;;
     if eq_str message_type "chrome_integration" then
       handle_chrome_integration data
     else if eq_str message_type "automation_script" then
       response <- handle_automation_script data ;;
       ret (Some (automation_response response))
     else if eq_str message_type "ping" then
       timestamp <- py_get data "timestamp" VNone ;;
       ret (Some (pong timestamp 12345))
     else
       ret (Some (error_reply
                    ("Unknown message type: " ++ py_str message_type) None)))
    (fun e =>
       ret (Some (error_reply ("Message handling error: " ++ exn_str e)
                    (Some (class_name (exn_class e)))))).

(** ** Vocabulary of the properties *)

(** A locator entry as the script format writes it: the pair
    [[strategy, value]]. *)
Definition locator_entry (l : string * PyVal) : PyVal :=
  VList [VStr (fst l); snd l].

(** The strategy a name selects in [_get_by_from_string] (and in
    [_handle_click]): the table entry of the upper-cased name. *)
Definition by_of_name (strategy : string) : option By :=
  assoc (upper strategy) by_table.

(** The waits a resolver issues for a list of locators when every one of
    them is attempted: one wait per locator whose strategy name is
    supported, each with the whole [timeout]. *)
Definition wait_calls (supported : string -> option By)
  (condition : By -> PyVal -> Condition) (timeout : PyVal)
  (locs : list (string * PyVal)) : list Call :=
  flat_map
    (fun l =>
       match supported (fst l) with
       | Some by_ => [wait_until timeout (condition by_ (snd l)) ""]
       | None => []
       end)
    locs.

(** The history after the driver has answered [calls] one after the other. *)
Fixpoint played (h : list Event) (calls : list Call) : list Event :=
  match calls with
  | [] => h
  | c :: rest => played (h ++ [Called c (driver h c)]) rest
  end.

(** Every one of [calls], issued in turn from history [h], is answered by
    a not-found or a timeout exception. *)
Fixpoint all_miss (h : list Event) (calls : list Call) : bool :=
  match calls with
  | [] => true
  | c :: rest =>
      match driver h c with
      | Raised e =>
          not_found_or_timeout e && all_miss (h ++ [Called c (driver h c)]) rest
      | Returned _ => false
      end
  end.

(** [action.get('timeout', 10)] *)
Definition timeout_of (kvs : list (string * PyVal)) : PyVal :=
  get_or "timeout" kvs (VInt 10).

Definition after (s : State) (calls : list Call) : State :=
  mkState (self_driver s) (played (history s) calls).

(** The state after one reading of the clock. *)
Definition tick (s : State) : State :=
  mkState (self_driver s) (history s ++ [Clock (clock (history s))]).

(** The lazy start of [execute_script]: nothing to do when the driver is
    set, a [start_driver()] that returns otherwise. *)
Definition can_start (s : State) : bool :=
  if self_driver s then true
  else match fst (start_driver false s) with
       | Returned _ => true
       | Raised _ => false
       end.

(** The state [execute_script] replays the script in: the state it was
    called in when the driver is set, the state after the lazy start
    otherwise. *)
Definition entered (s : State) : State :=
  if self_driver s then s else snd (start_driver false s).

(** The part of a step's [try] block that can raise: finding the handler
    and running it on the action. *)
Definition invoke (action_type action : PyVal) : M PyVal :=
  handler <- _get_action_handler action_type ;;
  match handler with
  | None =>
      raise ValueError
        ("No handler found for action type: " ++ py_str action_type)
  | Some handler => handler action
  end.

(** What [capture] leaves behind: the screenshot stored under its name when
    the driver delivers one, nothing but the call in the history when it
    does not. *)
Definition captured (prefix : string) (index : nat) (action_type : PyVal)
  (x : ActionResult * (ExecutionResult * State))
  : ActionResult * (ExecutionResult * State) :=
  let s := snd (snd x) in
  let shot := screenshot_name prefix index action_type in
  match driver (history s) get_screenshot_as_png with
  | Returned png =>
      (set_action_screenshot shot (fst x),
       (add_screenshot shot png (fst (snd x)), after s [get_screenshot_as_png]))
  | Raised _ => (fst x, (fst (snd x), after s [get_screenshot_as_png]))
  end.

(** The [action_result] a step starts from. *)
Definition fresh_action_result (index : nat) (kvs : list (string * PyVal))
  (started : float) : ActionResult :=
  mkActionResult index (get_or "type" kvs VNone)
    (get_or "description" kvs (VStr "")) false started None 0 None None.

(** The loop over a prefix of the actions, telling whether it was left by
    [break]. *)
Fixpoint run_prefix (index : nat) (pre : list PyVal)
  : ST (ExecutionResult * State) bool :=
  match pre with
  | [] => ret false
  | action :: rest =>
      stop <- run_action index action ;;
      if stop then ret true else run_prefix (S index) rest
  end.

(** The values [len] accepts; [iter] accepts them too. *)
Definition has_len (v : PyVal) : bool :=
  match v with
  | VList _ | VStr _ | VDict _ | VBytes _ => true
  | _ => false
  end.

Definition length_of (v : PyVal) : nat :=
  match v with
  | VList l => List.length l
  | VStr s => List.length (chars s)
  | VDict kvs => List.length kvs
  | VBytes bs => String.length bs
  | _ => 0
  end.

Definition items_of (v : PyVal) : list PyVal :=
  match v with
  | VList l => l
  | VStr s => chars s
  | VDict kvs => List.map (fun kv => VStr (fst kv)) kvs
  | VBytes bs => byte_values bs
  | _ => []
  end.

(** The [results] the loop starts from: the initial dictionary with the
    script's metadata. *)
Definition opening_results (kvs : list (string * PyVal)) (started : float)
  : ExecutionResult :=
  set_metadata (get_or "name" kvs (VStr "Unnamed Script"))
    (get_or "description" kvs (VStr "")) (get_or "version" kvs (VStr "1.0"))
    (get_or "created_at" kvs (VStr "")) (get_or "updated_at" kvs (VStr ""))
    (initial_results (length_of (get_or "actions" kvs (VList []))) started).

(** The result a run returned, or an empty one when it raised. *)
Definition returned_result (out : Outcome ExecutionResult * State)
  : ExecutionResult :=
  match fst out with
  | Returned r => r
  | Raised _ => initial_results 0 0
  end.

(** An [ActionResult] that carries an error message. *)
Definition failed (a : ActionResult) : bool :=
  match action_error a with Some _ => true | None => false end.

(** The bookkeeping the loop maintains: every recorded step was either
    counted as executed or entered in [errors]; every recorded step has its
    end time; the steps are numbered from 1; and [errors] has one entry per
    step that carries an error. *)
Definition well_counted (r : ExecutionResult) : Prop :=
  executed_actions r + List.length (errors r) = List.length (actions r)
  /\ Forall (fun a => action_end_time a <> None) (actions r)
  /\ List.map action_index (actions r) = List.seq 1 (List.length (actions r))
  /\ List.length (errors r) = List.length (List.filter failed (actions r)).

(** The frame-context stack of the session, read off the history: a
    successful switch into a frame goes one level down, a switch to the
    parent one level up, a switch to the default content back to the top. *)
Fixpoint depth_from (d : nat) (h : list Event) : nat :=
  match h with
  | [] => d
  | Called (switch_to_frame _) (Returned _) :: rest => depth_from (S d) rest
  | Called switch_to_parent_frame (Returned _) :: rest =>
      depth_from (Nat.pred d) rest
  | Called switch_to_default_content (Returned _) :: rest => depth_from 0 rest
  | _ :: rest => depth_from d rest
  end.

Definition frame_depth (h : list Event) : nat := depth_from 0 h.

(** The calls that start or end a browser: the ones [start_driver] and
    [close] make. *)
Definition session_call (c : Call) : bool :=
  match c with
  | start_chrome _ | set_page_load_timeout _ | quit => true
  | _ => false
  end.

(** An event that leaves the browser running as it was. *)
Definition page_event (ev : Event) : bool :=
  match ev with
  | Called c _ => negb (session_call c)
  | Clock _ => true
  end.

(** [s'] continues the session of [s]: the executor holds a driver in [s']
    exactly when it does in [s], and the history of [s'] is the history of
    [s] followed by events that neither start nor end a browser. *)
Definition continues (s s' : State) : Prop :=
  self_driver s' = self_driver s
  /\ exists t, history s' = history s ++ t /\ forallb page_event t = true.

(** The states a computation of the executor runs on: the executor object
    itself, or the object next to the locals of the orchestrator. *)
Class HasSession (S : Type) : Type := session : S -> State.

#[local] Instance session_of_state : HasSession State := fun s => s.

#[local] Instance session_beside_local {L S} `{HasSession S}
  : HasSession (L * S) := fun ls => session (snd ls).

(** A computation that continues the session it is run in, whatever it
    ends in. *)
Definition steady {S A} `{HasSession S} (m : ST S A) : Prop :=
  forall x, continues (session x) (session (snd (m x))).

(** Every one of [calls], issued in turn from history [h], is answered
    with a value. *)
Fixpoint all_return (h : list Event) (calls : list Call) : bool :=
  match calls with
  | [] => true
  | c :: rest =>
      match driver h c with
      | Returned _ => all_return (h ++ [Called c (driver h c)]) rest
      | Raised _ => false
      end
  end.

(** Every one of [calls], issued in turn from history [h], is answered by
    an exception, of whatever class. *)
Fixpoint all_raise (h : list Event) (calls : list Call) : bool :=
  match calls with
  | [] => true
  | c :: rest =>
      match driver h c with
      | Raised _ => all_raise (h ++ [Called c (driver h c)]) rest
      | Returned _ => false
      end
  end.

(** The waits of [_handle_click]: the clickable condition with its own
    five seconds, for every locator whose strategy name is in the table. *)
Definition click_waits (locs : list (string * PyVal)) : list Call :=
  wait_calls by_of_name element_to_be_clickable (VInt 5) locs.

(** The click [_handle_click] performs on an element it found. *)
Definition click_on (element : PyVal) : Call :=
  perform [move_to_element_with_offset element 1 1; click].

(** [not action.get(key)] and [action.get(key) is None] *)
Definition lacks (key : string) (kvs : list (string * PyVal)) : bool :=
  negb (truthy (get_or key kvs VNone)).

Definition undefined (key : string) (kvs : list (string * PyVal)) : bool :=
  is_None (get_or key kvs VNone).

(** The parameter checks the handlers open with, by action type: the
    condition under which the handler raises its [ValueError]. *)
Definition required_parameters
  : list (string * (list (string * PyVal) -> bool)) :=
  [ ("navigate", lacks "url");
    ("go_to_url", lacks "url");
    ("execute_js", lacks "script");
    ("js", lacks "script");
    ("key_down", lacks "key");
    ("key_up", lacks "key");
    ("type_credential", lacks "credential_type");
    ("click_coordinates", fun kvs => undefined "x" kvs || undefined "y" kvs);
    ("switch_to_frame", undefined "frame_reference");
    ("execute_async_js", lacks "script");
    ("set_window_size",
     fun kvs => undefined "width" kvs || undefined "height" kvs);
    ("set_cookie", fun kvs => lacks "name" kvs || undefined "value" kvs);
    ("delete_cookie", lacks "name");
    ("get_cookie", lacks "name");
    ("add_cookie", lacks "cookie");
    ("wait_for_element", lacks "locators");
    ("wait_for_element_visible", lacks "locators");
    ("wait_for_element_clickable", lacks "locators");
    ("wait_for_element_invisible", lacks "locators");
    ("wait_for_js_condition", lacks "script");
    ("wait_for_url", lacks "url");
    ("wait_for_url_contains", lacks "substring");
    ("wait_for_title", lacks "title");
    ("wait_for_title_contains", lacks "substring");
    ("wait_for_alert_text", lacks "text");
    ("wait_for_alert_text_contains", lacks "substring") ].

(** The keys [_handle_input] sends: the two that clear the field, when asked
    to, and then the text one character at a time, each followed by a pause
    of a hundredth of a second. *)
Definition typing_calls (element : PyVal) (clear_first : bool)
  (typed : list PyVal) : list Call :=
  (if clear_first
   then [send_keys element (VStr select_all_keys);
         send_keys element (VStr Keys_DELETE)]
   else [])
  ++ flat_map
       (fun char =>
          [send_keys element char; sleep (VFloat 0x1.47ae147ae147bp-7)])
       typed.

(** The answer of [handle_automation_script] to what its [try] block ended
    in. *)
Definition answer (skvs : list (string * PyVal))
  (o : Outcome ExecutionResult) : Outcome Response :=
  match o with
  | Returned results =>
      Returned
        (completed_response (get_or "name" skvs (VStr "Unnamed Script"))
           results)
  | Raised e =>
      if has_len (get_or "actions" skvs (VList []))
      then Returned
             (failed_response e
                (length_of (get_or "actions" skvs (VList []))))
      else Raised (mkExn TypeError "object has no len()")
  end.

(** The decoded messages the server sends nothing back for: a
    ['chrome_integration'] message whose action is neither ['start'] nor
    ['stop']. *)
Definition unanswered (data : PyVal) : bool :=
  match data with
  | VDict kvs =>
      eq_str (get_or "type" kvs VNone) "chrome_integration"
      && negb (eq_str (get_or "action" kvs VNone) "start")
      && negb (eq_str (get_or "action" kvs VNone) "stop")
  | _ => false
  end.

(** ** Properties of the locator resolvers *)

Lemma played_app h calls more :
  played h (calls ++ more) = played (played h calls) more.
Proof.
  revert h. induction calls as [|c calls IH]; intro h; simpl.
  - reflexivity.
  - apply IH.
Qed.

Lemma unpack2_entry {S} (l : string * PyVal) (s : S) :
  unpack2 (locator_entry l) s = (Returned (VStr (fst l), snd l), s).
Proof. reflexivity. Qed.

Lemma get_by_from_string_name strategy s :
  _get_by_from_string (VStr strategy) s = (Returned (by_of_name strategy), s).
Proof. reflexivity. Qed.

(** The strategy table is read through [upper]: two spellings of a name
    that differ only in case select the same strategy. *)
Lemma get_by_from_string_case a b s :
  upper a = upper b ->
  _get_by_from_string (VStr a) s = _get_by_from_string (VStr b) s.
Proof.
  intro H. rewrite !get_by_from_string_name. unfold by_of_name.
  now rewrite H.
Qed.

(** While every wait misses, the loop of [_find_element_with_wait] moves on
    to the locators that remain. *)
Lemma find_with_wait_loop_skip condition timeout locators pre rest s :
  all_miss (history s) (wait_calls by_of_name condition timeout pre) = true ->
  find_with_wait_loop condition timeout locators
    (List.map locator_entry pre ++ rest) s
  = find_with_wait_loop condition timeout locators rest
      (after s (wait_calls by_of_name condition timeout pre)).
Proof.
  revert s. induction pre as [|l pre IH]; intros s Hmiss.
  - destruct s; reflexivity.
  - cbn [List.map List.app find_with_wait_loop].
    unfold bind at 1. rewrite unpack2_entry.
    unfold bind at 1. rewrite get_by_from_string_name.
    cbn [wait_calls flat_map] in Hmiss |- *.
    destruct (by_of_name (fst l)) as [by_|] eqn:Hby.
    + cbn [List.app all_miss] in Hmiss.
      unfold try_except, call.
      destruct (driver (history s) _) as [v|e] eqn:Hd; [discriminate|].
      apply andb_prop in Hmiss as [Hcls Hmiss].
      rewrite Hcls.
      rewrite IH by exact Hmiss.
      unfold after. cbn [List.app played history self_driver].
      now rewrite Hd.
    + cbn [List.app] in Hmiss |- *. apply IH, Hmiss.
Qed.

Lemma find_element_loop_skip timeout locators pre rest s :
  all_miss (history s)
    (wait_calls (fun n => strategy_of (VStr n)) visibility_of_element_located
       timeout pre) = true ->
  find_element_loop timeout locators (List.map locator_entry pre ++ rest) s
  = find_element_loop timeout locators rest
      (after s (wait_calls (fun n => strategy_of (VStr n))
                  visibility_of_element_located timeout pre)).
Proof.
  revert s. induction pre as [|l pre IH]; intros s Hmiss.
  - destruct s; reflexivity.
  - cbn [List.map List.app find_element_loop].
    unfold bind at 1. rewrite unpack2_entry.
    cbn [wait_calls flat_map] in Hmiss |- *.
    destruct (strategy_of (VStr (fst l))) as [by_|] eqn:Hby.
    + cbn [List.app all_miss] in Hmiss.
      unfold try_except, call.
      destruct (driver (history s) _) as [v|e] eqn:Hd; [discriminate|].
      apply andb_prop in Hmiss as [Hcls Hmiss].
      rewrite Hcls.
      rewrite IH by exact Hmiss.
      unfold after. cbn [List.app played history self_driver].
      now rewrite Hd.
    + cbn [List.app] in Hmiss |- *. apply IH, Hmiss.
Qed.

Lemma truthy_entries l rest :
  truthy (VList (List.map locator_entry (l :: rest))) = true.
Proof. reflexivity. Qed.

Lemma truthy_entries_app pre hit post :
  truthy (VList (List.map locator_entry (pre ++ hit :: post))) = true.
Proof. destruct pre; reflexivity. Qed.

Lemma find_element_with_wait_unfold condition kvs locs s :
  lookup "locators" kvs = Some (VList (List.map locator_entry locs)) ->
  locs <> [] ->
  _find_element_with_wait (VDict kvs) condition s
  = find_with_wait_loop condition (timeout_of kvs)
      (VList (List.map locator_entry locs)) (List.map locator_entry locs) s.
Proof.
  intros Hl Hne. unfold _find_element_with_wait, py_get, timeout_of.
  unfold get_or at 1. rewrite Hl. unfold bind at 1 2. cbn [ret].
  destruct locs as [|l locs]; [congruence|].
  rewrite truthy_entries. reflexivity.
Qed.

Lemma find_element_unfold kvs locs s :
  lookup "locators" kvs = Some (VList (List.map locator_entry locs)) ->
  _find_element (VDict kvs) s
  = find_element_loop (timeout_of kvs)
      (VList (List.map locator_entry locs)) (List.map locator_entry locs) s.
Proof.
  intros Hl. unfold _find_element, py_get, timeout_of.
  unfold get_or at 1. rewrite Hl. reflexivity.
Qed.

Lemma wait_calls_app supported condition timeout pre post :
  wait_calls supported condition timeout (pre ++ post)
  = wait_calls supported condition timeout pre
      ++ wait_calls supported condition timeout post.
Proof. unfold wait_calls. apply flat_map_app. Qed.

Lemma wait_calls_timeout supported condition timeout locs c :
  In c (wait_calls supported condition timeout locs) ->
  exists by_ value, c = wait_until timeout (condition by_ value) "".
Proof.
  unfold wait_calls. rewrite in_flat_map. intros [l [_ Hin]].
  destruct (supported (fst l)) as [by_|]; [|contradiction].
  destruct Hin as [<-|[]]. now exists by_, (snd l).
Qed.

(** C5.  A fallback chain is tried in order: when the locators before
    [hit] all end in a not-found or timeout exception and the wait for [hit]
    succeeds, the resolver returns that element, and the waits it has issued
    are exactly those for the locators up to [hit] -- none for the locators
    after it.  Every wait carries the action's whole timeout.  When every
    wait of the chain misses, the resolver raises the not-found error whose
    message names the locator list.  This holds for the explicit-wait
    resolver and for the generic one, each with its own strategy names. *)
Theorem locator_fallback_chain
  (condition : By -> PyVal -> Condition) (kvs : list (string * PyVal))
  (pre : list (string * PyVal)) (hit : string * PyVal)
  (post : list (string * PyVal)) (by_ : By) (element : PyVal) (s : State)
  (Hlocators :
     lookup "locators" kvs
     = Some (VList (List.map locator_entry (pre ++ hit :: post)))) :
  let timeout := timeout_of kvs in
  let locators := VList (List.map locator_entry (pre ++ hit :: post)) in
  let explicit := wait_calls by_of_name condition timeout in
  let generic :=
    wait_calls (fun n => strategy_of (VStr n)) visibility_of_element_located
      timeout in
  (by_of_name (fst hit) = Some by_ ->
   all_miss (history s) (explicit pre) = true ->
   driver (played (history s) (explicit pre))
     (wait_until timeout (condition by_ (snd hit)) "") = Returned element ->
   _find_element_with_wait (VDict kvs) condition s
   = (Returned element, after s (explicit (pre ++ [hit]))))
  /\ (strategy_of (VStr (fst hit)) = Some by_ ->
      all_miss (history s) (generic pre) = true ->
      driver (played (history s) (generic pre))
        (wait_until timeout (visibility_of_element_located by_ (snd hit)) "")
      = Returned element ->
      _find_element (VDict kvs) s
      = (Returned element, after s (generic (pre ++ [hit]))))
  /\ (all_miss (history s) (explicit (pre ++ hit :: post)) = true ->
      _find_element_with_wait (VDict kvs) condition s
      = (Raised (mkExn NoSuchElementException
                   ("Element not found with locators: " ++ py_repr locators)),
         after s (explicit (pre ++ hit :: post))))
  /\ (all_miss (history s) (generic (pre ++ hit :: post)) = true ->
      _find_element (VDict kvs) s
      = (Raised (mkExn NoSuchElementException
                   ("Could not find element with any of the provided locators: "
                      ++ py_repr locators)),
         after s (generic (pre ++ hit :: post))))
  /\ (forall c, In c (explicit (pre ++ hit :: post))
                \/ In c (generic (pre ++ hit :: post)) ->
      exists cnd, c = wait_until timeout cnd "").
Proof.
  intros timeout locators explicit generic.
  subst explicit generic locators.
  assert (Hne : pre ++ hit :: post <> []) by (destruct pre; discriminate).
  repeat split.
  - intros Hby Hmiss Hhit.
    rewrite (find_element_with_wait_unfold _ _ _ _ Hlocators Hne).
    rewrite map_app. cbn [List.map].
    fold timeout. rewrite find_with_wait_loop_skip by exact Hmiss.
    cbn [find_with_wait_loop]. unfold bind at 1. rewrite unpack2_entry.
    unfold bind at 1. rewrite get_by_from_string_name, Hby.
    unfold try_except, call, after. cbn [history self_driver].
    rewrite Hhit, wait_calls_app, played_app.
    cbn [wait_calls flat_map]. rewrite Hby. cbn [List.app played].
    now rewrite Hhit.
  - intros Hby Hmiss Hhit.
    rewrite (find_element_unfold _ _ _ Hlocators).
    rewrite map_app. cbn [List.map].
    fold timeout. rewrite find_element_loop_skip by exact Hmiss.
    cbn [find_element_loop]. unfold bind at 1. rewrite unpack2_entry.
    cbn beta iota zeta. rewrite Hby.
    unfold try_except, call, after. cbn [history self_driver].
    rewrite Hhit, wait_calls_app, played_app.
    cbn [wait_calls flat_map]. rewrite Hby. cbn [List.app played].
    now rewrite Hhit.
  - intros Hmiss.
    rewrite (find_element_with_wait_unfold _ _ _ _ Hlocators Hne).
    rewrite <- (app_nil_r (List.map locator_entry (pre ++ hit :: post))) at 2.
    fold timeout. now rewrite find_with_wait_loop_skip by exact Hmiss.
  - intros Hmiss.
    rewrite (find_element_unfold _ _ _ Hlocators).
    rewrite <- (app_nil_r (List.map locator_entry (pre ++ hit :: post))) at 2.
    fold timeout. now rewrite find_element_loop_skip by exact Hmiss.
  - intros c [Hin|Hin]; apply wait_calls_timeout in Hin;
      destruct Hin as [b [v ->]]; eauto.
Qed.

(** C4 (amended).  With no locators (the key absent, or an empty list) no
    resolver reaches the driver: the state is unchanged when it fails.  The
    explicit-wait resolver and the invisibility handler fail with their
    parameter error; the generic resolver fails too. *)
Theorem empty_locators_no_lookup
  (condition : By -> PyVal -> Condition) (kvs : list (string * PyVal))
  (s : State)
  (Hempty : lookup "locators" kvs = None
            \/ lookup "locators" kvs = Some (VList [])) :
  _find_element_with_wait (VDict kvs) condition s
  = (Raised (mkExn ValueError "No locators provided for wait action"), s)
  /\ _handle_wait_for_element_invisible (VDict kvs) s
     = (Raised (mkExn ValueError
                  "No locators provided for wait_for_element_invisible"), s)
  /\ exists e, _find_element (VDict kvs) s = (Raised e, s).
Proof.
  unfold _find_element_with_wait, _handle_wait_for_element_invisible,
    _find_element, py_get, get_or.
  destruct Hempty as [H|H]; rewrite H;
    destruct (lookup "timeout" kvs); repeat split; eexists; reflexivity.
Qed.

(** C7.  The generic resolver compares the strategy name as written, in
    lower case and with its own vocabulary, while the explicit-wait resolver
    and the click handler upper-case the name first: ["ID"] selects no
    strategy in [_find_element], which then fails without any lookup, and
    ["css"] selects one only there. *)
Theorem strategy_names_differ_between_resolvers
  (condition : By -> PyVal -> Condition) (value : PyVal) (s : State) :
  let action := VDict [("locators", VList [locator_entry ("ID", value)])] in
  strategy_of (VStr "id") = Some ID
  /\ strategy_of (VStr "ID") = None
  /\ by_of_name "id" = Some ID
  /\ by_of_name "ID" = Some ID
  /\ strategy_of (VStr "css") = Some CSS_SELECTOR
  /\ by_of_name "css" = None
  /\ _find_element action s
     = (Raised (mkExn NoSuchElementException
                  (not_found_any
                     (VList [locator_entry ("ID", value)]))), s)
  /\ snd (_find_element_with_wait action condition s)
     = after s [wait_until (VInt 10) (condition ID value) ""].
Proof.
  cbv zeta. repeat split.
  assert (Hby : by_of_name "ID" = Some ID) by reflexivity.
  rewrite (find_element_with_wait_unfold condition _ [("ID", value)] s)
    by (reflexivity || discriminate).
  change (timeout_of _) with (VInt 10).
  cbn [List.map find_with_wait_loop]. unfold bind at 1.
  rewrite unpack2_entry. unfold bind at 1.
  rewrite get_by_from_string_name. cbn [fst snd]. rewrite Hby.
  unfold try_except, call, after. cbn [played history self_driver].
  destruct (driver (history s) _) as [v|e]; [reflexivity|].
  destruct (not_found_or_timeout e); reflexivity.
Qed.

Lemma has_key_lookup k kvs :
  existsb (fun kv : string * PyVal => fst kv =? k) kvs
  = match lookup k kvs with Some _ => true | None => false end.
Proof.
  induction kvs as [|[k' v] kvs IH]; cbn [existsb lookup fst]; [reflexivity|].
  destruct (k' =? k); [reflexivity|exact IH].
Qed.

(** ** Running the monad *)

Lemma bind_returned {S A B} (m : ST S A) (k : A -> ST S B) s a s' :
  m s = (Returned a, s') -> bind m k s = k a s'.
Proof. intro H. unfold bind. now rewrite H. Qed.

Lemma bind_raised {S A B} (m : ST S A) (k : A -> ST S B) s e s' :
  m s = (Raised e, s') -> bind m k s = (Raised e, s').
Proof. intro H. unfold bind. now rewrite H. Qed.

Lemma lift_run {L S A} (m : ST S A) (l : L) s o s' :
  m s = (o, s') -> lift m (l, s) = (o, (l, s')).
Proof. intro H. unfold lift. cbn [fst snd]. now rewrite H. Qed.

Lemma py_get_dict {S} kvs k default (s : S) :
  py_get (VDict kvs) k default s = (Returned (get_or k kvs default), s).
Proof. reflexivity. Qed.

Lemma time_time_run s :
  time_time s = (Returned (clock (history s)), tick s).
Proof. reflexivity. Qed.

Lemma capture_run prefix index action_type x :
  capture prefix index action_type x
  = (Returned tt, captured prefix index action_type x).
Proof.
  destruct x as [a [r s]].
  unfold capture, captured, try_except, bind, lift, call, update_local, after.
  cbn [fst snd played history self_driver].
  destruct (driver (history s) get_screenshot_as_png); reflexivity.
Qed.

Lemma captured_results prefix index action_type x :
  let y := captured prefix index action_type x in
  errors (fst (snd y)) = errors (fst (snd x))
  /\ actions (fst (snd y)) = actions (fst (snd x))
  /\ executed_actions (fst (snd y)) = executed_actions (fst (snd x))
  /\ total_actions (fst (snd y)) = total_actions (fst (snd x))
  /\ error (fst (snd y)) = error (fst (snd x)).
Proof.
  unfold captured. cbv zeta.
  destruct (driver _ get_screenshot_as_png); repeat split.
Qed.

Lemma captured_action prefix index action_type x :
  let y := captured prefix index action_type x in
  action_index (fst y) = action_index (fst x)
  /\ action_success (fst y) = action_success (fst x)
  /\ action_error (fst y) = action_error (fst x)
  /\ action_end_time (fst y) = action_end_time (fst x).
Proof.
  unfold captured. cbv zeta.
  destruct (driver _ get_screenshot_as_png); repeat split.
Qed.


(** C8 (amended).  A select action first resolves its element and wraps it;
    only then does it look at the criteria.  Exactly one selection call
    follows, by value when ['value'] is present, else by index when ['index']
    is, else by visible text; with none of the three the handler raises its
    parameter error and issues no selection call.  When the element does not
    resolve, or cannot be wrapped, that failure is the handler's outcome,
    whatever the criteria. *)
Theorem select_criteria_priority
  (kvs : list (string * PyVal)) (s : State) :
  (forall s1 s2 element select,
     _find_element (VDict kvs) s = (Returned element, s1) ->
     call (Select element) s1 = (Returned select, s2) ->
     _handle_select (VDict kvs) s
     = match lookup "value" kvs with
       | Some value =>
           (call (select_by_value select value) ;;; ret (VBool true)) s2
       | None =>
           match lookup "index" kvs with
           | Some index =>
               (call (select_by_index select index) ;;; ret (VBool true)) s2
           | None =>
               match lookup "visible_text" kvs with
               | Some text =>
                   (call (select_by_visible_text select text) ;;;
                    ret (VBool true)) s2
               | None =>
                   (Raised (mkExn ValueError
                      "No valid selection criteria provided for select action"),
                    s2)
               end
           end
       end)
  /\ (forall e s1,
        _find_element (VDict kvs) s = (Raised e, s1) ->
        _handle_select (VDict kvs) s = (Raised e, s1))
  /\ (forall s1 element e s2,
        _find_element (VDict kvs) s = (Returned element, s1) ->
        call (Select element) s1 = (Raised e, s2) ->
        _handle_select (VDict kvs) s = (Raised e, s2)).
Proof.
  split; [|split].
  - intros s1 s2 element select Hfound Hwrapped.
    unfold _handle_select. unfold bind at 1. rewrite Hfound.
    unfold bind at 1. rewrite Hwrapped.
    unfold try_except, any_exception, py_in, py_index.
    unfold bind at 1 2. cbn [ret]. rewrite has_key_lookup.
    destruct (lookup "value" kvs) as [value|].
    { unfold bind. cbn [ret].
      destruct (call (select_by_value select value) s2) as [[v|e] s3];
        reflexivity. }
    unfold bind at 1 2. cbn [ret]. rewrite has_key_lookup.
    destruct (lookup "index" kvs) as [index|].
    { unfold bind. cbn [ret].
      destruct (call (select_by_index select index) s2) as [[v|e] s3];
        reflexivity. }
    unfold bind at 1 2. cbn [ret]. rewrite has_key_lookup.
    destruct (lookup "visible_text" kvs) as [text|].
    { unfold bind. cbn [ret].
      destruct (call (select_by_visible_text select text) s2) as [[v|e] s3];
        reflexivity. }
    reflexivity.
  - intros e s1 Hfound. unfold _handle_select.
    now rewrite (bind_raised _ _ _ _ _ Hfound).
  - intros s1 element e s2 Hfound Hwrapped. unfold _handle_select.
    rewrite (bind_returned _ _ _ _ _ Hfound).
    now rewrite (bind_raised _ _ _ _ _ Hwrapped).
Qed.

Lemma invoke_cases action_type action s :
  (exists h, _get_action_handler action_type s = (Returned (Some h), s)
             /\ invoke action_type action s = h action s)
  \/ (exists e, _get_action_handler action_type s = (Raised e, s)
                /\ invoke action_type action s = (Raised e, s))
  \/ (_get_action_handler action_type s = (Returned None, s)
      /\ invoke action_type action s
         = (Raised (mkExn ValueError
              ("No handler found for action type: " ++ py_str action_type)), s)).
Proof.
  unfold invoke, bind, _get_action_handler.
  destruct recursion_limit; cbn [get_action_handler_within];
    unfold lookup_handler, table_get;
    destruct action_type; cbn [ret raise reraise];
    try (right; left; eexists; split; reflexivity);
    try (right; right; split; reflexivity);
    match goal with
    | |- context [assoc ?s ?t] =>
        destruct (assoc s t) as [h|];
          [left; exists h; split; reflexivity
          |right; right; split; reflexivity]
    end.
Qed.

Lemma step_returned index kvs r s v s_h :
  invoke (get_or "type" kvs VNone) (VDict kvs) (tick s) = (Returned v, s_h) ->
  run_action index (VDict kvs) (r, s)
  = (Returned false,
     let started := clock (history s) in
     let x :=
       (set_action_success (truthy v) (clock (history s_h))
          (clock (history (tick s_h)) - started)
          (fresh_action_result index kvs started),
        (r, tick (tick s_h))) in
     let y :=
       if truthy v && truthy (get_or "take_screenshot" kvs (VBool false))
       then captured "screenshot" index (get_or "type" kvs VNone) x
       else x in
     (append_action (fst y) (count_executed (fst (snd y))), snd (snd y))).
Proof.
  intros Hinv.
  unfold run_action.
  rewrite (bind_returned _ _ _ _ _ (lift_run _ _ _ _ _ (py_get_dict _ _ _ _))).
  rewrite (bind_returned _ _ _ _ _ (lift_run _ _ _ _ _ (py_get_dict _ _ _ _))).
  rewrite (bind_returned _ _ _ _ _ (lift_run _ _ _ _ _ (time_time_run _))).
  unfold with_local, try_finally, try_except, attempt.
  destruct (invoke_cases (get_or "type" kvs VNone) (VDict kvs) (tick s))
    as [[h [Hh Hi]]|[[e [Hh Hi]]|[Hh Hi]]]; rewrite Hi in Hinv; try discriminate.
  rewrite (bind_returned _ _ _ _ _ (lift_run _ _ _ _ _ (lift_run _ _ _ _ _ Hh))).
  rewrite (bind_returned _ _ _ _ _ (lift_run _ _ _ _ _ (lift_run _ _ _ _ _ Hinv))).
  rewrite (bind_returned _ _ _ _ _ (lift_run _ _ _ _ _ (lift_run _ _ _ _ _ (time_time_run _)))).
  rewrite (bind_returned _ _ _ _ _ (lift_run _ _ _ _ _ (lift_run _ _ _ _ _ (time_time_run _)))).
  unfold conclude, py_get, fresh_action_result.
  unfold bind, lift, update_local, get_local, ret.
  cbn [fst snd set_action_success action_success action_end_time
       action_start_time].
  destruct (truthy v); cbn [andb]; [|reflexivity].
  destruct (truthy (get_or "take_screenshot" kvs (VBool false)));
    [|reflexivity].
  rewrite capture_run.
  match goal with
  | |- context [captured ?p ?i ?t ?x] =>
      destruct (captured_action p i t x) as (_ & _ & _ & He);
      cbn [fst snd set_action_success action_end_time] in He;
      destruct (captured p i t x) as [a1 [r1 s1]]
  end.
  cbn [fst snd] in *. rewrite He. reflexivity.
Qed.

Lemma attempt_raised index kvs a r s e s_h :
  invoke (get_or "type" kvs VNone) (VDict kvs) s = (Raised e, s_h) ->
  attempt index (VDict kvs) (get_or "type" kvs VNone) (a, (r, s))
  = (Raised e, (a, (r, s_h))).
Proof.
  intros Hinv. unfold attempt.
  destruct (invoke_cases (get_or "type" kvs VNone) (VDict kvs) s)
    as [[h [Hh Hi]]|[[e' [Hh Hi]]|[Hh Hi]]]; rewrite Hi in Hinv.
  - rewrite (bind_returned _ _ _ _ _ (lift_run _ _ _ _ _ (lift_run _ _ _ _ _ Hh))).
    now rewrite (bind_raised _ _ _ _ _ (lift_run _ _ _ _ _ (lift_run _ _ _ _ _ Hinv))).
  - injection Hinv as <- <-.
    now rewrite (bind_raised _ _ _ _ _ (lift_run _ _ _ _ _ (lift_run _ _ _ _ _ Hh))).
  - injection Hinv as <- <-.
    now rewrite (bind_returned _ _ _ _ _ (lift_run _ _ _ _ _ (lift_run _ _ _ _ _ Hh))).
Qed.

Lemma step_raised index kvs r s e s_h :
  invoke (get_or "type" kvs VNone) (VDict kvs) (tick s) = (Raised e, s_h) ->
  run_action index (VDict kvs) (r, s)
  = (Returned (is_False (get_or "continue_on_error" kvs (VBool true))),
     let started := clock (history s) in
     let x :=
       (set_action_failure (clock (history s_h))
          (clock (history (tick s_h)) - started) (exn_str e)
          (fresh_action_result index kvs started),
        (r, tick (tick s_h))) in
     let y := captured "error" index (get_or "type" kvs VNone) x in
     let s3 := snd (snd y) in
     (append_action (fst y)
        (append_error
           (mkErrorEntry (VDict kvs) (exn_str e) index (clock (history s3)))
           (fst (snd y))),
      tick s3)).
Proof.
  intros Hinv.
  unfold run_action.
  rewrite (bind_returned _ _ _ _ _ (lift_run _ _ _ _ _ (py_get_dict _ _ _ _))).
  rewrite (bind_returned _ _ _ _ _ (lift_run _ _ _ _ _ (py_get_dict _ _ _ _))).
  rewrite (bind_returned _ _ _ _ _ (lift_run _ _ _ _ _ (time_time_run _))).
  unfold with_local, try_finally, try_except.
  rewrite (attempt_raised _ _ _ _ _ _ _ Hinv).
  unfold any_exception, recover.
  rewrite (bind_returned _ _ _ _ _ (lift_run _ _ _ _ _ (lift_run _ _ _ _ _ (time_time_run _)))).
  rewrite (bind_returned _ _ _ _ _ (lift_run _ _ _ _ _ (lift_run _ _ _ _ _ (time_time_run _)))).
  unfold conclude, py_get, fresh_action_result.
  unfold bind at 1. unfold update_local at 1. cbn [fst snd].
  unfold bind at 1. rewrite capture_run.
  cbn [set_action_failure action_start_time].
  match goal with
  | |- context [captured ?p ?i ?t ?x] =>
      destruct (captured_action p i t x) as (_ & _ & _ & He);
      cbn [fst snd set_action_failure action_end_time] in He;
      destruct (captured p i t x) as [a1 [r1 s1]]
  end.
  unfold bind, lift, update_local, get_local, ret, time_time, tick.
  cbn [fst snd] in *. rewrite He. reflexivity.
Qed.

(** A step on a dictionary never lets an exception out. *)
Lemma run_action_dict index kvs ls :
  exists stop ls', run_action index (VDict kvs) ls = (Returned stop, ls').
Proof.
  destruct ls as [r s].
  destruct (invoke (get_or "type" kvs VNone) (VDict kvs) (tick s))
    as [[v|e] s_h] eqn:Hinv.
  - rewrite (step_returned _ _ _ _ _ _ Hinv). eauto.
  - rewrite (step_raised _ _ _ _ _ _ Hinv). eauto.
Qed.

(** A step on anything else fails before its [try] statement, with nothing
    recorded. *)
Lemma run_action_not_dict index action ls :
  (forall kvs, action <> VDict kvs) ->
  exists e, run_action index action ls = (Raised e, ls).
Proof.
  intros Hnd. destruct ls as [r s].
  destruct action; try (eexists; reflexivity).
  now destruct (Hnd kvs).
Qed.

Lemma run_action_error index action ls o ls' :
  run_action index action ls = (o, ls') ->
  error (fst ls') = error (fst ls).
Proof.
  destruct ls as [r s]. intros Hrun.
  destruct action;
    try (injection Hrun as <- <-; reflexivity).
  destruct (invoke (get_or "type" kvs VNone) (VDict kvs) (tick s))
    as [[v|e] s_h] eqn:Hinv.
  - rewrite (step_returned _ _ _ _ _ _ Hinv) in Hrun.
    injection Hrun as <- <-. cbv zeta.
    destruct (truthy v && truthy _); cbn [fst snd]; [|reflexivity].
    match goal with
    | |- context [captured ?p ?i ?t ?x] =>
        destruct (captured_results p i t x) as (_ & _ & _ & _ & He)
    end.
    cbn [fst snd append_action count_executed error] in *. exact He.
  - rewrite (step_raised _ _ _ _ _ _ Hinv) in Hrun.
    injection Hrun as <- <-. cbv zeta.
    match goal with
    | |- context [captured ?p ?i ?t ?x] =>
        destruct (captured_results p i t x) as (_ & _ & _ & _ & He)
    end.
    cbn [fst snd append_action append_error error] in *. exact He.
Qed.

Lemma run_actions_error index remaining ls o ls' :
  run_actions index remaining ls = (o, ls') ->
  error (fst ls') = error (fst ls).
Proof.
  revert index ls. induction remaining as [|action rest IH]; intros index ls.
  - intro H. injection H as <- <-. reflexivity.
  - cbn [run_actions]. unfold bind.
    destruct (run_action index action ls) as [[stop|e] ls1] eqn:Hstep.
    + apply run_action_error in Hstep. destruct stop.
      * intro H. injection H as <- <-. exact Hstep.
      * intro H. apply IH in H. congruence.
    + apply run_action_error in Hstep.
      intro H. injection H as <- <-. exact Hstep.
Qed.

Lemma run_actions_app index pre rest ls ls1 :
  run_prefix index pre ls = (Returned false, ls1) ->
  run_actions index (pre ++ rest) ls
  = run_actions (index + List.length pre) rest ls1.
Proof.
  revert index ls. induction pre as [|action pre IH]; intros index ls.
  - cbn. intro H. injection H as <-. now rewrite Nat.add_0_r.
  - cbn [run_prefix List.app run_actions List.length]. unfold bind.
    destruct (run_action index action ls) as [[[|]|e] ls2]; try discriminate.
    intro H. rewrite (IH _ _ H). f_equal. lia.
Qed.

Lemma py_len_run {S} v (s : S) :
  has_len v = true -> py_len v s = (Returned (length_of v), s).
Proof. destruct v; try discriminate; reflexivity. Qed.

Lemma py_iter_run {S} v (s : S) :
  has_len v = true -> py_iter v s = (Returned (items_of v), s).
Proof. destruct v; try discriminate; reflexivity. Qed.

Lemma replay_run kvs r0 s :
  has_len (get_or "actions" kvs (VList [])) = true ->
  replay (VDict kvs) (r0, s)
  = match
      run_actions 1 (items_of (get_or "actions" kvs (VList [])))
        (set_metadata (get_or "name" kvs (VStr "Unnamed Script"))
           (get_or "description" kvs (VStr ""))
           (get_or "version" kvs (VStr "1.0"))
           (get_or "created_at" kvs (VStr ""))
           (get_or "updated_at" kvs (VStr "")) r0, s)
    with
    | (Returned _, (rl, s2)) =>
        let r := finish (clock (history s2))
                   (clock (history (tick s2)) - start_time rl) rl in
        (Returned r, (r, tick (tick s2)))
    | (Raised e, x) => (Raised e, x)
    end.
Proof.
  intros Hlen. unfold replay.
  do 5 rewrite (bind_returned _ _ _ _ _ (py_get_dict _ _ _ _)).
  unfold bind at 1. unfold update_local at 1. cbn [fst snd].
  rewrite (bind_returned _ _ _ _ _ (py_get_dict _ _ _ _)).
  rewrite (bind_returned _ _ _ _ _ (py_iter_run _ _ Hlen)).
  unfold bind at 1.
  destruct (run_actions _ _ _) as [[[]|e] [rl s2]]; [|reflexivity].
  reflexivity.
Qed.

Lemma execute_script_run kvs s :
  self_driver s = true ->
  has_len (get_or "actions" kvs (VList [])) = true ->
  execute_script (VDict kvs) s
  = match
      run_actions 1 (items_of (get_or "actions" kvs (VList [])))
        (opening_results kvs (clock (history s)), tick s)
    with
    | (Returned _, (rl, s2)) =>
        (Returned (finish (clock (history s2))
                     (clock (history (tick s2)) - start_time rl) rl),
         tick (tick s2))
    | (Raised e, (racc, s2)) =>
        (Returned (fail_with (clock (history s2))
                     (clock (history (tick s2)) - start_time racc)
                     ("Unexpected error during script execution: "
                        ++ exn_str e) racc),
         tick (tick s2))
    end.
Proof.
  intros Hdriver Hlen. unfold execute_script.
  unfold bind at 1. rewrite Hdriver.
  rewrite (bind_returned _ _ _ _ _ (py_get_dict _ _ _ _)).
  rewrite (bind_returned _ _ _ _ _ (py_len_run _ _ Hlen)).
  rewrite (bind_returned _ _ _ _ _ (time_time_run _)).
  unfold with_local, try_except. rewrite (replay_run _ _ _ Hlen).
  fold (opening_results kvs (clock (history s))).
  destruct (run_actions _ _ _) as [[[]|e] [rl s2]]; reflexivity.
Qed.


(** ** Properties of the orchestrator *)

Lemma invoke_handler action_type action s h :
  _get_action_handler action_type s = (Returned (Some h), s) ->
  invoke action_type action s = h action s.
Proof. intro H. unfold invoke. now rewrite (bind_returned _ _ _ _ _ H). Qed.

Lemma wait_for_jquery_returns_None action s v s' :
  _handle_wait_for_jquery action s = (Returned v, s') -> v = VNone.
Proof.
  unfold _handle_wait_for_jquery, bind.
  destruct (py_get action "timeout" (VInt 10) s) as [[t|e] s1];
    [|discriminate].
  destruct (call _ s1) as [[a|e] s2]; [|discriminate].
  destruct (call _ s2) as [[b|e] s3]; [|discriminate].
  intro H. now injection H as <- _.
Qed.

Lemma execute_in_frame_returns_None nested action s v s' :
  _handle_execute_in_frame nested action s = (Returned v, s') -> v = VNone.
Proof.
  unfold _handle_execute_in_frame, bind at 1 2.
  destruct (py_get action "frame_locator" VNone s) as [[fl|e] s1];
    [|discriminate].
  destruct (py_get action "actions" (VList []) s1) as [[al|e] s2];
    [|discriminate].
  destruct (negb (truthy fl) || negb (truthy al)).
  - intro H. now injection H as <- _.
  - unfold try_finally, try_except, any_exception, reraise.
    match goal with
    | |- context [bind ?m ?k s2] => destruct (bind m k s2) as [[x|e] s3] eqn:Hb
    end.
    + destruct (bind (call switch_to_default_content) _ s3) as [[[]|e] s4];
        [|discriminate].
      intro H. injection H as <- _.
      revert Hb. unfold bind.
      repeat match goal with
             | |- context [match ?m ?st with _ => _ end] =>
                 match type of (m st) with
                 | (Outcome _ * _)%type => destruct (m st) as [[?|?] ?]
                 end
             | |- context [let (_, _) := ?m in _] => destruct m as [[?|?] ?]
             end; try discriminate; intro H; now injection H as <- _.
    + destruct (bind (call switch_to_default_content) _ s3) as [[[]|e'] s4];
        discriminate.
Qed.

(** C10.  When the handler of an action returns a falsy value, its step
    records an [ActionResult] with [success = false], no error and no
    screenshot, leaves [errors] as it was and still counts the action as
    executed; the final [success] flag, computed from [errors], is the one
    the script would have had anyway.  The [wait_for_jquery] and
    [execute_in_frame] handlers are of this kind: whenever they return, they
    return [None]. *)
Theorem falsy_result_is_no_error
  (index : nat) (kvs : list (string * PyVal)) (r : ExecutionResult)
  (s s_h : State) (handler : Handler) (v : PyVal)
  (Hhandler :
     _get_action_handler (get_or "type" kvs VNone) (tick s)
     = (Returned (Some handler), tick s))
  (Hreturned : handler (VDict kvs) (tick s) = (Returned v, s_h))
  (Hfalsy : truthy v = false) :
  (exists ar : ActionResult,
     let r' := append_action ar (count_executed r) in
     run_action index (VDict kvs) (r, s) = (Returned false, (r', tick (tick s_h)))
     /\ action_index ar = index
     /\ action_success ar = false
     /\ action_error ar = None
     /\ action_screenshot ar = None
     /\ actions r' = actions r ++ [ar]
     /\ errors r' = errors r
     /\ executed_actions r' = S (executed_actions r)
     /\ forall ended took,
          success (finish ended took r') = success (finish ended took r))
  /\ (forall action s0 v0 s1,
        _handle_wait_for_jquery action s0 = (Returned v0, s1) ->
        truthy v0 = false)
  /\ (forall nested action s0 v0 s1,
        _handle_execute_in_frame nested action s0 = (Returned v0, s1) ->
        truthy v0 = false).
Proof.
  split; [|split].
  - rewrite <- (invoke_handler _ (VDict kvs) _ _ Hhandler) in Hreturned.
    rewrite (step_returned _ _ _ _ _ _ Hreturned), Hfalsy.
    cbn [andb fst snd].
    eexists. cbv zeta. split; [reflexivity|]. repeat split.
  - intros action s0 v0 s1 H.
    now rewrite (wait_for_jquery_returns_None _ _ _ _ H).
  - intros nested action s0 v0 s1 H.
    now rewrite (execute_in_frame_returns_None _ _ _ _ _ H).
Qed.


(** What a step whose handler phase raised leaves behind. *)
Lemma step_raised_report index kvs r s e s_h :
  invoke (get_or "type" kvs VNone) (VDict kvs) (tick s) = (Raised e, s_h) ->
  exists ar r' s' stamp,
    run_action index (VDict kvs) (r, s)
    = (Returned (is_False (get_or "continue_on_error" kvs (VBool true))),
       (r', s'))
    /\ actions r' = actions r ++ [ar]
    /\ action_index ar = index
    /\ action_success ar = false
    /\ action_error ar = Some (exn_str e)
    /\ errors r' = errors r ++ [mkErrorEntry (VDict kvs) (exn_str e) index stamp]
    /\ executed_actions r' = executed_actions r.
Proof.
  intros Hinv. rewrite (step_raised _ _ _ _ _ _ Hinv). cbv zeta.
  match goal with
  | |- context [captured ?p ?i ?t ?x] =>
      destruct (captured_results p i t x) as (He & Ha & Hx & _);
      destruct (captured_action p i t x) as (Hi & Hs & Hr & _);
      destruct (captured p i t x) as [a1 [r1 s1]]
  end.
  cbn [fst snd set_action_failure fresh_action_result action_index
       action_success action_error] in *.
  eexists a1, _, _, _. split; [reflexivity|].
  cbn [append_action append_error actions errors executed_actions].
  rewrite Ha, He, Hx. repeat split; assumption.
Qed.

(** The loop ends at a step whose handler phase raises while
    [continue_on_error] is [false]. *)
Lemma loop_stops_on_final_failure index kvs rest r s e s_h :
  lookup "continue_on_error" kvs = Some (VBool false) ->
  invoke (get_or "type" kvs VNone) (VDict kvs) (tick s) = (Raised e, s_h) ->
  exists ar r' s',
    run_actions index (VDict kvs :: rest) (r, s) = (Returned tt, (r', s'))
    /\ actions r' = actions r ++ [ar]
    /\ action_index ar = index
    /\ action_success ar = false
    /\ action_error ar = Some (exn_str e)
    /\ List.length (errors r') = S (List.length (errors r))
    /\ executed_actions r' = executed_actions r.
Proof.
  intros Hfalse Hinv.
  destruct (step_raised_report index _ r _ _ _ Hinv)
    as (ar & r' & s' & stamp & Hrun & Ha & Hi & Hs & He & Herr & Hx).
  assert (Hcoe : is_False (get_or "continue_on_error" kvs (VBool true))
                 = true)
    by (unfold get_or; now rewrite Hfalse).
  rewrite Hcoe in Hrun.
  exists ar, r', s'. cbn [run_actions]. unfold bind. rewrite Hrun.
  repeat split; try assumption.
  rewrite Herr, length_app. cbn. lia.
Qed.

(** C3 (amended).  An action that does not set [continue_on_error] never
    stops the loop: whatever its step did, the loop goes on with the next
    action.  An action that sets it to [false] and whose handler phase
    raises ends the loop: the failing step appends its own [ActionResult]
    and nothing follows it, whatever actions remain, and [executed_actions]
    stays where it was.  A step whose handler returns, be it a falsy value
    that leaves the step with [success = false], never ends the loop,
    whatever its [continue_on_error]. *)
Theorem continue_on_error_policy
  (index : nat) (kvs : list (string * PyVal)) (rest : list PyVal)
  (r : ExecutionResult) (s : State) :
  (lookup "continue_on_error" kvs = None ->
   exists ls,
     run_action index (VDict kvs) (r, s) = (Returned false, ls)
     /\ run_actions index (VDict kvs :: rest) (r, s)
        = run_actions (S index) rest ls)
  /\ (forall e s_h,
        lookup "continue_on_error" kvs = Some (VBool false) ->
        invoke (get_or "type" kvs VNone) (VDict kvs) (tick s)
        = (Raised e, s_h) ->
        exists ar r' s',
          run_actions index (VDict kvs :: rest) (r, s)
          = (Returned tt, (r', s'))
          /\ actions r' = actions r ++ [ar]
          /\ action_index ar = index
          /\ action_success ar = false
          /\ action_error ar = Some (exn_str e)
          /\ List.length (errors r') = S (List.length (errors r))
          /\ executed_actions r' = executed_actions r)
  /\ (forall v s_h,
        invoke (get_or "type" kvs VNone) (VDict kvs) (tick s)
        = (Returned v, s_h) ->
        exists ar r' s',
          run_action index (VDict kvs) (r, s) = (Returned false, (r', s'))
          /\ run_actions index (VDict kvs :: rest) (r, s)
             = run_actions (S index) rest (r', s')
          /\ actions r' = actions r ++ [ar]
          /\ action_success ar = truthy v
          /\ action_error ar = None
          /\ errors r' = errors r
          /\ executed_actions r' = S (executed_actions r)).
Proof.
  split; [|split].
  - intros Hunset.
    assert (Hcoe : is_False (get_or "continue_on_error" kvs (VBool true))
                   = false)
      by (unfold get_or; now rewrite Hunset).
    cbn [run_actions]. unfold bind.
    destruct (invoke (get_or "type" kvs VNone) (VDict kvs) (tick s))
      as [[v|e] s_h] eqn:Hinv.
    + rewrite (step_returned _ _ _ _ _ _ Hinv). eauto.
    + rewrite (step_raised _ _ _ _ _ _ Hinv), Hcoe. eauto.
  - intros e s_h Hfalse Hinv.
    exact (loop_stops_on_final_failure index kvs rest r s e s_h Hfalse Hinv).
  - intros v s_h Hinv. cbn [run_actions]. unfold bind.
    rewrite (step_returned _ _ _ _ _ _ Hinv). cbv zeta.
    match goal with
    | |- context [if ?b then captured ?p ?i ?t ?x else ?x] =>
        destruct (captured_results p i t x) as (He & Ha & Hx & _);
        destruct (captured_action p i t x) as (_ & Hs & Hr & _);
        destruct b;
        [destruct (captured p i t x) as [a1 [r1 s1]]|]
    end;
      cbn [fst snd set_action_success fresh_action_result action_success
           action_error] in *;
      eexists _, _, _; (split; [reflexivity|]); (split; [reflexivity|]);
      cbn [append_action count_executed actions errors executed_actions];
      (split; [rewrite ?Ha; reflexivity|]);
      cbn [set_action_success fresh_action_result action_success
           action_error];
      rewrite ?He, ?Hx, ?Hs, ?Hr; repeat split.
Qed.

Lemma start_driver_sets_driver headless s created s1 :
  start_driver headless s = (Returned created, s1) -> self_driver s1 = true.
Proof.
  unfold start_driver, try_except, bind, call, set_driver, reraise, ret.
  cbn [history self_driver any_exception].
  destruct (driver (history s) (start_chrome headless)); [|discriminate].
  cbn [history self_driver].
  destruct (driver _ (set_page_load_timeout 30)); [|discriminate].
  intro H. injection H as _ <-. reflexivity.
Qed.

(** Once the lazy start is through, the run is the run from the state it
    left, whose driver is set. *)
Lemma execute_script_entered script s :
  can_start s = true ->
  self_driver (entered s) = true
  /\ execute_script script s = execute_script script (entered s).
Proof.
  unfold can_start, entered. destruct (self_driver s) eqn:Hd.
  - intros _. split; [exact Hd|reflexivity].
  - destruct (start_driver false s) as [[created|e] s1] eqn:Hstart;
      [|discriminate].
    intros _. cbn [snd].
    pose proof (start_driver_sets_driver _ _ _ _ Hstart) as Hd1.
    split; [exact Hd1|].
    unfold execute_script.
    erewrite (bind_returned _ _ s tt s1)
      by (cbv beta; rewrite Hd; unfold bind; rewrite Hstart; reflexivity).
    erewrite (bind_returned _ _ s1 tt s1)
      by (cbv beta; rewrite Hd1; reflexivity).
    reflexivity.
Qed.

(** C1 (amended).  For a script that is a dictionary whose ['actions'] entry
    has a length, on an executor whose driver is set or can be started by
    the lazy [start_driver()], [execute_script] always returns a result.
    Within a step on a dictionary nothing escapes: an exception of the
    handler phase becomes a failed [ActionResult] and an entry of [errors].
    When an exception does escape the loop, the result has
    [success = false], the [error] field set, and the actions, errors,
    screenshots and count accumulated so far. *)
Theorem execute_script_always_reports
  (kvs : list (string * PyVal)) (s : State)
  (Hstart : can_start s = true)
  (Hsized : has_len (get_or "actions" kvs (VList [])) = true) :
  (exists r s', execute_script (VDict kvs) s = (Returned r, s'))
  /\ (forall index step ls,
        exists stop ls',
          run_action index (VDict step) ls = (Returned stop, ls'))
  /\ (forall index step r0 s0 e s_h,
        invoke (get_or "type" step VNone) (VDict step) (tick s0)
        = (Raised e, s_h) ->
        exists stop ar r1 s1 stamp,
          run_action index (VDict step) (r0, s0) = (Returned stop, (r1, s1))
          /\ actions r1 = actions r0 ++ [ar]
          /\ action_success ar = false
          /\ action_error ar = Some (exn_str e)
          /\ errors r1
             = errors r0 ++ [mkErrorEntry (VDict step) (exn_str e) index stamp])
  /\ (forall e racc s2,
        run_actions 1 (items_of (get_or "actions" kvs (VList [])))
          (opening_results kvs (clock (history (entered s))),
           tick (entered s))
        = (Raised e, (racc, s2)) ->
        exists r s',
          execute_script (VDict kvs) s = (Returned r, s')
          /\ success r = false
          /\ error r
             = Some ("Unexpected error during script execution: "
                       ++ exn_str e)%string
          /\ actions r = actions racc
          /\ errors r = errors racc
          /\ screenshots r = screenshots racc
          /\ executed_actions r = executed_actions racc).
Proof.
  destruct (execute_script_entered (VDict kvs) s Hstart) as [Hdriver Hrun].
  repeat split.
  - rewrite Hrun, (execute_script_run _ _ Hdriver Hsized).
    destruct (run_actions _ _ _) as [[[]|e] [rl s2]]; eauto.
  - intros index step ls. apply run_action_dict.
  - intros index step r0 s0 e s_h Hinv.
    destruct (step_raised_report index _ r0 _ _ _ Hinv)
      as (ar & r' & s' & stamp & Hstep & Ha & Hi & Hs & He & Herr & Hx).
    exists (is_False (get_or "continue_on_error" step (VBool true))),
      ar, r', s', stamp.
    repeat split; assumption.
  - intros e racc s2 Hloop.
    rewrite Hrun, (execute_script_run _ _ Hdriver Hsized), Hloop.
    eexists _, _. split; [reflexivity|]. repeat split.
Qed.


Lemma py_len_fail {S} v (s : S) :
  has_len v = false -> exists e, py_len v s = (Raised e, s).
Proof. destruct v; try discriminate; eexists; reflexivity. Qed.

(** Whenever [execute_script] returns, it returns the report of a loop: the
    final update of the normal path over the loop's results, or the update
    of the outer [except] block over what the loop had accumulated. *)
Lemma execute_script_returned script s r s' :
  execute_script script s = (Returned r, s') ->
  exists kvs s1 ended took,
    script = VDict kvs
    /\ ((exists u rl s2,
           run_actions 1 (items_of (get_or "actions" kvs (VList [])))
             (opening_results kvs (clock (history s1)), tick s1)
           = (Returned u, (rl, s2))
           /\ r = finish ended took rl)
        \/ (exists e racc s2 msg,
              run_actions 1 (items_of (get_or "actions" kvs (VList [])))
                (opening_results kvs (clock (history s1)), tick s1)
              = (Raised e, (racc, s2))
              /\ r = fail_with ended took msg racc)).
Proof.
  unfold execute_script. unfold bind at 1.
  assert (Htail : forall s1,
    (listed <- py_get script "actions" (VList []) ;;
     total <- py_len listed ;;
     started <- time_time ;;
     with_local (initial_results total started)
       (try_except any_exception (replay script) give_up_with)) s1
    = (Returned r, s') ->
    exists kvs s1 ended took,
      script = VDict kvs
      /\ ((exists u rl s2,
             run_actions 1 (items_of (get_or "actions" kvs (VList [])))
               (opening_results kvs (clock (history s1)), tick s1)
             = (Returned u, (rl, s2))
             /\ r = finish ended took rl)
          \/ (exists e racc s2 msg,
                run_actions 1 (items_of (get_or "actions" kvs (VList [])))
                  (opening_results kvs (clock (history s1)), tick s1)
                = (Raised e, (racc, s2))
                /\ r = fail_with ended took msg racc))).
  { intros s1.
    destruct script as [| | | | | |kvs| |]; try discriminate.
    rewrite (bind_returned _ _ _ _ _ (py_get_dict _ _ _ _)).
    destruct (has_len (get_or "actions" kvs (VList []))) eqn:Hlen.
    - rewrite (bind_returned _ _ _ _ _ (py_len_run _ _ Hlen)).
      rewrite (bind_returned _ _ _ _ _ (time_time_run _)).
      unfold with_local, try_except. rewrite (replay_run _ _ _ Hlen).
      fold (opening_results kvs (clock (history s1))).
      destruct (run_actions _ _ _) as [[u'|e] [rl s2]] eqn:Hloop.
      + cbn [snd]. intro H. injection H as <- <-.
        exists kvs, s1. do 2 eexists. split; [reflexivity|].
        left. exists u', rl, s2. split; [exact Hloop|reflexivity].
      + cbn [any_exception]. unfold give_up_with.
        rewrite (bind_returned _ _ _ _ _ (lift_run _ _ _ _ _ (time_time_run _))).
        rewrite (bind_returned _ _ _ _ _ (lift_run _ _ _ _ _ (time_time_run _))).
        unfold bind, update_local, get_local. cbn [fst snd].
        intro H. injection H as <- <-.
        exists kvs, s1. do 2 eexists. split; [reflexivity|].
        right. exists e, rl, s2. eexists. split; [exact Hloop|reflexivity].
    - destruct (py_len_fail (get_or "actions" kvs (VList [])) s1 Hlen)
        as [e He].
      rewrite (bind_raised _ _ _ _ _ He). discriminate. }
  destruct (self_driver s).
  - apply Htail.
  - destruct (bind (start_driver false) _ s) as [[u|e] s1]; [|discriminate].
    apply Htail.
Qed.

Lemma opening_results_error kvs started :
  error (opening_results kvs started) = None.
Proof. reflexivity. Qed.

Lemma length_zero_nil {A} (l : list A) :
  Nat.eqb (List.length l) 0 = true <-> l = [].
Proof. destruct l; cbn; split; congruence. Qed.

(** A script that stops early: the step after the prefix raises with
    [continue_on_error] set to [false]. *)
Lemma early_stop_report kvs s pre step rest r1 s1 e s_h :
  self_driver s = true ->
  get_or "actions" kvs (VList []) = VList (pre ++ VDict step :: rest) ->
  run_prefix 1 pre (opening_results kvs (clock (history s)), tick s)
  = (Returned false, (r1, s1)) ->
  lookup "continue_on_error" step = Some (VBool false) ->
  invoke (get_or "type" step VNone) (VDict step) (tick s1) = (Raised e, s_h) ->
  exists r s' ar,
    execute_script (VDict kvs) s = (Returned r, s')
    /\ success r = false
    /\ error r = None
    /\ executed_actions r = executed_actions r1
    /\ actions r = actions r1 ++ [ar]
    /\ action_index ar = S (List.length pre)
    /\ action_success ar = false.
Proof.
  intros Hdriver Hlisted Hprefix Hfalse Hinv.
  assert (Hlen : has_len (get_or "actions" kvs (VList [])) = true)
    by now rewrite Hlisted.
  rewrite (execute_script_run _ _ Hdriver Hlen), Hlisted.
  cbn [items_of]. rewrite (run_actions_app _ _ _ _ _ Hprefix).
  destruct (loop_stops_on_final_failure (1 + List.length pre) step rest r1 s1
              e s_h Hfalse Hinv)
    as (ar & r' & s' & Hloop & Ha & Hi & Hs & He & Herr & Hx).
  rewrite Hloop. eexists _, _, ar. split; [reflexivity|].
  cbn [finish success error executed_actions actions].
  repeat split; try assumption.
  - rewrite Herr. reflexivity.
  - pose proof (run_actions_error _ _ _ _ _ Hloop) as H1.
    cbn [fst] in H1.
    assert (H2 : error r1 = None).
    { clear - Hprefix.
      assert (G : forall i l ls o ls',
                  run_prefix i l ls = (o, ls') -> error (fst ls') = error (fst ls)).
      { intros i l. revert i. induction l as [|a l IH]; intros i ls o ls'.
        - intro H. now injection H as <- <-.
        - cbn [run_prefix]. unfold bind.
          destruct (run_action i a ls) as [[[|]|x] ls1] eqn:Hstep;
            apply run_action_error in Hstep.
          + intro H. injection H as <- <-. exact Hstep.
          + intro H. apply IH in H. congruence.
          + intro H. injection H as <- <-. exact Hstep. }
      apply G in Hprefix. cbn [fst] in Hprefix. exact Hprefix. }
    congruence.
Qed.

(** C2 (amended).  On the normal return path -- the one that does not set
    the [error] field -- [success] is true exactly when [errors] is empty; a
    script that stops early on a failing action with
    [continue_on_error = false] takes this path and reports
    [success = false] with the count reached before the failing step.  On
    the path of the outer [except] block [success] is false whatever
    [errors] holds.  So on every path a true [success] means an empty
    [errors]. *)
Theorem success_reflects_errors
  (script : PyVal) (s s' : State) (r : ExecutionResult)
  (Hrun : execute_script script s = (Returned r, s')) :
  (error r = None -> (success r = true <-> errors r = []))
  /\ (error r <> None -> success r = false)
  /\ (success r = true -> errors r = [])
  /\ (forall kvs pre step rest r1 s1 e s_h,
        script = VDict kvs ->
        self_driver s = true ->
        get_or "actions" kvs (VList []) = VList (pre ++ VDict step :: rest) ->
        run_prefix 1 pre (opening_results kvs (clock (history s)), tick s)
        = (Returned false, (r1, s1)) ->
        lookup "continue_on_error" step = Some (VBool false) ->
        invoke (get_or "type" step VNone) (VDict step) (tick s1)
        = (Raised e, s_h) ->
        success r = false
        /\ error r = None
        /\ executed_actions r = executed_actions r1
        /\ List.length (actions r) = S (List.length (actions r1))).
Proof.
  assert (Hpaths :
    (error r = None /\ success r = Nat.eqb (List.length (errors r)) 0)
    \/ (error r <> None /\ success r = false)).
  { destruct (execute_script_returned _ _ _ _ Hrun)
      as (kvs & s1 & ended & took & -> & [H|H]).
    - destruct H as (u & rl & s2 & Hloop & ->). left.
      apply run_actions_error in Hloop. cbn [fst] in Hloop.
      cbn [finish error success errors]. now split.
    - destruct H as (e & racc & s2 & msg & Hloop & ->). right.
      cbn [fail_with error success]. split; [discriminate|reflexivity]. }
  split; [|split; [|split]].
  - intros Hnone. destruct Hpaths as [[_ Hs]|[Hsome _]]; [|contradiction].
    rewrite Hs. apply length_zero_nil.
  - intros Hsome. destruct Hpaths as [[Hnone _]|[_ Hs]]; [contradiction|].
    exact Hs.
  - intros Htrue. destruct Hpaths as [[_ Hs]|[_ Hs]]; [|congruence].
    rewrite Hs in Htrue. now apply length_zero_nil.
  - intros kvs pre step rest r1 s1 e s_h -> Hdriver Hlisted Hprefix Hfalse Hinv.
    destruct (early_stop_report _ _ _ _ _ _ _ _ _ Hdriver Hlisted Hprefix
                Hfalse Hinv)
      as (r0 & s0 & ar & Hrun' & Hs & He & Hx & Ha & _).
    rewrite Hrun in Hrun'. injection Hrun' as <- <-.
    repeat split; try assumption.
    rewrite Ha, length_app. cbn. lia.
Qed.


(** ** The bookkeeping of the loop *)

(** What one step does to the results, whether it returns or raises. *)
Lemma run_action_counts index action r s o r' s' :
  run_action index action (r, s) = (o, (r', s')) ->
  total_actions r' = total_actions r
  /\ ((exists e, o = Raised e) /\ r' = r
      \/ exists a,
           actions r' = actions r ++ [a]
           /\ action_index a = index
           /\ action_end_time a <> None
           /\ (failed a = false /\ errors r' = errors r
               /\ executed_actions r' = S (executed_actions r)
               \/ failed a = true
                  /\ (exists entry, errors r' = errors r ++ [entry])
                  /\ executed_actions r' = executed_actions r)).
Proof.
  intros Hrun.
  destruct action;
    try (injection Hrun as <- <- <-; split; [reflexivity|];
         left; split; [eexists; reflexivity|reflexivity]).
  destruct (invoke (get_or "type" kvs VNone) (VDict kvs) (tick s))
    as [[v|e] s_h] eqn:Hinv.
  - rewrite (step_returned _ _ _ _ _ _ Hinv) in Hrun.
    injection Hrun as <- <- <-. cbv zeta.
    match goal with
    | |- context [if ?b then captured ?p ?i ?t ?x else _] =>
        destruct (captured_results p i t x) as (He & Ha & Hx & Ht & _);
        destruct (captured_action p i t x) as (Hi & _ & Hr & Hend);
        destruct b; [destruct (captured p i t x) as [a1 [r1 s1]]|]
    end;
      cbn [fst snd set_action_success fresh_action_result action_index
           action_error action_end_time append_action count_executed
           total_actions actions errors executed_actions] in *.
    + split; [exact Ht|]. right. exists a1.
      rewrite Ha, He, Hx. split; [reflexivity|]. split; [exact Hi|].
      split; [rewrite Hend; discriminate|]. left.
      unfold failed. rewrite Hr. repeat split.
    + split; [reflexivity|]. right. eexists.
      split; [reflexivity|]. split; [reflexivity|].
      split; [discriminate|]. left. repeat split.
  - rewrite (step_raised _ _ _ _ _ _ Hinv) in Hrun.
    injection Hrun as <- <- <-. cbv zeta.
    match goal with
    | |- context [captured ?p ?i ?t ?x] =>
        destruct (captured_results p i t x) as (He & Ha & Hx & Ht & _);
        destruct (captured_action p i t x) as (Hi & _ & Hr & Hend);
        destruct (captured p i t x) as [a1 [r1 s1]]
    end.
    cbn [fst snd set_action_failure fresh_action_result action_index
         action_error action_end_time append_action append_error
         total_actions actions errors executed_actions] in *.
    split; [exact Ht|]. right. exists a1.
    rewrite Ha, He, Hx. split; [reflexivity|]. split; [exact Hi|].
    split; [rewrite Hend; discriminate|]. right.
    unfold failed. rewrite Hr. split; [reflexivity|].
    split; [eexists; reflexivity|reflexivity].
Qed.

Lemma well_counted_step r r' a :
  well_counted r ->
  actions r' = actions r ++ [a] ->
  action_index a = S (List.length (actions r)) ->
  action_end_time a <> None ->
  (failed a = false /\ errors r' = errors r
   /\ executed_actions r' = S (executed_actions r)
   \/ failed a = true
      /\ (exists entry, errors r' = errors r ++ [entry])
      /\ executed_actions r' = executed_actions r) ->
  well_counted r'.
Proof.
  intros (Hsum & Hend & Hidx & Herr) Ha Hi He Hcase.
  unfold well_counted. rewrite Ha, length_app, map_app, filter_app.
  cbn [List.length List.map List.filter].
  rewrite Nat.add_1_r, seq_S, Hidx, Hi.
  assert (Hall : Forall (fun a => action_end_time a <> None)
                   (actions r ++ [a])).
  { apply Forall_app. split; [exact Hend|]. now constructor. }
  destruct Hcase as [(Hf & Hsame & Hx)|(Hf & [entry Hmore] & Hx)]; rewrite Hf.
  - rewrite Hsame, Hx, app_nil_r. repeat split; try assumption. lia.
  - rewrite Hmore, Hx, !length_app. cbn [List.length].
    repeat split; try assumption; lia.
Qed.

Lemma run_actions_counts remaining : forall index r s o r' s',
  run_actions index remaining (r, s) = (o, (r', s')) ->
  index = S (List.length (actions r)) ->
  well_counted r ->
  well_counted r'
  /\ List.length (actions r') <= List.length (actions r) + List.length remaining
  /\ total_actions r' = total_actions r.
Proof.
  induction remaining as [|action rest IH]; intros index r s o r' s' Hrun Hi Hw.
  - injection Hrun as <- <- <-.
    split; [exact Hw|]. split; [lia|reflexivity].
  - cbn [run_actions] in Hrun. unfold bind in Hrun.
    destruct (run_action index action (r, s)) as [o1 [r1 s1]] eqn:Hstep.
    destruct (run_action_counts _ _ _ _ _ _ _ Hstep) as [Ht Hcases].
    destruct Hcases as [[[e ->] ->]|(a & Ha & Hia & Hend & Hcase)].
    + injection Hrun as <- <- <-. cbn [List.length].
      split; [exact Hw|]. split; [lia|reflexivity].
    + assert (Hw1 : well_counted r1).
      { apply (well_counted_step r r1 a Hw Ha); [congruence|exact Hend|].
        exact Hcase. }
      assert (Hlen : List.length (actions r1) = S (List.length (actions r)))
        by (rewrite Ha, length_app; cbn; lia).
      destruct o1 as [[|]|e].
      * injection Hrun as <- <- <-. cbn [List.length].
        split; [exact Hw1|]. split; [lia|exact Ht].
      * destruct (IH _ _ _ _ _ _ Hrun) as (Hw' & Hle & Ht');
          [congruence|exact Hw1|].
        cbn [List.length].
        split; [exact Hw'|]. split; [lia|congruence].
      * injection Hrun as <- <- <-. cbn [List.length].
        split; [exact Hw1|]. split; [lia|exact Ht].
Qed.

Lemma items_of_length v : List.length (items_of v) = length_of v.
Proof.
  destruct v; cbn [items_of length_of]; try reflexivity.
  - apply length_map.
  - unfold byte_values. rewrite length_map.
    induction bs as [|c bs IH]; cbn; [reflexivity|now rewrite IH].
Qed.

Lemma opening_results_well_counted kvs started :
  well_counted (opening_results kvs started).
Proof. repeat split. constructor. Qed.

(** The bookkeeping of every result [execute_script] returns, on either
    return path. *)
Lemma execute_script_counts script s r s' :
  execute_script script s = (Returned r, s') ->
  well_counted r /\ List.length (actions r) <= total_actions r.
Proof.
  intros Hrun.
  destruct (execute_script_returned _ _ _ _ Hrun)
    as (kvs & s1 & ended & took & -> & [H|H]).
  - destruct H as (u & rl & s2 & Hloop & ->).
    destruct (run_actions_counts _ _ _ _ _ _ _ Hloop eq_refl
                (opening_results_well_counted _ _)) as (Hw & Hle & Ht).
    rewrite items_of_length in Hle. split; [exact Hw|].
    cbn [finish actions total_actions]. rewrite Ht. exact Hle.
  - destruct H as (e & racc & s2 & msg & Hloop & ->).
    destruct (run_actions_counts _ _ _ _ _ _ _ Hloop eq_refl
                (opening_results_well_counted _ _)) as (Hw & Hle & Ht).
    rewrite items_of_length in Hle. split; [exact Hw|].
    cbn [fail_with actions total_actions]. rewrite Ht. exact Hle.
Qed.

(** X1.  A script without actions succeeds: the result has
    [success = true], [total_actions = 0] and a completion percentage of
    100. *)
Theorem empty_script_succeeds
  (kvs : list (string * PyVal)) (s : State)
  (Hdriver : self_driver s = true)
  (Hsized : has_len (get_or "actions" kvs (VList [])) = true)
  (Hempty : length_of (get_or "actions" kvs (VList [])) = 0) :
  exists r s',
    execute_script (VDict kvs) s = (Returned r, s')
    /\ success r = true
    /\ total_actions r = 0
    /\ executed_actions r = 0
    /\ completion_percentage r = Some (VInt 100)
    /\ actions r = []
    /\ error r = None.
Proof.
  rewrite (execute_script_run _ _ Hdriver Hsized).
  assert (Hitems : items_of (get_or "actions" kvs (VList [])) = []).
  { apply length_zero_iff_nil. now rewrite items_of_length. }
  rewrite Hitems. cbn [run_actions ret].
  eexists _, _. split; [reflexivity|].
  unfold opening_results. rewrite Hempty. repeat split.
Qed.

(** X2.  In every result [execute_script] returns, [executed_actions] does
    not exceed [total_actions], no more steps are recorded than the script
    has actions, and every recorded step is either counted as executed or
    entered in [errors]. *)
Theorem executed_within_total
  (script : PyVal) (s s' : State) (r : ExecutionResult)
  (Hrun : execute_script script s = (Returned r, s')) :
  executed_actions r <= total_actions r
  /\ List.length (actions r) <= total_actions r
  /\ executed_actions r + List.length (errors r) = List.length (actions r).
Proof.
  destruct (execute_script_counts _ _ _ _ Hrun) as [(Hsum & _) Hle].
  repeat split; [lia|exact Hle|exact Hsum].
Qed.

(** X3.  Every step recorded in a result has its end time set, and the
    recorded steps are numbered 1, 2, ... in the order they ran. *)
Theorem every_step_is_closed
  (script : PyVal) (s s' : State) (r : ExecutionResult)
  (Hrun : execute_script script s = (Returned r, s')) :
  Forall (fun a => action_end_time a <> None) (actions r)
  /\ List.map action_index (actions r) = List.seq 1 (List.length (actions r)).
Proof.
  destruct (execute_script_counts _ _ _ _ Hrun) as [(_ & Hend & Hidx & _) _].
  split; assumption.
Qed.

(** X4.  The [errors] list has exactly one entry per recorded step that
    carries an error message. *)
Theorem errors_match_failed_steps
  (script : PyVal) (s s' : State) (r : ExecutionResult)
  (Hrun : execute_script script s = (Returned r, s')) :
  List.length (errors r) = List.length (List.filter failed (actions r)).
Proof.
  destruct (execute_script_counts _ _ _ _ Hrun) as [(_ & _ & _ & Herr) _].
  exact Herr.
Qed.

(** ** Properties of the frame and window handlers *)

Lemma depth_from_default d h v :
  depth_from d (h ++ [Called switch_to_default_content (Returned v)]) = 0.
Proof.
  revert d. induction h as [|ev h IH]; intro d; cbn [List.app depth_from].
  - reflexivity.
  - destruct ev as [c [x|e]|t]; try destruct c; apply IH.
Qed.

(** A [finally] block that is one driver call: the call is the last event,
    and an exception it raises is the outcome. *)
Lemma try_finally_call {A} (body : M A) (c : Call) s :
  let out := try_finally body (call c ;;; ret tt) s in
  let h := history (snd (body s)) in
  history (snd out) = h ++ [Called c (driver h c)]
  /\ (forall e, driver h c = Raised e -> fst out = Raised e)
  /\ (forall v, driver h c = Returned v -> fst out = fst (body s)).
Proof.
  unfold try_finally, bind, call. cbv zeta.
  destruct (body s) as [o s1]. cbn [fst snd].
  destruct (driver (history s1) c) as [v|e]; cbn [fst snd history];
    repeat split; congruence.
Qed.

(** C6 (amended).  When the action carries a frame locator and a non-empty
    list of nested actions, the last thing the handler does on the driver --
    whether entering the frame or a nested action failed or all went well --
    is the switch to the default content: the frame depth is zero afterwards
    whenever that switch succeeds, and when it fails its exception is the
    handler's outcome.  Without a frame locator or without nested actions
    the handler returns at once and leaves the session as it found it. *)
Theorem frame_context_restored
  (nested : PyVal -> M (option Handler)) (kvs : list (string * PyVal))
  (s : State) :
  let frame_locator := get_or "frame_locator" kvs VNone in
  let actions := get_or "actions" kvs (VList []) in
  let out := _handle_execute_in_frame nested (VDict kvs) s in
  (truthy frame_locator = true -> truthy actions = true ->
   exists h,
     history (snd out)
     = h ++ [Called switch_to_default_content
               (driver h switch_to_default_content)]
     /\ (forall v, driver h switch_to_default_content = Returned v ->
         frame_depth (history (snd out)) = 0)
     /\ (forall e, driver h switch_to_default_content = Raised e ->
         fst out = Raised e))
  /\ (truthy frame_locator = false \/ truthy actions = false ->
      out = (Returned VNone, s)).
Proof.
  cbv zeta. unfold _handle_execute_in_frame.
  do 2 rewrite (bind_returned _ _ _ _ _ (py_get_dict _ _ _ _)).
  split.
  - intros Hl Ha. rewrite Hl, Ha. cbn [negb orb].
    match goal with
    | |- context [try_finally ?b (call ?c ;;; ret tt) s] =>
        destruct (try_finally_call b c s) as (Hh & Hraised & _);
        exists (history (snd (b s)))
    end.
    split; [exact Hh|]. split; [|exact Hraised].
    intros v Hv. rewrite Hh, Hv. apply depth_from_default.
  - intros [H|H]; rewrite H; cbn [negb orb]; [reflexivity|].
    now rewrite orb_true_r.
Qed.

(** What [switch_to_window] does for the target ["new"]: it waits, with the
    fixed timeout of 10 seconds, for one window more than the count it read;
    a timeout makes it return [False]; otherwise it switches to the first
    handle that differs from the window that was current at the start. *)
Lemma switch_to_new_window kvs s original before :
  eq_str (get_or "target" kvs (VStr "new")) "new" = true ->
  driver (history s) current_window_handle = Returned original ->
  let s1 := after s [current_window_handle] in
  driver (history s1) window_handles = Returned before ->
  has_len before = true ->
  let s2 := after s1 [window_handles] in
  let wait :=
    wait_until (VInt 10) (number_of_windows_to_be (length_of before + 1)) "" in
  let s3 := after s2 [wait] in
  (forall e,
     driver (history s2) wait = Raised e ->
     is_class TimeoutException e = true ->
     _handle_switch_window (VDict kvs) s = (Returned (VBool false), s3))
  /\ (forall v handles,
        driver (history s2) wait = Returned v ->
        driver (history s3) window_handles = Returned (VList handles) ->
        _handle_switch_window (VDict kvs) s
        = match
            List.filter (fun h => negb (py_eqb h original)) handles
          with
          | h :: _ =>
              (call (switch_to_window h) ;;; ret (VBool true))
                (after s3 [window_handles])
          | [] => (Returned (VBool false), after s3 [window_handles])
          end).
Proof.
  intros Htarget Horiginal s1 Hbefore Hlen s2 wait s3.
  assert (Hc1 : call current_window_handle s = (Returned original, s1)).
  { unfold call, s1, after. cbn [played]. now rewrite Horiginal. }
  assert (Hc2 : call window_handles s1 = (Returned before, s2)).
  { unfold call, s2, after. cbn [played history self_driver].
    now rewrite Hbefore. }
  split.
  - intros e Hwait Htimeout.
    unfold _handle_switch_window.
    rewrite (bind_returned _ _ _ _ _ (py_get_dict _ _ _ _)), Htarget.
    rewrite (bind_returned _ _ _ _ _ Hc1).
    unfold bind at 1, try_except.
    rewrite (bind_returned _ _ _ _ _ Hc2).
    rewrite (bind_returned _ _ _ _ _ (py_len_run _ _ Hlen)).
    unfold bind at 1, call at 1. fold wait. rewrite Hwait, Htimeout.
    unfold s3, after. cbn [played]. rewrite Hwait. reflexivity.
  - intros v handles Hwait Hafter.
    unfold _handle_switch_window.
    rewrite (bind_returned _ _ _ _ _ (py_get_dict _ _ _ _)), Htarget.
    rewrite (bind_returned _ _ _ _ _ Hc1).
    unfold bind at 1, try_except.
    rewrite (bind_returned _ _ _ _ _ Hc2).
    rewrite (bind_returned _ _ _ _ _ (py_len_run _ _ Hlen)).
    unfold bind at 1, call at 1. fold wait. rewrite Hwait.
    unfold bind at 1, ret at 1. cbn [negb].
    replace (mkState (self_driver s2) (history s2 ++ [Called wait (Returned v)]))
      with s3
      by (unfold s3, after; cbn [played]; now rewrite Hwait).
    assert (Hc4 : call window_handles s3
                  = (Returned (VList handles), after s3 [window_handles])).
    { unfold call, after. cbn [played history self_driver].
      unfold s3, after in Hafter. cbn [played history] in Hafter.
      unfold s3, after. cbn [played history self_driver].
      now rewrite Hafter. }
    rewrite Hc4. unfold bind at 1. cbn [py_iter ret].
    destruct (List.filter _ handles); reflexivity.
Qed.


(** C9.  For the target ["new"], once the wait for one more window has
    succeeded, the handler switches to the first handle of the new list that
    differs from the window that was current at the start -- whichever it is.
    With more than one window open beforehand that handle is an old one, not
    the window that has just opened. *)
Theorem switch_to_new_window_takes_first_other
  (kvs : list (string * PyVal)) (s : State)
  (original before v first : PyVal) (others : list PyVal)
  (Htarget : eq_str (get_or "target" kvs (VStr "new")) "new" = true)
  (Horiginal : driver (history s) current_window_handle = Returned original)
  (Hbefore :
     driver (history (after s [current_window_handle])) window_handles
     = Returned before)
  (Hlen : has_len before = true)
  (Hwait :
     driver (history (after s [current_window_handle; window_handles]))
       (wait_until (VInt 10)
          (number_of_windows_to_be (length_of before + 1)) "")
     = Returned v)
  (Hafter :
     driver
       (history
          (after s
             [current_window_handle; window_handles;
              wait_until (VInt 10)
                (number_of_windows_to_be (length_of before + 1)) ""]))
       window_handles
     = Returned (VList (first :: others)))
  (Hother : py_eqb first original = false) :
  _handle_switch_window (VDict kvs) s
  = (call (switch_to_window first) ;;; ret (VBool true))
      (after s
         [current_window_handle; window_handles;
          wait_until (VInt 10)
            (number_of_windows_to_be (length_of before + 1)) "";
          window_handles]).
Proof.
  destruct (switch_to_new_window kvs s original before Htarget Horiginal
              Hbefore Hlen) as [_ Hswitch].
  rewrite (Hswitch v (first :: others) Hwait Hafter).
  cbn [List.filter]. rewrite Hother. reflexivity.
Qed.

(** ** What no handler does to the session *)

Lemma continues_refl s : continues s s.
Proof.
  split; [reflexivity|]. exists []. split; [now rewrite app_nil_r|reflexivity].
Qed.

Lemma continues_trans s1 s2 s3 :
  continues s1 s2 -> continues s2 s3 -> continues s1 s3.
Proof.
  intros [Hd1 (t1 & Hh1 & Hp1)] [Hd2 (t2 & Hh2 & Hp2)]. split.
  - now rewrite Hd2.
  - exists (t1 ++ t2). split.
    + now rewrite Hh2, Hh1, app_assoc.
    + now rewrite forallb_app, Hp1, Hp2.
Qed.

Lemma steady_ret {S A} `{HasSession S} (a : A) : steady (ret (S := S) a).
Proof. intro x. apply continues_refl. Qed.

Lemma steady_reraise {S A} `{HasSession S} e :
  steady (reraise (S := S) (A := A) e).
Proof. intro x. apply continues_refl. Qed.

Lemma steady_raise {S A} `{HasSession S} c msg :
  steady (raise (S := S) (A := A) c msg).
Proof. intro x. apply continues_refl. Qed.

Lemma steady_of_outcome {S A} `{HasSession S} (o : Outcome A) :
  steady (of_outcome (S := S) o).
Proof. intro x. apply continues_refl. Qed.

(** A computation that follows a steady one is only asked to be steady on
    the values that one can return. *)
Lemma steady_bind_returned {S A B} `{HasSession S} (m : ST S A)
  (k : A -> ST S B) :
  steady m ->
  (forall a x x', m x = (Returned a, x') -> steady (k a)) ->
  steady (bind m k).
Proof.
  intros Hm Hk x. unfold bind. specialize (Hm x).
  destruct (m x) as [[a|e] x'] eqn:Hrun; cbn [snd] in *.
  - eapply continues_trans; [exact Hm|]. exact (Hk a x x' Hrun x').
  - exact Hm.
Qed.

Lemma steady_bind {S A B} `{HasSession S} (m : ST S A) (k : A -> ST S B) :
  steady m -> (forall a, steady (k a)) -> steady (bind m k).
Proof. intros Hm Hk. apply steady_bind_returned; auto. Qed.

Lemma steady_try_except {S A} `{HasSession S} classes (body : ST S A)
  handler :
  steady body -> (forall e, steady (handler e)) ->
  steady (try_except classes body handler).
Proof.
  intros Hb Hh x. unfold try_except. specialize (Hb x).
  destruct (body x) as [[a|e] x']; cbn [snd] in *; [exact Hb|].
  destruct (classes e); [|exact Hb].
  eapply continues_trans; [exact Hb|]. apply Hh.
Qed.

Lemma steady_try_finally {S A} `{HasSession S} (body : ST S A) cleanup :
  steady body -> steady cleanup -> steady (try_finally body cleanup).
Proof.
  intros Hb Hc x. unfold try_finally. specialize (Hb x).
  destruct (body x) as [o x']; cbn [snd] in *. specialize (Hc x').
  destruct (cleanup x') as [[u|e] x'']; cbn [snd] in *;
    eapply continues_trans; eassumption.
Qed.

Lemma steady_for_each {S A} `{HasSession S} (l : list A) body :
  (forall a, steady (body a)) -> steady (for_each (S := S) l body).
Proof.
  intro Hb. induction l as [|a l IH]; cbn [for_each].
  - apply steady_ret.
  - apply steady_bind; [apply Hb|intros _; exact IH].
Qed.

Lemma steady_lift {L S A} `{HasSession S} (m : ST S A) :
  steady m -> steady (lift (L := L) m).
Proof.
  intros Hm [l s]. unfold lift. cbn [fst snd]. specialize (Hm s).
  destruct (m s) as [o s']. exact Hm.
Qed.

Lemma steady_get_local {L S} `{HasSession S} :
  steady (get_local (L := L) (S := S)).
Proof. intro x. apply continues_refl. Qed.

Lemma steady_update_local {L S} `{HasSession S} (f : L -> L) :
  steady (update_local (S := S) f).
Proof. intro x. apply continues_refl. Qed.

Lemma steady_with_local {L S A} `{HasSession S} (init : L)
  (body : ST (L * S) A) :
  steady body -> steady (with_local init body).
Proof.
  intros Hb s. unfold with_local. specialize (Hb (init, s)).
  destruct (body (init, s)) as [o ls]. exact Hb.
Qed.

Lemma steady_call c : session_call c = false -> steady (call c).
Proof.
  intros Hc s. unfold call. cbn [snd]. split; [reflexivity|].
  exists [Called c (driver (history s) c)]. split; [reflexivity|].
  cbn [forallb page_event]. now rewrite Hc.
Qed.

Lemma steady_time_time : steady time_time.
Proof.
  intro s. split; [reflexivity|].
  exists [Clock (clock (history s))]. split; reflexivity.
Qed.

Lemma steady_py_get {S} `{HasSession S} d k default :
  steady (py_get (S := S) d k default).
Proof. destruct d; intro x; apply continues_refl. Qed.

Lemma steady_py_iter {S} `{HasSession S} v : steady (py_iter (S := S) v).
Proof. destruct v; intro x; apply continues_refl. Qed.

Lemma steady_unpack2 {S} `{HasSession S} v : steady (unpack2 (S := S) v).
Proof.
  unfold unpack2. apply steady_bind; [apply steady_py_iter|].
  intros [|a [|b [|c l]]]; intro x; apply continues_refl.
Qed.

Lemma steady_py_len {S} `{HasSession S} v : steady (py_len (S := S) v).
Proof. destruct v; intro x; apply continues_refl. Qed.

Lemma steady_py_upper {S} `{HasSession S} v : steady (py_upper (S := S) v).
Proof. destruct v; intro x; apply continues_refl. Qed.

Lemma steady_py_in {S} `{HasSession S} a c : steady (py_in (S := S) a c).
Proof. destruct c, a; intro x; apply continues_refl. Qed.

Lemma steady_seq_index {S} `{HasSession S} items i :
  steady (seq_index (S := S) items i).
Proof.
  unfold seq_index. cbv zeta.
  destruct (_ || _)%bool; [intro x; apply continues_refl|].
  destruct (nth_error _ _); intro x; apply continues_refl.
Qed.

Lemma steady_py_index {S} `{HasSession S} c k :
  steady (py_index (S := S) c k).
Proof.
  destruct c, k; cbn [py_index];
    try apply steady_seq_index; try (intro x; apply continues_refl).
  destruct (lookup _ _); intro x; apply continues_refl.
Qed.

Lemma steady_table_get {S A} `{HasSession S} (t : list (string * A)) key :
  steady (table_get (S := S) t key).
Proof. destruct key; intro x; apply continues_refl. Qed.

Create HintDb steady discriminated.

Ltac steady_step :=
  first
    [ solve [auto 2 with steady nocore]
    | apply steady_py_get | apply steady_py_iter | apply steady_unpack2
    | apply steady_py_len | apply steady_py_upper | apply steady_py_in
    | apply steady_py_index | apply steady_seq_index | apply steady_table_get
    | apply steady_of_outcome | apply steady_time_time
    | apply steady_get_local | apply steady_update_local
    | apply steady_call; reflexivity
    | apply steady_ret | apply steady_raise | apply steady_reraise
    | apply steady_lift | apply steady_with_local
    | apply steady_bind; [|intros ?]
    | apply steady_try_except; [|intros ?]
    | apply steady_try_finally
    | apply steady_for_each; intros ?
    | match goal with
      | |- steady (if ?b then _ else _) => destruct b
      | |- steady (match ?x with _ => _ end) => destruct x
      end
    | assumption ].

Ltac steady_auto := repeat steady_step.

Lemma steady_get_by_from_string v : steady (_get_by_from_string v).
Proof. unfold _get_by_from_string. steady_auto. Qed.

#[local] Hint Resolve steady_get_by_from_string : steady.

Lemma steady_find_with_wait_loop condition timeout locators remaining :
  steady (find_with_wait_loop condition timeout locators remaining).
Proof.
  induction remaining as [|locator rest IH]; cbn [find_with_wait_loop].
  - steady_auto.
  - apply steady_bind; [apply steady_unpack2|]. intros [a b].
    apply steady_bind; [apply steady_get_by_from_string|]. intros [by_|].
    + apply steady_try_except; [apply steady_call; reflexivity|].
      intros _. exact IH.
    + exact IH.
Qed.

#[local] Hint Resolve steady_find_with_wait_loop : steady.

Lemma steady_find_element_with_wait action condition :
  steady (_find_element_with_wait action condition).
Proof.
  unfold _find_element_with_wait. steady_auto.
Qed.
#[local] Hint Resolve steady_find_element_with_wait : steady.

Lemma steady_find_element_loop timeout locators remaining :
  steady (find_element_loop timeout locators remaining).
Proof.
  induction remaining as [|locator rest IH]; cbn [find_element_loop].
  - steady_auto.
  - apply steady_bind; [apply steady_unpack2|]. intros [a b].
    destruct (strategy_of a).
    + apply steady_try_except; [apply steady_call; reflexivity|].
      intros _. exact IH.
    + exact IH.
Qed.

#[local] Hint Resolve steady_find_element_loop : steady.

Lemma steady_find_element action : steady (_find_element action).
Proof.
  unfold _find_element. steady_auto.
Qed.
#[local] Hint Resolve steady_find_element : steady.

Lemma steady_click_round element locator :
  steady (click_round element locator).
Proof. unfold click_round. steady_auto. Qed.

Lemma steady_click_loop remaining : forall element,
  steady (click_loop element remaining).
Proof.
  induction remaining as [|locator rest IH]; intro element;
    cbn [click_loop].
  - steady_auto.
  - apply steady_bind; [apply steady_click_round|].
    intros [v|element']; [steady_auto|apply IH].
Qed.

#[local] Hint Resolve steady_click_loop : steady.

Lemma steady_wait_for_alert action : steady (_handle_wait_for_alert action).
Proof. unfold _handle_wait_for_alert. steady_auto. Qed.

#[local] Hint Resolve steady_wait_for_alert : steady.

Lemma steady_key_constant_of key : steady (key_constant_of key).
Proof. unfold key_constant_of. steady_auto. Qed.

#[local] Hint Resolve steady_key_constant_of : steady.

Section SteadyDispatch.

Variable nested : PyVal -> M (option Handler).

Hypothesis nested_steady : forall action_type, steady (nested action_type).

Hypothesis nested_handlers_steady :
  forall action_type s h s',
    nested action_type s = (Returned (Some h), s') ->
    forall action, steady (h action).

Lemma steady_run_in_frame action_item :
  steady (run_in_frame nested action_item).
Proof.
  unfold run_in_frame. apply steady_bind; [apply steady_py_get|].
  intro action_type.
  apply steady_bind_returned; [apply nested_steady|].
  intros [h|] x x' Hrun; [|apply steady_ret].
  apply steady_bind; [|intros _; apply steady_ret].
  exact (nested_handlers_steady action_type x h x' Hrun action_item).
Qed.

#[local] Hint Resolve steady_run_in_frame : steady.

Lemma steady_execute_in_frame action :
  steady (_handle_execute_in_frame nested action).
Proof. unfold _handle_execute_in_frame. steady_auto. Qed.

#[local] Hint Resolve steady_execute_in_frame : steady.

Lemma handlers_steady :
  Forall (fun entry => forall action, steady (snd entry action))
    (handlers nested).
Proof.
  unfold handlers.
  repeat (apply Forall_cons;
          [intro action; cbn [snd];
           first [ solve [auto 2 with steady nocore]
                 | match goal with |- steady (?h _) => unfold h end;
                   steady_auto ]
          |]).
  apply Forall_nil.
Qed.

Lemma assoc_Forall {A} (P : A -> Prop) k (t : list (string * A)) a :
  Forall (fun entry => P (snd entry)) t -> assoc k t = Some a -> P a.
Proof.
  induction 1 as [|[k' a'] t Hhead _ IH]; cbn [assoc]; [discriminate|].
  destruct (k' =? k); [|exact IH].
  intro Heq. injection Heq as <-. exact Hhead.
Qed.

Lemma lookup_handler_steady action_type :
  steady (lookup_handler nested action_type).
Proof. unfold lookup_handler. apply steady_table_get. Qed.

Lemma lookup_handler_handlers_steady action_type s h s' :
  lookup_handler nested action_type s = (Returned (Some h), s') ->
  forall action, steady (h action).
Proof.
  unfold lookup_handler, table_get.
  destruct action_type; cbn [ret raise reraise]; try discriminate.
  intro Hrun. injection Hrun as Hassoc _.
  exact (assoc_Forall (fun h => forall action, steady (h action)) _ _ _
           handlers_steady Hassoc).
Qed.

End SteadyDispatch.

Lemma dispatcher_steady depth :
  (forall action_type, steady (get_action_handler_within depth action_type))
  /\ (forall action_type s h s',
        get_action_handler_within depth action_type s
        = (Returned (Some h), s') ->
        forall action, steady (h action)).
Proof.
  induction depth as [|depth [IHd IHh]]; cbn [get_action_handler_within].
  - split.
    + intro action_type. apply lookup_handler_steady.
    + intros action_type s h s'. apply lookup_handler_handlers_steady.
      * intro ty. apply steady_raise.
      * intros ty s0 h0 s0' Hrun. discriminate Hrun.
  - split.
    + intro action_type. apply lookup_handler_steady.
    + intros action_type s h s'.
      apply lookup_handler_handlers_steady; assumption.
Qed.

(** X5.  No action handler starts a browser, ends one, or changes whether
    the executor holds a driver: whatever handler the dispatcher returns,
    on whatever action and in whatever state it is run, and whether it
    returns or raises, the state it leaves has the same [self.driver] and a
    history that extends the one it started from by calls other than
    [Chrome(...)], [set_page_load_timeout] and [quit].  This holds through
    the handlers nested in an [execute_in_frame] action, to any depth. *)
Theorem handlers_leave_the_session_alone action_type s0 h s0' action s :
  _get_action_handler action_type s0 = (Returned (Some h), s0') ->
  continues s (snd (h action s)).
Proof.
  intro Hh.
  exact (proj2 (dispatcher_steady recursion_limit) action_type s0 h s0' Hh
           action s).
Qed.

Lemma steady_capture prefix index action_type :
  steady (capture prefix index action_type).
Proof. unfold capture. cbv zeta. steady_auto. Qed.

#[local] Hint Resolve steady_capture : steady.

Lemma steady_attempt index action action_type :
  steady (attempt index action action_type).
Proof.
  unfold attempt.
  apply steady_bind_returned.
  - do 2 apply steady_lift.
    apply (proj1 (dispatcher_steady recursion_limit)).
  - intros [h|] [a [r s]] x' Hrun; [|apply steady_raise].
    assert (Hh : steady (h action)).
    { unfold lift in Hrun. cbn [fst snd] in Hrun.
      destruct (_get_action_handler action_type s) as [o s'] eqn:Hd.
      injection Hrun as -> _.
      exact (proj2 (dispatcher_steady recursion_limit) action_type s h s'
               Hd action). }
    steady_auto.
Qed.

Lemma steady_recover index action action_type e :
  steady (recover index action action_type e).
Proof. unfold recover. cbv zeta. steady_auto. Qed.

Lemma steady_conclude : steady conclude.
Proof. unfold conclude. steady_auto. Qed.

#[local] Hint Resolve steady_attempt steady_recover steady_conclude : steady.

Lemma steady_run_action index action : steady (run_action index action).
Proof. unfold run_action. steady_auto. Qed.

#[local] Hint Resolve steady_run_action : steady.

Lemma steady_run_actions remaining : forall index,
  steady (run_actions index remaining).
Proof.
  induction remaining as [|action rest IH]; intro index; cbn [run_actions].
  - apply steady_ret.
  - apply steady_bind; [apply steady_run_action|].
    intros [|]; [apply steady_ret|apply IH].
Qed.

#[local] Hint Resolve steady_run_actions : steady.

Lemma steady_replay script_data : steady (replay script_data).
Proof. unfold replay. steady_auto. Qed.

Lemma steady_give_up_with e : steady (give_up_with e).
Proof. unfold give_up_with. cbv zeta. steady_auto. Qed.

#[local] Hint Resolve steady_replay steady_give_up_with : steady.

(** [execute_script] after its check of [self.driver]. *)
Lemma steady_script_body script_data :
  steady
    (listed <- py_get script_data "actions" (VList []) ;;
     total <- py_len listed ;;
     started <- time_time ;;
     with_local (initial_results total started)
       (try_except any_exception (replay script_data) give_up_with)).
Proof. steady_auto. Qed.

Lemma execute_script_continues script_data s :
  self_driver s = true -> continues s (snd (execute_script script_data s)).
Proof.
  intro Hdriver. unfold execute_script. unfold bind at 1. rewrite Hdriver.
  apply (steady_script_body script_data s).
Qed.

(** X6.  A run on an executor whose driver is started reuses that browser:
    whatever the script and however the run ends, [execute_script] issues no
    [Chrome(...)], no [set_page_load_timeout] and no [quit], only appends to
    the history, and leaves [self.driver] set. *)
Theorem started_session_is_reused script_data s :
  self_driver s = true ->
  let s' := snd (execute_script script_data s) in
  self_driver s' = true
  /\ exists t,
       history s' = history s ++ t
       /\ forallb page_event t = true.
Proof.
  intro Hdriver. cbv zeta.
  destruct (execute_script_continues script_data s Hdriver) as [Hd Ht].
  split; [now rewrite Hd|exact Ht].
Qed.

(** ** The session: starting and closing *)

Lemma start_driver_run headless s :
  start_driver headless s
  = match driver (history s) (start_chrome headless) with
    | Raised e =>
        (Raised e,
         mkState (self_driver s)
           (history s ++ [Called (start_chrome headless) (Raised e)]))
    | Returned created =>
        let h1 :=
          history s ++ [Called (start_chrome headless) (Returned created)] in
        let r := driver h1 (set_page_load_timeout 30) in
        (match r with
         | Returned _ => Returned created
         | Raised e => Raised e
         end,
         mkState true (h1 ++ [Called (set_page_load_timeout 30) r]))
    end.
Proof.
  unfold start_driver, try_except, bind, call, set_driver, reraise, ret.
  cbn [history self_driver any_exception].
  destruct (driver (history s) (start_chrome headless)); [|reflexivity].
  cbn [history self_driver]. cbv zeta.
  destruct (driver _ (set_page_load_timeout 30)); reflexivity.
Qed.

Lemma close_run s :
  close s
  = (Returned tt,
     if self_driver s
     then mkState false
            (history s ++ [Called quit (driver (history s) quit)])
     else s).
Proof.
  unfold close. destruct (self_driver s); [|reflexivity].
  unfold try_finally, try_except, bind, call, set_driver, ret.
  cbn [history self_driver any_exception].
  destruct (driver (history s) quit); reflexivity.
Qed.

Lemma close_closed s : self_driver (snd (close s)) = false.
Proof.
  rewrite close_run. cbn [snd]. destruct (self_driver s) eqn:Hd;
    [reflexivity|exact Hd].
Qed.

(** X7.  [close] never raises, not even when [quit] does; it leaves the
    executor without a driver; it calls [quit] exactly when the executor
    held one; and closing twice is closing once: the second [close] makes
    no call. *)
Theorem close_is_idempotent s :
  let s' := snd (close s) in
  fst (close s) = Returned tt
  /\ self_driver s' = false
  /\ history s'
     = (if self_driver s
        then history s ++ [Called quit (driver (history s) quit)]
        else history s)
  /\ close s' = (Returned tt, s').
Proof.
  cbv zeta. rewrite close_run. cbn [fst snd].
  destruct (self_driver s) eqn:Hd.
  - repeat split. 
  - repeat split; [exact Hd|]. rewrite close_run, Hd. reflexivity.
Qed.

Lemma try_finally_close {A} (body : M A) s :
  try_finally body close s = (fst (body s), snd (close (snd (body s)))).
Proof.
  unfold try_finally. destruct (body s) as [o s1]. cbn [fst snd].
  rewrite close_run. reflexivity.
Qed.

(** What a session looks like from start to close: one browser started,
    anything but session calls in between, one [quit] at the end. *)
Lemma session_closed {A} (body : M A) headless s :
  (forall x, self_driver x = true -> continues x (snd (body x))) ->
  self_driver s = false ->
  let attempted := (start_driver headless ;;; body) s in
  let closed := snd (close (snd attempted)) in
  let start := start_chrome headless in
  self_driver closed = false
  /\ (forall e,
        driver (history s) start = Raised e ->
        fst attempted = Raised e
        /\ closed = mkState false (history s ++ [Called start (Raised e)]))
  /\ (forall created,
        driver (history s) start = Returned created ->
        exists r0 t r,
          history closed
          = history s
              ++ Called start (Returned created)
                 :: Called (set_page_load_timeout 30) r0
                 :: t ++ [Called quit r]
          /\ forallb page_event t = true).
Proof.
  intros Hbody Hfresh attempted closed start. subst attempted closed start.
  unfold bind. rewrite start_driver_run.
  destruct (driver (history s) (start_chrome headless)) as [created|e] eqn:Hs.
  - cbv zeta.
    destruct (driver _ (set_page_load_timeout 30)) as [v|e] eqn:Ht.
    + match goal with
      | |- context [body ?x] =>
          destruct (Hbody x eq_refl) as [Hd (t & Hh & Hp)];
            destruct (body x) as [o s2]
      end.
      cbn [snd history self_driver] in *.
      rewrite close_run, Hd. cbn [snd self_driver history].
      split; [reflexivity|]. split; [discriminate|].
      intros created' Hc. injection Hc as <-.
      exists (Returned v), t. eexists. split; [|exact Hp].
      rewrite Hh. rewrite <- !app_assoc. reflexivity.
    + rewrite close_run. cbn [snd self_driver history].
      split; [reflexivity|]. split; [discriminate|].
      intros created' Hc. injection Hc as <-.
      exists (Raised e), []. eexists. split; [|reflexivity].
      rewrite <- !app_assoc. reflexivity.
  - rewrite close_run. cbn [fst snd self_driver history]. rewrite Hfresh.
    split; [reflexivity|]. split; [|discriminate].
    intros e' He. injection He as <-. split; [reflexivity|].
    destruct s as [d h]. cbn [self_driver history] in *. now subst d.
Qed.

(** X8.  The module-level helper [execute_script] releases what it
    acquires.  Whatever the script, and whether the run returns or raises,
    the executor ends without a driver.  When the browser cannot be created
    the helper raises that exception and never calls [quit]; when it is
    created, the history of the run is: that one [Chrome(...)], the
    page-load timeout, then calls that neither start nor end a browser, and
    last a single [quit]. *)
Theorem helper_releases_the_browser script_data headless d0 h0 :
  let out := module_execute_script script_data headless (mkState d0 h0) in
  let start := start_chrome (truthy headless) in
  self_driver (snd out) = false
  /\ (forall e,
        driver h0 start = Raised e ->
        out = (Raised e, mkState false (h0 ++ [Called start (Raised e)])))
  /\ (forall created,
        driver h0 start = Returned created ->
        exists r0 t r,
          history (snd out)
          = h0
              ++ Called start (Returned created)
                 :: Called (set_page_load_timeout 30) r0
                 :: t ++ [Called quit r]
          /\ forallb page_event t = true).
Proof.
  cbv zeta.
  assert (Hrun0 :
    module_execute_script script_data headless (mkState d0 h0)
    = (fst ((start_driver (truthy headless) ;;; execute_script script_data)
              (mkState false h0)),
       snd (close
              (snd ((start_driver (truthy headless) ;;;
                     execute_script script_data) (mkState false h0)))))).
  { unfold module_execute_script, __init__, __exit__.
    unfold bind at 1. unfold set_driver at 1. cbn [history].
    apply try_finally_close. }
  rewrite Hrun0. cbn [fst snd].
  destruct (session_closed (execute_script script_data) (truthy headless)
              (mkState false h0) (execute_script_continues script_data)
              eq_refl) as (Hclosed & Hfail & Hrun).
  cbn [history] in Hfail, Hrun.
  split; [exact Hclosed|]. split; [|exact Hrun].
  intros e He. destruct (Hfail e He) as [Hout Hstate].
  now rewrite Hout, Hstate.
Qed.

(** ** The server's use of the executor *)

Lemma py_len_unsized {S} v (s : S) :
  has_len v = false ->
  py_len v s = (Raised (mkExn TypeError "object has no len()"), s).
Proof. destruct v; try discriminate; reflexivity. Qed.

Lemma execute_script_unsized kvs s :
  self_driver s = true ->
  has_len (get_or "actions" kvs (VList [])) = false ->
  execute_script (VDict kvs) s
  = (Raised (mkExn TypeError "object has no len()"), s).
Proof.
  intros Hdriver Hlen. unfold execute_script.
  unfold bind at 1. rewrite Hdriver.
  rewrite (bind_returned _ _ _ _ _ (py_get_dict _ _ _ _)).
  now rewrite (bind_raised _ _ _ _ _ (py_len_unsized _ _ Hlen)).
Qed.

Lemma handle_automation_script_run dkvs skvs s :
  get_or "script" dkvs (VDict []) = VDict skvs ->
  handle_automation_script (VDict dkvs) s
  = let attempted :=
      (start_driver (truthy (get_or "headless" dkvs (VBool false))) ;;;
       execute_script (VDict skvs)) (mkState false (history s)) in
    (answer skvs (fst attempted), snd (close (snd attempted))).
Proof.
  intro Hscript. unfold handle_automation_script.
  rewrite (bind_returned _ _ _ _ _ (py_get_dict _ _ _ _)), Hscript.
  rewrite (bind_returned _ _ _ _ _ (py_get_dict _ _ _ _)).
  rewrite (bind_returned _ _ _ _ _ (py_get_dict _ _ _ _)).
  cbv zeta. unfold try_finally, try_except, __init__, bind, set_driver.
  cbn [history py_get ret any_exception].
  destruct (start_driver (truthy (get_or "headless" dkvs (VBool false)))
              (mkState false (history s))) as [[created|e] s1];
    [destruct (execute_script (VDict skvs) s1) as [[results|e] s2]|];
    cbn [fst snd answer ret]; try (rewrite close_run; reflexivity);
    (destruct (has_len (get_or "actions" skvs (VList []))) eqn:Hlen;
     [rewrite (py_len_run _ _ Hlen)|rewrite (py_len_unsized _ _ Hlen)];
     cbn [ret]; rewrite close_run; reflexivity).
Qed.


(** What the [try] block of the server ends in when the script's actions
    have a length: a result with consistent counts, or the exception of the
    driver that did not start. *)
Lemma attempted_sized headless skvs s :
  has_len (get_or "actions" skvs (VList [])) = true ->
  match fst ((start_driver headless ;;; execute_script (VDict skvs)) s) with
  | Returned r =>
      total_actions r = length_of (get_or "actions" skvs (VList []))
      /\ executed_actions r <= total_actions r
      /\ (success r = true -> errors r = [])
  | Raised _ => True
  end.
Proof.
  intro Hlen. unfold bind.
  destruct (start_driver headless s) as [[created|e] s1] eqn:Hstart;
    [|exact I].
  pose proof (start_driver_sets_driver _ _ _ _ Hstart) as Hdriver.
  destruct (execute_script (VDict skvs) s1) as [[r|e] s2] eqn:Hrun;
    [|exact I].
  cbn [fst].
  destruct (execute_script_counts _ _ _ _ Hrun) as [(Hsum & _) Hle].
  rewrite (execute_script_run _ _ Hdriver Hlen) in Hrun.
  destruct (run_actions _ _ _) as [[[]|e] [rl s3]] eqn:Hloop;
    injection Hrun as <- _;
    destruct (run_actions_counts _ _ _ _ _ _ _ Hloop eq_refl
                (opening_results_well_counted _ _)) as (_ & _ & Ht).
  - cbn [finish total_actions executed_actions success errors] in *.
    split; [exact Ht|]. split; [lia|].
    intro Hs. apply Nat.eqb_eq in Hs. now apply length_zero_iff_nil.
  - cbn [fail_with total_actions executed_actions success errors] in *.
    split; [exact Ht|]. split; [lia|]. discriminate.
Qed.

(** X9.  A request whose script is a mapping and whose actions have a
    length is always answered: [handle_automation_script] returns a response
    of type ['automation_response'], with status ['success'] or ['error'],
    and leaves the executor closed.  A status of ['success'] comes with an
    empty list of errors; [total_actions] is the number of actions of the
    script, and [executed_actions] does not exceed it. *)
Theorem automation_request_is_answered dkvs skvs s :
  get_or "script" dkvs (VDict []) = VDict skvs ->
  has_len (get_or "actions" skvs (VList [])) = true ->
  exists resp s',
    handle_automation_script (VDict dkvs) s = (Returned resp, s')
    /\ self_driver s' = false
    /\ response_type resp = "automation_response"
    /\ (response_status resp = "success" \/ response_status resp = "error")
    /\ (response_status resp = "success" ->
        details_errors (response_details resp) = inl [])
    /\ details_total_actions (response_details resp)
       = length_of (get_or "actions" skvs (VList []))
    /\ details_executed_actions (response_details resp)
       <= details_total_actions (response_details resp).
Proof.
  intros Hscript Hlen. rewrite (handle_automation_script_run _ _ _ Hscript).
  cbv zeta.
  pose proof (attempted_sized
                (truthy (get_or "headless" dkvs (VBool false))) skvs
                (mkState false (history s)) Hlen) as Hfacts.
  destruct (fst _) as [r|e] in Hfacts |- *; cbn [answer].
  - destruct Hfacts as (Ht & Hx & Hs).
    eexists _, _. split; [reflexivity|].
    split; [apply close_closed|].
    split; [reflexivity|]. unfold completed_response.
    cbn [response_status response_details details_errors
         details_total_actions details_executed_actions].
    split; [destruct (success r); [left|right]; reflexivity|].
    split; [|split; assumption].
    destruct (success r); [|discriminate]. intros _. now rewrite Hs.
  - rewrite Hlen. eexists _, _. split; [reflexivity|].
    split; [apply close_closed|].
    split; [reflexivity|]. unfold failed_response.
    cbn [response_status response_details details_errors
         details_total_actions details_executed_actions].
    split; [right; reflexivity|].
    split; [discriminate|]. split; [reflexivity|apply Nat.le_0_l].
Qed.

(** X10.  Every automation request releases the browser it started.
    Whatever the script does, the executor ends closed.  When the browser
    cannot be created no [quit] is issued; when it is created the history
    of the request is: that one [Chrome(...)], the page-load timeout, calls
    that neither start nor end a browser, and last a single [quit]. *)
Theorem automation_request_releases_browser dkvs skvs s :
  get_or "script" dkvs (VDict []) = VDict skvs ->
  let out := handle_automation_script (VDict dkvs) s in
  let start :=
    start_chrome (truthy (get_or "headless" dkvs (VBool false))) in
  self_driver (snd out) = false
  /\ (forall e,
        driver (history s) start = Raised e ->
        history (snd out) = history s ++ [Called start (Raised e)])
  /\ (forall created,
        driver (history s) start = Returned created ->
        exists r0 t r,
          history (snd out)
          = history s
              ++ Called start (Returned created)
                 :: Called (set_page_load_timeout 30) r0
                 :: t ++ [Called quit r]
          /\ forallb page_event t = true).
Proof.
  intros Hscript. cbv zeta.
  rewrite (handle_automation_script_run _ _ _ Hscript). cbv zeta.
  cbn [snd].
  destruct (session_closed (execute_script (VDict skvs))
              (truthy (get_or "headless" dkvs (VBool false)))
              (mkState false (history s))
              (execute_script_continues (VDict skvs)) eq_refl)
    as (Hclosed & Hfail & Hrun).
  cbn [history] in Hfail, Hrun.
  split; [exact Hclosed|]. split; [|exact Hrun].
  intros e He. destruct (Hfail e He) as [_ Hstate].
  now rewrite Hstate.
Qed.

(** X11.  Two requests [handle_automation_script] does not answer.  A
    request whose ['script'] is not a mapping raises [AttributeError]
    before an executor exists: nothing is started.  A request whose script
    has actions without a length raises [TypeError] out of the [except]
    block, which measures the actions again; the executor is closed all the
    same. *)
Theorem unanswered_automation_requests dkvs s :
  let out := handle_automation_script (VDict dkvs) s in
  (match get_or "script" dkvs (VDict []) with
   | VDict _ => False
   | _ => True
   end ->
   exists e,
     out = (Raised e, s) /\ exn_class e = AttributeError)
  /\ (forall skvs,
        get_or "script" dkvs (VDict []) = VDict skvs ->
        has_len (get_or "actions" skvs (VList [])) = false ->
        exists e,
          fst out = Raised e
          /\ exn_class e = TypeError
          /\ self_driver (snd out) = false).
Proof.
  cbv zeta. split.
  - intro Hnot. unfold handle_automation_script.
    rewrite (bind_returned _ _ _ _ _ (py_get_dict _ _ _ _)).
    destruct (get_or "script" dkvs (VDict [])) as [| | | | | |skvs| |];
      try (eexists; split; reflexivity).
    contradiction.
  - intros skvs Hscript Hlen.
    rewrite (handle_automation_script_run _ _ _ Hscript). cbv zeta.
    cbn [fst snd].
    assert (Hraised : exists e,
              fst ((start_driver
                      (truthy (get_or "headless" dkvs (VBool false))) ;;;
                    execute_script (VDict skvs))
                     (mkState false (history s)))
              = Raised e).
    { unfold bind.
      destruct (start_driver _ _) as [[created|e] s1] eqn:Hstart.
      - rewrite (execute_script_unsized _ _
                   (start_driver_sets_driver _ _ _ _ Hstart) Hlen).
        eexists. reflexivity.
      - eexists. reflexivity. }
    destruct Hraised as [e He]. rewrite He. cbn [answer]. rewrite Hlen.
    eexists. split; [reflexivity|]. split; [reflexivity|apply close_closed].
Qed.

(** ** The parameter checks of the handlers *)

Lemma truthy_default_list k kvs :
  truthy (get_or k kvs (VList [])) = truthy (get_or k kvs VNone).
Proof. unfold get_or. destruct (lookup k kvs); reflexivity. Qed.

Ltac rejected :=
  eexists;
  erewrite invoke_handler
    by (unfold _get_action_handler; destruct recursion_limit; reflexivity);
  match goal with |- ?h _ _ = _ => unfold h end;
  unfold lacks, undefined in *;
  cbv beta iota delta [_find_element_with_wait bind py_get ret];
  rewrite ?truthy_default_list;
  match goal with H : _ = true |- _ => rewrite H end;
  reflexivity.

(** X12.  The parameter checks come first.  For each action type in the
    table of required parameters, an action that lacks the parameter fails
    with the handler's [ValueError] when it is dispatched, and the browser
    is not touched: the state after the failure is the state before it. *)
Theorem missing_parameter_rejected_before_any_call name check kvs s :
  assoc name required_parameters = Some check ->
  check kvs = true ->
  exists msg,
    invoke (VStr name) (VDict kvs) s = (Raised (mkExn ValueError msg), s).
Proof.
  intros Hassoc Hcheck. unfold required_parameters in Hassoc.
  cbn [assoc] in Hassoc.
  repeat match type of Hassoc with
         | (if ?k =? name then _ else _) = Some _ =>
             let E := fresh "E" in
             destruct (k =? name) eqn:E;
               [apply String.eqb_eq in E; subst name;
                injection Hassoc as <-; rejected|]
         end.
  discriminate Hassoc.
Qed.

(** ** The click handler *)

Lemma after_app s calls more :
  after s (calls ++ more) = after (after s calls) more.
Proof. unfold after. cbn [history self_driver]. now rewrite played_app. Qed.

Lemma after_nil s : after s [] = s.
Proof. destruct s; reflexivity. Qed.

(** One round of the loop of [_handle_click] on a well-formed locator. *)
Lemma click_round_entry element l s :
  click_round element (locator_entry l) s
  = match by_of_name (fst l) with
    | None => (Returned (ClickContinue element), s)
    | Some by_ =>
        let w :=
          wait_until (VInt 5) (element_to_be_clickable by_ (snd l)) "" in
        match driver (history s) w with
        | Raised _ => (Returned (ClickContinue element), after s [w])
        | Returned found =>
            match driver (history (after s [w])) (click_on found) with
            | Returned _ =>
                (Returned (ClickReturn (VBool true)),
                 after s [w; click_on found])
            | Raised _ =>
                (Returned (ClickContinue found), after s [w; click_on found])
            end
        end
    end.
Proof.
  unfold click_round, try_except at 1.
  unfold bind at 1. rewrite unpack2_entry.
  unfold bind at 1. cbn [py_upper ret fst snd].
  unfold bind at 1. cbn [table_get ret]. fold (by_of_name (fst l)).
  destruct (by_of_name (fst l)) as [by_|]; [|reflexivity].
  cbv zeta. unfold bind at 1, call at 1.
  destruct (driver (history s) _) as [found|e] eqn:Hw.
  - unfold try_except, bind, call, click_on, after.
    cbn [history self_driver played]. rewrite Hw.
    destruct (driver _ (perform _)); reflexivity.
  - cbn [any_exception ret]. unfold after. cbn [played]. now rewrite Hw.
Qed.

Lemma click_waits_cons l locs :
  click_waits (l :: locs)
  = match by_of_name (fst l) with
    | Some by_ =>
        [wait_until (VInt 5) (element_to_be_clickable by_ (snd l)) ""]
    | None => []
    end ++ click_waits locs.
Proof. reflexivity. Qed.

(** Locators whose waits all fail, with whatever exception, leave the loop
    where it was. *)
Lemma click_loop_skip pre rest : forall element s,
  all_raise (history s) (click_waits pre) = true ->
  click_loop element (List.map locator_entry pre ++ rest) s
  = click_loop element rest (after s (click_waits pre)).
Proof.
  induction pre as [|l pre IH]; intros element s Hall.
  - now rewrite after_nil.
  - cbn [List.map List.app click_loop].
    unfold bind at 1. rewrite click_round_entry.
    rewrite click_waits_cons in Hall |- *.
    destruct (by_of_name (fst l)) as [by_|].
    + cbn [List.app all_raise] in Hall. cbv zeta.
      destruct (driver (history s) _) as [v|e] eqn:Hd; [discriminate|].
      rewrite IH.
      * unfold after. cbn [List.app played history self_driver].
        now rewrite Hd.
      * unfold after. cbn [played history self_driver]. now rewrite Hd.
    + cbn [List.app] in Hall |- *. apply IH, Hall.
Qed.

Lemma handle_click_unfold kvs locs s :
  get_or "locators" kvs (VList []) = VList (List.map locator_entry locs) ->
  _handle_click (VDict kvs) s
  = match click_loop VNone (List.map locator_entry locs) s with
    | (Returned (ClickReturn v), s') => (Returned v, s')
    | (Returned (ClickContinue element), s') =>
        let x := get_or "x" kvs VNone in
        let y := get_or "y" kvs VNone in
        if is_None element && negb (is_None x) && negb (is_None y) then
          match driver (history s') (perform [move_by_offset x y; click]) with
          | Returned _ =>
              (Returned (VBool true),
               after s' [perform [move_by_offset x y; click]])
          | Raised e =>
              (Raised e, after s' [perform [move_by_offset x y; click]])
          end
        else if is_None element then
          (Raised (mkExn NoSuchElementException
                     "Could not find element with provided locators"), s')
        else (Returned (VBool false), s')
    | (Raised e, s') => (Raised e, s')
    end.
Proof.
  intro Hl. unfold _handle_click.
  do 3 rewrite (bind_returned _ _ _ _ _ (py_get_dict _ _ _ _)).
  rewrite Hl. unfold bind at 1.
  assert (Hloop :
    (if truthy (VList (List.map locator_entry locs))
     then remaining <- py_iter (VList (List.map locator_entry locs)) ;;
          click_loop VNone remaining
     else ret (ClickContinue VNone)) s
    = click_loop VNone (List.map locator_entry locs) s).
  { destruct locs; reflexivity. }
  rewrite Hloop.
  destruct (click_loop _ _ s) as [[[v|element]|e] s']; try reflexivity.
  cbv zeta. destruct (_ && _)%bool; [|destruct (is_None element); reflexivity].
  unfold try_except, bind, call, after. cbn [played history self_driver].
  destruct (driver (history s') _); reflexivity.
Qed.

(** X13.  The fallback chain of the click handler.  When the locators before
    some locator all fail to yield an element, whether their strategy name
    is not in the table or their wait ends in an exception of any class,
    and that locator's wait returns an element on which the click is
    performed, the handler returns [True].  It has waited for the clickable
    condition with five seconds each time, whatever the ['timeout'] of the
    action; the locators after the hit are never tried, and the
    coordinates ['x'] and ['y'] are not used. *)
Theorem click_fallback_chain kvs pre hit post by_ element s :
  get_or "locators" kvs (VList [])
  = VList (List.map locator_entry (pre ++ hit :: post)) ->
  all_raise (history s) (click_waits pre) = true ->
  by_of_name (fst hit) = Some by_ ->
  let wait :=
    wait_until (VInt 5) (element_to_be_clickable by_ (snd hit)) "" in
  driver (history (after s (click_waits pre))) wait = Returned element ->
  (exists v,
     driver (history (after s (click_waits pre ++ [wait])))
       (click_on element)
     = Returned v) ->
  _handle_click (VDict kvs) s
  = (Returned (VBool true),
     after s (click_waits pre ++ [wait; click_on element])).
Proof.
  intros Hl Hpre Hby wait Hwait [v Hclick].
  rewrite (handle_click_unfold _ _ _ Hl).
  rewrite map_app, (click_loop_skip _ _ _ _ Hpre).
  cbn [List.map click_loop]. unfold bind at 1.
  rewrite click_round_entry, Hby. cbv zeta. fold wait. rewrite Hwait.
  rewrite after_app in Hclick. rewrite Hclick.
  now rewrite <- after_app.
Qed.

(** X14.  A click that finds no element.  When every locator fails to yield
    an element (the list may be empty), the handler falls back to the
    coordinates if both ['x'] and ['y'] are given: it performs one click at
    that offset and returns [True], or raises what that click raised.
    Without both coordinates it raises [NoSuchElementException] with the
    message ["Could not find element with provided locators"]. *)
Theorem click_without_element kvs locs s :
  get_or "locators" kvs (VList []) = VList (List.map locator_entry locs) ->
  all_raise (history s) (click_waits locs) = true ->
  let x := get_or "x" kvs VNone in
  let y := get_or "y" kvs VNone in
  let s' := after s (click_waits locs) in
  let at_offset := perform [move_by_offset x y; click] in
  _handle_click (VDict kvs) s
  = if negb (is_None x) && negb (is_None y) then
      (match driver (history s') at_offset with
       | Returned _ => Returned (VBool true)
       | Raised e => Raised e
       end, after s' [at_offset])
    else
      (Raised (mkExn NoSuchElementException
                 "Could not find element with provided locators"), s').
Proof.
  intros Hl Hall x y s' at_offset.
  rewrite (handle_click_unfold _ _ _ Hl).
  rewrite <- (app_nil_r (List.map locator_entry locs)).
  rewrite (click_loop_skip _ _ _ _ Hall). cbn [click_loop ret]. cbv zeta.
  fold x y s' at_offset. cbn [is_None andb].
  destruct (negb (is_None x) && negb (is_None y))%bool; [|reflexivity].
  destruct (driver (history s') at_offset); reflexivity.
Qed.

(** X15.  A click that fails on a found element is not an error.  When a
    locator's wait returns an element, performing the click on it raises,
    and no later locator yields a click, the handler returns [False]: it
    raises nothing, and it does not fall back to the coordinates even when
    ['x'] and ['y'] are given. *)
Theorem click_failure_on_found_element_returns_False
  kvs pre hit post by_ element e s :
  get_or "locators" kvs (VList [])
  = VList (List.map locator_entry (pre ++ hit :: post)) ->
  all_raise (history s) (click_waits pre) = true ->
  by_of_name (fst hit) = Some by_ ->
  let wait :=
    wait_until (VInt 5) (element_to_be_clickable by_ (snd hit)) "" in
  let tried := click_waits pre ++ [wait; click_on element] in
  driver (history (after s (click_waits pre))) wait = Returned element ->
  is_None element = false ->
  driver (history (after s (click_waits pre ++ [wait]))) (click_on element)
  = Raised e ->
  all_raise (history (after s tried)) (click_waits post) = true ->
  _handle_click (VDict kvs) s
  = (Returned (VBool false), after s (tried ++ click_waits post)).
Proof.
  intros Hl Hpre Hby wait tried Hwait Hsome Hclick Hpost.
  rewrite (handle_click_unfold _ _ _ Hl).
  rewrite map_app, (click_loop_skip _ _ _ _ Hpre).
  cbn [List.map click_loop]. unfold bind at 1.
  rewrite click_round_entry, Hby. cbv zeta. fold wait. rewrite Hwait.
  rewrite after_app in Hclick. rewrite Hclick.
  rewrite <- after_app. fold tried.
  rewrite <- (app_nil_r (List.map locator_entry post)).
  rewrite (click_loop_skip _ _ _ _ Hpost). cbn [click_loop ret].
  rewrite Hsome. cbn [andb]. now rewrite <- after_app.
Qed.

(** ** Other handlers *)

Lemma call_run c s :
  call c s = (driver (history s) c, after s [c]).
Proof. reflexivity. Qed.

Lemma call_returned c s v :
  driver (history s) c = Returned v -> call c s = (Returned v, after s [c]).
Proof. intro H. now rewrite call_run, H. Qed.

Lemma call_raised c s e :
  driver (history s) c = Raised e -> call c s = (Raised e, after s [c]).
Proof. intro H. now rewrite call_run, H. Qed.

Lemma seq_index_first {S} x l (s : S) :
  seq_index (x :: l) 0 s = (Returned x, s).
Proof.
  unfold seq_index. cbv zeta. cbn [Z.ltb Z.compare].
  assert (H : (Z.of_nat (List.length (x :: l)) <=? 0)%Z = false).
  { apply Z.leb_gt. cbn [List.length]. lia. }
  rewrite H. reflexivity.
Qed.

(** X16.  [wait_for_element_invisible] consults the first locator only.
    With a non-empty list of locators the outcome is that of one wait for
    the invisibility of the first entry, with the action's timeout: [True]
    when the wait returns, the exception of the wait when it raises.  An
    unsupported strategy name in the first entry is a [ValueError] and no
    wait is issued.  The entries after the first are not used in either
    case. *)
Theorem invisible_wait_uses_first_locator kvs first rest s :
  get_or "locators" kvs (VList [])
  = VList (List.map locator_entry (first :: rest)) ->
  _handle_wait_for_element_invisible (VDict kvs) s
  = match by_of_name (fst first) with
    | None =>
        (Raised (mkExn ValueError
                   ("Unsupported locator type: " ++ fst first)), s)
    | Some by_ =>
        let wait :=
          wait_until (timeout_of kvs)
            (invisibility_of_element_located by_ (snd first)) "" in
        (match driver (history s) wait with
         | Returned _ => Returned (VBool true)
         | Raised e => Raised e
         end, after s [wait])
    end.
Proof.
  intro Hl. unfold _handle_wait_for_element_invisible.
  do 2 rewrite (bind_returned _ _ _ _ _ (py_get_dict _ _ _ _)).
  rewrite Hl. rewrite truthy_entries. cbn [negb].
  unfold bind at 1. cbn [List.map py_index]. rewrite seq_index_first.
  unfold bind at 1. rewrite unpack2_entry.
  unfold bind at 1. rewrite get_by_from_string_name. cbn [py_str].
  destruct (by_of_name (fst first)) as [by_|]; [|reflexivity].
  cbv zeta. fold (timeout_of kvs). unfold bind. rewrite call_run.
  destruct (driver (history s) _); reflexivity.
Qed.

(** X17.  An action of a type the dispatcher has no handler for is a failed
    step, not a failed run: the step is recorded with [success = false] and
    the message ["No handler found for action type: ..."], one entry is
    added to [errors], [executed_actions] is not incremented, and the loop
    goes on unless the action sets [continue_on_error] to [false]. *)
Theorem unknown_action_type_is_a_step_error index kvs r s :
  _get_action_handler (get_or "type" kvs VNone) (tick s)
  = (Returned None, tick s) ->
  let e :=
    mkExn ValueError
      ("No handler found for action type: "
         ++ py_str (get_or "type" kvs VNone)) in
  exists ar r' s' stamp,
    run_action index (VDict kvs) (r, s)
    = (Returned (is_False (get_or "continue_on_error" kvs (VBool true))),
       (r', s'))
    /\ actions r' = actions r ++ [ar]
    /\ action_index ar = index
    /\ action_success ar = false
    /\ action_error ar = Some (exn_str e)
    /\ errors r' = errors r ++ [mkErrorEntry (VDict kvs) (exn_str e) index stamp]
    /\ executed_actions r' = executed_actions r.
Proof.
  intros Hnone e.
  apply (step_raised_report index kvs r s e (tick s)).
  unfold invoke. now rewrite (bind_returned _ _ _ _ _ Hnone).
Qed.

Lemma run_in_frame_unknown nested item s :
  nested (get_or "type" item VNone) s = (Returned None, s) ->
  run_in_frame nested (VDict item) s = (Returned tt, s).
Proof.
  intro Hnone. unfold run_in_frame.
  rewrite (bind_returned _ _ _ _ _ (py_get_dict _ _ _ _)).
  now rewrite (bind_returned _ _ _ _ _ Hnone).
Qed.

Lemma for_each_unknown nested items s :
  (forall item,
     In item items ->
     nested (get_or "type" item VNone) s = (Returned None, s)) ->
  for_each (List.map VDict items) (run_in_frame nested) s = (Returned tt, s).
Proof.
  induction items as [|item items IH]; intro Hall; [reflexivity|].
  cbn [List.map for_each].
  rewrite (bind_returned _ _ _ _ _
             (run_in_frame_unknown _ _ _ (Hall item (or_introl eq_refl)))).
  apply IH. intros item' Hin. apply Hall. now right.
Qed.

(** X18.  Inside a frame an action of unknown type is no error.  When the
    nested actions of an [execute_in_frame] action all have types the
    dispatcher has no handler for, the handler enters the frame, runs
    nothing, returns to the default content and returns [None] without
    raising: the only calls are the two switches. *)
Theorem unknown_types_in_frame_are_skipped nested kvs value item items s :
  get_or "frame_locator" kvs VNone
  = VDict [("type", VStr "index"); ("value", value)] ->
  get_or "actions" kvs (VList []) = VList (List.map VDict (item :: items)) ->
  (forall item' s',
     In item' (item :: items) ->
     nested (get_or "type" item' VNone) s' = (Returned None, s')) ->
  (exists v, driver (history s) (switch_to_frame value) = Returned v) ->
  _handle_execute_in_frame nested (VDict kvs) s
  = (match
       driver (history (after s [switch_to_frame value]))
         switch_to_default_content
     with
     | Returned _ => Returned VNone
     | Raised e => Raised e
     end,
     after s [switch_to_frame value; switch_to_default_content]).
Proof.
  intros Hframe Hactions Hunknown [v Hswitch].
  unfold _handle_execute_in_frame.
  do 2 rewrite (bind_returned _ _ _ _ _ (py_get_dict _ _ _ _)).
  rewrite Hframe, Hactions.
  cbn [truthy List.length List.map negb orb Nat.eqb].
  unfold try_finally, try_except.
  rewrite (bind_returned _ _ _ _ _ (py_get_dict _ _ _ _)).
  cbn [get_or lookup String.eqb Ascii.eqb Bool.eqb eq_str].
  unfold bind at 1. unfold bind at 1.
  cbn [py_index lookup String.eqb Ascii.eqb Bool.eqb ret].
  rewrite (call_returned _ _ _ Hswitch).
  unfold bind at 1. cbn [py_iter ret].
  rewrite (bind_returned _ _ _ _ _
             (for_each_unknown nested (item :: items) _
                (fun i Hin => Hunknown i _ Hin))).
  cbn [ret]. unfold bind. rewrite call_run.
  destruct (driver _ switch_to_default_content); reflexivity.
Qed.

(** X19.  [switch_to_window] reports what it cannot do as [False], not as
    an exception.  A target other than ['new'] and ['original'] returns
    [False] without a call to the driver; the target ['original'] returns
    [False] when the list of window handles is empty; the target ['new']
    returns [False] when no window opens within the ten seconds of its
    wait. *)
Theorem switch_window_failures_return_False kvs s :
  let target := get_or "target" kvs (VStr "new") in
  (eq_str target "new" = false ->
   eq_str target "original" = false ->
   _handle_switch_window (VDict kvs) s = (Returned (VBool false), s))
  /\ (eq_str target "new" = false ->
      eq_str target "original" = true ->
      forall handles,
        driver (history s) window_handles = Returned handles ->
        truthy handles = false ->
        _handle_switch_window (VDict kvs) s
        = (Returned (VBool false), after s [window_handles]))
  /\ (eq_str target "new" = true ->
      forall original before e,
        driver (history s) current_window_handle = Returned original ->
        driver (history (after s [current_window_handle])) window_handles
        = Returned before ->
        has_len before = true ->
        let wait :=
          wait_until (VInt 10)
            (number_of_windows_to_be (length_of before + 1)) "" in
        driver
          (history (after s [current_window_handle; window_handles])) wait
        = Raised e ->
        is_class TimeoutException e = true ->
        _handle_switch_window (VDict kvs) s
        = (Returned (VBool false),
           after s [current_window_handle; window_handles; wait])).
Proof.
  intro target. subst target. split; [|split].
  - intros Hnew Horiginal. unfold _handle_switch_window.
    rewrite (bind_returned _ _ _ _ _ (py_get_dict _ _ _ _)).
    now rewrite Hnew, Horiginal.
  - intros Hnew Horiginal handles Hhandles Hempty.
    unfold _handle_switch_window.
    rewrite (bind_returned _ _ _ _ _ (py_get_dict _ _ _ _)).
    rewrite Hnew, Horiginal.
    rewrite (bind_returned _ _ _ _ _ (call_returned _ _ _ Hhandles)).
    now rewrite Hempty.
  - intros Hnew original before e Horiginal Hbefore Hlen wait Hwait Htimeout.
    exact (proj1 (switch_to_new_window kvs s original before Hnew Horiginal
                    Hbefore Hlen) e Hwait Htimeout).
Qed.

Lemma for_each_typing element typed : forall s,
  let calls :=
    flat_map
      (fun char =>
         [send_keys element char; sleep (VFloat 0x1.47ae147ae147bp-7)])
      typed in
  all_return (history s) calls = true ->
  for_each typed
    (fun char =>
       call (send_keys element char) ;;;
       call (sleep (VFloat 0x1.47ae147ae147bp-7)) ;;;
       ret tt) s
  = (Returned tt, after s calls).
Proof.
  induction typed as [|char typed IH]; intros s calls Hall; subst calls.
  - now rewrite after_nil.
  - cbn [flat_map List.app all_return for_each] in Hall |- *.
    destruct (driver (history s) (send_keys element char)) as [v1|]
      eqn:H1; [|discriminate].
    destruct (driver _ (sleep _)) as [v2|] eqn:H2; [|discriminate].
    unfold bind at 1. unfold bind at 1.
    rewrite (call_returned _ _ _ H1).
    unfold bind at 1.
    assert (H2' : driver (history (after s [send_keys element char]))
                    (sleep (VFloat 0x1.47ae147ae147bp-7)) = Returned v2).
    { unfold after. cbn [played history]. now rewrite H1. }
    rewrite (call_returned _ _ _ H2'). cbn [ret].
    rewrite IH.
    + unfold after. cbn [played history self_driver]. now rewrite H1, H2.
    + unfold after. cbn [played history self_driver]. now rewrite H1, H2.
Qed.

(** X20.  [input] types the text one character at a time.  Once the element
    is found, and as long as the driver accepts every call, the handler
    sends the select-all chord and the delete key when [clear_first] is
    truthy (the default), then one [send_keys] per character of the text,
    each followed by a pause of a hundredth of a second, and returns
    [True]. *)
Theorem input_types_character_by_character kvs element s s1 :
  _find_element (VDict kvs) s = (Returned element, s1) ->
  has_len (get_or "text" kvs (VStr "")) = true ->
  let calls :=
    typing_calls element (truthy (get_or "clear_first" kvs (VBool true)))
      (items_of (get_or "text" kvs (VStr ""))) in
  all_return (history s1) calls = true ->
  _handle_input (VDict kvs) s = (Returned (VBool true), after s1 calls).
Proof.
  intros Hfind Hlen calls Hall. subst calls. unfold _handle_input.
  rewrite (bind_returned _ _ _ _ _ Hfind).
  do 2 rewrite (bind_returned _ _ _ _ _ (py_get_dict _ _ _ _)).
  unfold try_except, typing_calls in *.
  destruct (truthy (get_or "clear_first" kvs (VBool true))).
  - cbn [List.app all_return] in Hall.
    destruct (driver (history s1) (send_keys element (VStr select_all_keys)))
      as [v1|] eqn:H1; [|discriminate].
    destruct (driver _ (send_keys element (VStr Keys_DELETE))) as [v2|]
      eqn:H2; [|discriminate].
    unfold bind at 1. unfold bind at 1. unfold bind at 1.
    rewrite (call_returned _ _ _ H1).
    assert (H2' : driver (history (after s1
                            [send_keys element (VStr select_all_keys)]))
                    (send_keys element (VStr Keys_DELETE)) = Returned v2).
    { unfold after. cbn [played history]. now rewrite H1. }
    unfold bind at 1. rewrite (call_returned _ _ _ H2'). cbn [ret].
    rewrite (py_iter_run _ _ Hlen), <- after_app. cbn [List.app].
    assert (Hall' :
      all_return
        (history (after s1 [send_keys element (VStr select_all_keys);
                            send_keys element (VStr Keys_DELETE)]))
        (flat_map
           (fun char =>
              [send_keys element char; sleep (VFloat 0x1.47ae147ae147bp-7)])
           (items_of (get_or "text" kvs (VStr "")))) = true).
    { unfold after. cbn [played history self_driver].
      rewrite H1, H2. exact Hall. }
    rewrite (bind_returned _ _ _ _ _ (for_each_typing element _ _ Hall')).
    cbn [ret]. now rewrite <- after_app.
  - cbn [List.app] in Hall |- *.
    unfold bind at 1. unfold bind at 1. cbn [ret].
    rewrite (py_iter_run _ _ Hlen).
    now rewrite (bind_returned _ _ _ _ _ (for_each_typing element _ _ Hall)).
Qed.

Lemma wait_for_alert_run kvs s :
  _handle_wait_for_alert (VDict kvs) s
  = (match
       driver (history s) (wait_until (timeout_of kvs) alert_is_present "")
     with
     | Returned _ => Returned (VBool true)
     | Raised e => Raised e
     end,
     after s [wait_until (timeout_of kvs) alert_is_present ""]).
Proof.
  unfold _handle_wait_for_alert.
  rewrite (bind_returned _ _ _ _ _ (py_get_dict _ _ _ _)).
  fold (timeout_of kvs). unfold bind. rewrite call_run.
  destruct (driver (history s) _); reflexivity.
Qed.

(** X21.  [wait_for_alert_text] compares the text once.  After the alert has
    appeared and been switched to, the handler reads its text: when it
    equals the expected text the handler returns [True]; when it differs
    the handler does not wait any longer but reads the text a second time
    and raises [TimeoutException] with a message that names the expected
    text and the text of the second reading. *)
Theorem alert_text_is_compared_once kvs alert shown s :
  truthy (get_or "text" kvs VNone) = true ->
  let text := get_or "text" kvs VNone in
  let wait := wait_until (timeout_of kvs) alert_is_present "" in
  let reads := [wait; switch_to_alert; alert_text alert] in
  (exists v, driver (history s) wait = Returned v) ->
  driver (history (after s [wait])) switch_to_alert = Returned alert ->
  driver (history (after s [wait; switch_to_alert])) (alert_text alert)
  = Returned shown ->
  _handle_wait_for_alert_text (VDict kvs) s
  = if py_eqb shown text then (Returned (VBool true), after s reads)
    else
      (match driver (history (after s reads)) (alert_text alert) with
       | Returned actual =>
           Raised
             (mkExn TimeoutException
                ("Alert text did not match. Expected: '" ++ py_str text
                   ++ "', Actual: '" ++ py_str actual ++ "'"))
       | Raised e => Raised e
       end, after s (reads ++ [alert_text alert])).
Proof.
  intros Htext text wait reads [v Hwait] Halert Hshown.
  unfold _handle_wait_for_alert_text.
  do 2 rewrite (bind_returned _ _ _ _ _ (py_get_dict _ _ _ _)).
  rewrite Htext. cbn [negb].
  unfold bind at 1. rewrite wait_for_alert_run. fold wait. rewrite Hwait.
  rewrite (bind_returned _ _ _ _ _ (call_returned _ _ _ Halert)).
  assert (Hshown' :
    driver (history (after (after s [wait]) [switch_to_alert]))
      (alert_text alert) = Returned shown).
  { rewrite <- after_app. exact Hshown. }
  rewrite (bind_returned _ _ _ _ _ (call_returned _ _ _ Hshown')).
  rewrite <- !after_app. cbn [List.app]. fold reads. fold text.
  destruct (py_eqb shown text); [reflexivity|].
  unfold bind. rewrite call_run. rewrite <- after_app.
  destruct (driver (history (after s reads)) (alert_text alert));
    reflexivity.
Qed.

(** ** Screenshots *)

Lemma lookup_store k v kvs : lookup k (store k v kvs) = Some v.
Proof.
  induction kvs as [|[k' v'] kvs IH]; cbn [store lookup].
  - now rewrite String.eqb_refl.
  - destruct (k' =? k) eqn:Hk; cbn [lookup]; rewrite Hk; [reflexivity|].
    exact IH.
Qed.

(** What [captured] records, by the answer of the driver. *)
Lemma captured_screenshot prefix index action_type a r s :
  let y := captured prefix index action_type (a, (r, s)) in
  let shot := screenshot_name prefix index action_type in
  match driver (history s) get_screenshot_as_png with
  | Returned png =>
      action_screenshot (fst y) = Some shot
      /\ lookup shot (screenshots (fst (snd y))) = Some png
  | Raised _ =>
      action_screenshot (fst y) = action_screenshot a
      /\ screenshots (fst (snd y)) = screenshots r
  end.
Proof.
  unfold captured. cbn [fst snd].
  destruct (driver (history s) get_screenshot_as_png) as [png|e];
    cbn [fst snd set_action_screenshot add_screenshot action_screenshot
         screenshots].
  - split; [reflexivity|apply lookup_store].
  - split; reflexivity.
Qed.

(** X22.  A requested screenshot is best effort.  When the handler of a step
    returns a truthy value and the action asks for a screenshot, the step is
    recorded as a success and counted as executed whether or not the driver
    delivers the screenshot.  When it does, the image is stored in
    [screenshots] under ["screenshot_<index>_<type>.png"] and the step
    carries that name; when it does not, the step carries no screenshot and
    [screenshots] is unchanged. *)
Theorem requested_screenshot_is_best_effort index kvs r s v s_h :
  invoke (get_or "type" kvs VNone) (VDict kvs) (tick s) = (Returned v, s_h) ->
  truthy v = true ->
  truthy (get_or "take_screenshot" kvs (VBool false)) = true ->
  let shot := screenshot_name "screenshot" index (get_or "type" kvs VNone) in
  exists ar r' s',
    run_action index (VDict kvs) (r, s) = (Returned false, (r', s'))
    /\ actions r' = actions r ++ [ar]
    /\ action_success ar = true
    /\ action_error ar = None
    /\ errors r' = errors r
    /\ executed_actions r' = S (executed_actions r)
    /\ match driver (history (tick (tick s_h))) get_screenshot_as_png with
       | Returned png =>
           action_screenshot ar = Some shot
           /\ lookup shot (screenshots r') = Some png
       | Raised _ =>
           action_screenshot ar = None /\ screenshots r' = screenshots r
       end.
Proof.
  intros Hinv Hv Htake shot. rewrite (step_returned _ _ _ _ _ _ Hinv).
  cbv zeta. rewrite Hv, Htake. cbn [andb].
  match goal with
  | |- context [captured ?p ?i ?t (?a, (?r0, ?s0))] =>
      destruct (captured_results p i t (a, (r0, s0))) as (He & Ha & Hx & _);
      destruct (captured_action p i t (a, (r0, s0))) as (_ & Hs & Hr & _);
      pose proof (captured_screenshot p i t a r0 s0) as Hshot;
      destruct (captured p i t (a, (r0, s0))) as [a1 [r1 s1]]
  end.
  cbv zeta in Hshot.
  cbn [fst snd set_action_success fresh_action_result action_success
       action_error action_screenshot] in *.
  exists a1. eexists _, _. split; [reflexivity|].
  cbn [append_action count_executed actions errors executed_actions
       screenshots].
  rewrite Ha, He, Hx, Hs, Hr. repeat split.
  exact Hshot.
Qed.

(** X23.  A failed step is photographed, whatever the action asks for.  When
    the handler phase of a step raises, the executor asks the driver for a
    screenshot before it records the error.  When the driver delivers it,
    the image is stored under ["error_<index>_<type>.png"] and the step
    carries that name; when it does not, the step carries no screenshot.
    Either way the error is entered in [errors] with the message of the
    exception. *)
Theorem failed_step_is_photographed index kvs r s e s_h :
  invoke (get_or "type" kvs VNone) (VDict kvs) (tick s) = (Raised e, s_h) ->
  let shot := screenshot_name "error" index (get_or "type" kvs VNone) in
  exists ar r' s' entry,
    run_action index (VDict kvs) (r, s)
    = (Returned (is_False (get_or "continue_on_error" kvs (VBool true))),
       (r', s'))
    /\ actions r' = actions r ++ [ar]
    /\ action_error ar = Some (exn_str e)
    /\ errors r' = errors r ++ [entry]
    /\ error_text entry = exn_str e
    /\ match driver (history (tick (tick s_h))) get_screenshot_as_png with
       | Returned png =>
           action_screenshot ar = Some shot
           /\ lookup shot (screenshots r') = Some png
       | Raised _ =>
           action_screenshot ar = None /\ screenshots r' = screenshots r
       end.
Proof.
  intros Hinv shot. rewrite (step_raised _ _ _ _ _ _ Hinv). cbv zeta.
  match goal with
  | |- context [captured ?p ?i ?t (?a, (?r0, ?s0))] =>
      destruct (captured_results p i t (a, (r0, s0))) as (He & Ha & Hx & _);
      destruct (captured_action p i t (a, (r0, s0))) as (_ & Hs & Hr & _);
      pose proof (captured_screenshot p i t a r0 s0) as Hshot;
      destruct (captured p i t (a, (r0, s0))) as [a1 [r1 s1]]
  end.
  cbv zeta in Hshot.
  cbn [fst snd set_action_failure fresh_action_result action_success
       action_error action_screenshot] in *.
  exists a1. eexists _, _, _. split; [reflexivity|].
  cbn [append_action append_error actions errors executed_actions
       screenshots error_text].
  rewrite Ha, He, Hr. repeat split.
  exact Hshot.
Qed.

(** ** The message loop of the server *)

(** X24.  Every decoded message gets exactly one reply, except one kind.
    A round of the message loop never raises.  It sends nothing for a
    ['chrome_integration'] message whose action is neither ['start'] nor
    ['stop'], and leaves the state as it was; for every other message,
    whatever its type and however its handling ends, it sends one
    response. *)
Theorem every_message_but_one_kind_is_answered data s :
  exists reply s',
    handle_message data s = (Returned reply, s')
    /\ (unanswered data = true -> reply = None /\ s' = s)
    /\ (unanswered data = false -> exists sent, reply = Some sent).
Proof.
  unfold handle_message, try_except.
  destruct data as [| | | | | |kvs| |];
    try (cbn [py_get raise reraise bind any_exception ret unanswered];
         eexists _, _; split; [reflexivity|];
         split; [discriminate|intros _; eexists; reflexivity]).
  rewrite (bind_returned _ _ _ _ _ (py_get_dict _ _ _ _)).
  cbn [unanswered].
  destruct (eq_str (get_or "type" kvs VNone) "chrome_integration").
  - unfold handle_chrome_integration, try_except.
    rewrite (bind_returned _ _ _ _ _ (py_get_dict _ _ _ _)).
    destruct (eq_str (get_or "action" kvs VNone) "start");
      [|destruct (eq_str (get_or "action" kvs VNone) "stop")];
      cbn [ret andb negb]; eexists _, _; (split; [reflexivity|]);
      (split; [try discriminate|try discriminate]);
      first [intros _; eexists; reflexivity|intros _; split; reflexivity].
  - cbn [andb].
    destruct (eq_str (get_or "type" kvs VNone) "automation_script").
    + unfold bind.
      destruct (handle_automation_script (VDict kvs) s) as [[resp|e] s1];
        cbn [ret any_exception]; eexists _, _; (split; [reflexivity|]);
        (split; [discriminate|intros _; eexists; reflexivity]).
    + destruct (eq_str (get_or "type" kvs VNone) "ping").
      * rewrite (bind_returned _ _ _ _ _ (py_get_dict _ _ _ _)).
        cbn [ret]. eexists _, _. split; [reflexivity|].
        split; [discriminate|intros _; eexists; reflexivity].
      * cbn [ret]. eexists _, _. split; [reflexivity|].
        split; [discriminate|intros _; eexists; reflexivity].
Qed.

End Executor.

(** ** The properties on the example sessions *)

(** The executor of the examples: the clock [ticking], [show] for [repr],
    the message of an exception for its [str], a recursion limit of 100 and
    the keys of [some_keys], on Linux. *)
Local Notation "'on' d 'run' f" :=
  (f d ticking show exn_msg 100 int_of float_of some_keys (special_key 61)
     (special_key 9) (special_key 23) (special_key 4) "linux")
  (at level 10, d at level 9, f at level 9, only parsing).

Lemma locator_fallback_chain_witness :
  _find_element_with_wait one_missing show (VDict chain_action)
    presence_of_element_located fresh_session
  = (Returned (VObj 7),
     after one_missing fresh_session
       [ wait_until (VInt 3)
           (presence_of_element_located CSS_SELECTOR (VStr "missing")) "";
         wait_until (VInt 3)
           (presence_of_element_located ID (VStr "present")) "" ])
  /\ _find_element one_missing show (VDict input_action) fresh_session
     = (Returned (VObj 7),
        after one_missing fresh_session
          [ wait_until (VInt 10)
              (visibility_of_element_located CSS_SELECTOR (VStr "missing")) "";
            wait_until (VInt 10)
              (visibility_of_element_located ID (VStr "present")) "" ])
  /\ fst (_find_element_with_wait unresponsive show (VDict chain_action)
            presence_of_element_located fresh_session)
     = Raised (mkExn NoSuchElementException
                 "Element not found with locators: [['css_selector', 'missing'], ['Id', 'present'], ['name', 'unused']]").
Proof.
  split; [|split].
  - apply (proj1 (locator_fallback_chain one_missing show
                    presence_of_element_located chain_action
                    [("css_selector", VStr "missing")] ("Id", VStr "present")
                    [("name", VStr "unused")] ID (VObj 7) fresh_session
                    eq_refl)); reflexivity.
  - apply (proj1 (proj2 (locator_fallback_chain one_missing show
                    presence_of_element_located input_action
                    [("css", VStr "missing")] ("id", VStr "present")
                    [("name", VStr "unused")] ID (VObj 7) fresh_session
                    eq_refl))); reflexivity.
  - rewrite (proj1 (proj2 (proj2 (locator_fallback_chain unresponsive show
                    presence_of_element_located chain_action
                    [("css_selector", VStr "missing")] ("Id", VStr "present")
                    [("name", VStr "unused")] ID (VObj 7) fresh_session
                    eq_refl))) eq_refl).
    reflexivity.
Defined.

Lemma empty_locators_no_lookup_witness :
  _find_element_with_wait obliging show
    (VDict [("type", VStr "wait_for_element")]) presence_of_element_located
    fresh_session
  = (Raised (mkExn ValueError "No locators provided for wait action"),
     fresh_session)
  /\ _handle_wait_for_element_invisible obliging show
       (VDict [("type", VStr "wait_for_element")]) fresh_session
     = (Raised (mkExn ValueError
                  "No locators provided for wait_for_element_invisible"),
        fresh_session)
  /\ exists e,
       _find_element obliging show (VDict [("type", VStr "wait_for_element")])
         fresh_session
       = (Raised e, fresh_session).
Proof.
  exact (empty_locators_no_lookup obliging show presence_of_element_located
           [("type", VStr "wait_for_element")] fresh_session
           (or_introl eq_refl)).
Defined.

(** C4, as stated, fails on the generic resolver: with an empty list of
    locators it raises the not-found error, not a parameter error. *)
Lemma find_element_empty_is_not_found :
  _find_element obliging show
    (VDict [("type", VStr "input"); ("locators", VList [])]) fresh_session
  = (Raised (mkExn NoSuchElementException
               "Could not find element with any of the provided locators: []"),
     fresh_session)
  /\ ~ (exists msg,
          fst (_find_element obliging show
                 (VDict [("type", VStr "input"); ("locators", VList [])])
                 fresh_session)
          = Raised (mkExn ValueError msg)).
Proof.
  split; [reflexivity|]. intros [msg H]. discriminate H.
Qed.

Lemma select_criteria_priority_witness :
  _handle_select obliging show (VDict select_by_two) fresh_session
  = (Returned (VBool true),
     after obliging fresh_session
       [ wait_until (VInt 10)
           (visibility_of_element_located ID (VStr "colour")) "";
         Select (VObj 1);
         select_by_value (VObj 1) (VStr "red") ])
  /\ _handle_select obliging show (VDict select_by_nothing) fresh_session
     = (Raised (mkExn ValueError
                  "No valid selection criteria provided for select action"),
        after obliging fresh_session
          [ wait_until (VInt 10)
              (visibility_of_element_located ID (VStr "colour")) "";
            Select (VObj 1) ])
  /\ fst (_handle_select unresponsive show (VDict select_by_two)
            fresh_session)
     = Raised (mkExn NoSuchElementException
                 "Could not find element with any of the provided locators: [['id', 'colour']]").
Proof.
  split; [|split].
  - exact (proj1 (select_criteria_priority obliging show select_by_two
                    fresh_session)
             (after obliging fresh_session
                [wait_until (VInt 10)
                   (visibility_of_element_located ID (VStr "colour")) ""])
             (after obliging fresh_session
                [wait_until (VInt 10)
                   (visibility_of_element_located ID (VStr "colour")) "";
                 Select (VObj 1)])
             (VObj 1) (VObj 1) eq_refl eq_refl).
  - exact (proj1 (select_criteria_priority obliging show select_by_nothing
                    fresh_session)
             (after obliging fresh_session
                [wait_until (VInt 10)
                   (visibility_of_element_located ID (VStr "colour")) ""])
             (after obliging fresh_session
                [wait_until (VInt 10)
                   (visibility_of_element_located ID (VStr "colour")) "";
                 Select (VObj 1)])
             (VObj 1) (VObj 1) eq_refl eq_refl).
  - rewrite (proj1 (proj2 (select_criteria_priority unresponsive show
                             select_by_two fresh_session))
               (mkExn NoSuchElementException
                  "Could not find element with any of the provided locators: [['id', 'colour']]")
               (after unresponsive fresh_session
                  [wait_until (VInt 10)
                     (visibility_of_element_located ID (VStr "colour")) ""])
               eq_refl).
    reflexivity.
Defined.

(** C8, as stated, fails: a select action without criteria reaches the
    driver before it raises its parameter error, and raises a not-found
    error instead when its element does not resolve. *)
Lemma select_without_criteria_calls_driver :
  (let out := _handle_select obliging show (VDict select_by_nothing)
                fresh_session in
   fst out
   = Raised (mkExn ValueError
               "No valid selection criteria provided for select action")
   /\ history (snd out)
      = [ Called (wait_until (VInt 10)
                    (visibility_of_element_located ID (VStr "colour")) "")
            (Returned (VObj 1));
          Called (Select (VObj 1)) (Returned (VObj 1)) ]
   /\ history (snd out) <> history fresh_session)
  /\ exn_class
       (match fst (_handle_select unresponsive show (VDict select_by_nothing)
                     fresh_session) with
        | Raised e => e
        | Returned _ => mkExn ValueError ""
        end)
     = NoSuchElementException.
Proof.
  split; [|reflexivity]. cbv zeta. split; [reflexivity|].
  split; [reflexivity|]. discriminate.
Qed.

Lemma falsy_result_is_no_error_witness :
  exists ar : ActionResult,
    let r := opening_results (script_of [VDict jquery_action]) 0 in
    let r' := append_action ar (count_executed r) in
    fst (on obliging run run_action 1 (VDict jquery_action) (r, fresh_session))
    = Returned false
    /\ fst (snd (on obliging run run_action 1 (VDict jquery_action)
                   (r, fresh_session)))
       = r'
    /\ action_index ar = 1
    /\ action_success ar = false
    /\ action_error ar = None
    /\ action_screenshot ar = None
    /\ actions r' = actions r ++ [ar]
    /\ errors r' = errors r
    /\ executed_actions r' = 1.
Proof.
  destruct (proj1 (on obliging run falsy_result_is_no_error 1 jquery_action
                     (opening_results (script_of [VDict jquery_action]) 0)
                     fresh_session
                     (snd (_handle_wait_for_jquery obliging
                             (VDict jquery_action)
                             (tick ticking fresh_session)))
                     (_handle_wait_for_jquery obliging) VNone
                     eq_refl eq_refl eq_refl))
    as (ar & Hrun & Hi & Hs & He & Hshot & Ha & Herr & Hx & _).
  exists ar. cbv zeta. rewrite Hrun. cbn [fst snd].
  repeat split; assumption.
Defined.

Lemma continue_on_error_policy_witness :
  (exists ls,
     on obliging run run_action 1 (VDict lost_action)
       (opening_results (script_of []) 0, fresh_session)
     = (Returned false, ls)
     /\ on obliging run run_actions 1 [VDict lost_action; VDict refresh_action]
          (opening_results (script_of []) 0, fresh_session)
        = on obliging run run_actions 2 [VDict refresh_action] ls)
  /\ (exists ar r' s',
        on obliging run run_actions 1
          [VDict lost_and_final; VDict refresh_action]
          (opening_results (script_of []) 0, fresh_session)
        = (Returned tt, (r', s'))
        /\ actions r' = [ar]
        /\ action_index ar = 1
        /\ action_success ar = false
        /\ action_error ar = Some "No URL provided for navigation action"
        /\ List.length (errors r') = 1
        /\ executed_actions r' = 0)
  /\ (exists ar r' s',
        on unclickable run run_action 1 (VDict final_click)
          (opening_results (script_of []) 0, fresh_session)
        = (Returned false, (r', s'))
        /\ on unclickable run run_actions 1
             [VDict final_click; VDict refresh_action]
             (opening_results (script_of []) 0, fresh_session)
           = on unclickable run run_actions 2 [VDict refresh_action] (r', s')
        /\ actions r' = [ar]
        /\ action_success ar = false
        /\ action_error ar = None
        /\ errors r' = []
        /\ executed_actions r' = 1).
Proof.
  split; [|split].
  - exact (proj1 (on obliging run continue_on_error_policy 1 lost_action
                    [VDict refresh_action]
                    (opening_results (script_of []) 0) fresh_session)
             eq_refl).
  - exact (proj1 (proj2 (on obliging run continue_on_error_policy 1
                           lost_and_final [VDict refresh_action]
                           (opening_results (script_of []) 0) fresh_session))
             (mkExn ValueError "No URL provided for navigation action")
             (tick ticking fresh_session) eq_refl eq_refl).
  - pose (s_h :=
            snd (_handle_click unclickable (VDict final_click)
                   (tick ticking fresh_session))).
    assert (Hclick :
      invoke unclickable show 100 int_of float_of some_keys (special_key 61)
        (special_key 9) (special_key 23) (special_key 4) "linux"
        (get_or "type" final_click VNone) (VDict final_click)
        (tick ticking fresh_session)
      = (Returned (VBool false), s_h))
      by (vm_compute; reflexivity).
    exact (proj2 (proj2 (on unclickable run continue_on_error_policy 1
                           final_click [VDict refresh_action]
                           (opening_results (script_of []) 0) fresh_session))
             (VBool false) s_h Hclick).
Defined.

(** C3, as stated, fails: a click that fails on the element it found returns
    [False], so its step has [success = false]; with [continue_on_error]
    set to [false] the loop still goes on and the next action gets its
    [ActionResult] and is counted. *)
Lemma failed_click_does_not_stop_the_loop :
  let r :=
    returned_result
      (on unclickable run execute_script
         (VDict (script_of [VDict final_click; VDict refresh_action]))
         fresh_session) in
  lookup "continue_on_error" final_click = Some (VBool false)
  /\ List.map action_type (actions r) = [VStr "click"; VStr "refresh"]
  /\ List.map action_success (actions r) = [false; true]
  /\ List.map action_error (actions r) = [None; None]
  /\ executed_actions r = 2
  /\ List.length (actions r) <> 1.
Proof.
  cbv zeta. split; [reflexivity|].
  split; [vm_compute; reflexivity|].
  split; [vm_compute; reflexivity|].
  split; [vm_compute; reflexivity|].
  split; [vm_compute; reflexivity|].
  vm_compute. discriminate.
Qed.

Lemma execute_script_always_reports_witness :
  (exists r s',
     on obliging run execute_script
       (VDict (script_of [VDict jquery_action; VDict lost_action;
                          VDict refresh_action]))
       (mkState false [])
     = (Returned r, s'))
  /\ (exists r s',
        on obliging run execute_script (VDict (script_of [VInt 5]))
          fresh_session
        = (Returned r, s')
        /\ success r = false
        /\ error r
           = Some "Unexpected error during script execution: object has no attribute 'get'"
        /\ actions r = []
        /\ errors r = []
        /\ screenshots r = []
        /\ executed_actions r = 0).
Proof.
  split.
  - exact (proj1 (on obliging run execute_script_always_reports
                    (script_of [VDict jquery_action; VDict lost_action;
                                VDict refresh_action])
                    (mkState false []) eq_refl eq_refl)).
  - exact (proj2 (proj2 (proj2
             (on obliging run execute_script_always_reports
                (script_of [VInt 5]) fresh_session eq_refl eq_refl)))
             (mkExn AttributeError "object has no attribute 'get'")
             (opening_results (script_of [VInt 5]) 0)
             (tick ticking fresh_session) eq_refl).
Defined.

(** C1, as stated, fails: a script whose ['actions'] entry has no length
    makes [execute_script] raise before its [try] statement, and so does a
    driver that cannot be started. *)
Lemma execute_script_can_raise :
  on obliging run execute_script (VDict [("actions", VNone)]) fresh_session
  = (Raised (mkExn TypeError "object has no len()"), fresh_session)
  /\ fst (on (fun _ _ => Raised (mkExn (OtherException "WebDriverException")
                                   "cannot start"))
            run execute_script (VDict (script_of [])) (mkState false []))
     = Raised (mkExn (OtherException "WebDriverException") "cannot start").
Proof. split; reflexivity. Qed.

Lemma success_reflects_errors_witness :
  let early :=
    on obliging run execute_script
      (VDict (script_of [VDict jquery_action; VDict lost_and_final;
                         VDict refresh_action]))
      fresh_session in
  let clean :=
    on obliging run execute_script
      (VDict (script_of [VDict jquery_action; VDict refresh_action]))
      fresh_session in
  (error (returned_result early) = None
   /\ success (returned_result early) = false
   /\ executed_actions (returned_result early) = 1
   /\ List.length (actions (returned_result early)) = 2)
  /\ (success (returned_result clean) = true
      <-> errors (returned_result clean) = []).
Proof.
  intros early clean.
  assert (Hearly : early = (Returned (returned_result early), snd early))
    by (vm_compute; reflexivity).
  assert (Hclean : clean = (Returned (returned_result clean), snd clean))
    by (vm_compute; reflexivity).
  pose (kvs := script_of [VDict jquery_action; VDict lost_and_final;
                          VDict refresh_action]).
  pose (before :=
          on obliging run run_prefix 1 [VDict jquery_action]
            (opening_results kvs (ticking (history fresh_session)),
             tick ticking fresh_session)).
  assert (Hbefore : before = (Returned false, (fst (snd before), snd (snd before))))
    by (vm_compute; reflexivity).
  assert (Hlost :
    invoke obliging show 100 int_of float_of some_keys (special_key 61)
      (special_key 9) (special_key 23) (special_key 4) "linux"
      (get_or "type" lost_and_final VNone) (VDict lost_and_final)
      (tick ticking (snd (snd before)))
    = (Raised (mkExn ValueError "No URL provided for navigation action"),
       tick ticking (snd (snd before))))
    by (vm_compute; reflexivity).
  split.
  - destruct (proj2 (proj2 (proj2
               (on obliging run success_reflects_errors _ _ _ _ Hearly)))
               kvs [VDict jquery_action] lost_and_final [VDict refresh_action]
               _ _ _ _ eq_refl eq_refl eq_refl Hbefore eq_refl Hlost)
      as (Hs & He & Hx & Ha).
    split; [exact He|]. split; [exact Hs|]. split.
    + rewrite Hx. vm_compute. reflexivity.
    + rewrite Ha. vm_compute. reflexivity.
  - exact (proj1 (on obliging run success_reflects_errors _ _ _ _ Hclean)
             eq_refl).
Defined.

(** C2, as stated, fails on the path of the outer [except] block: an action
    that is not a dictionary makes the run end with [success = false] while
    [errors] is empty. *)
Lemma success_false_with_no_errors :
  let r :=
    returned_result
      (on obliging run execute_script (VDict (script_of [VInt 5]))
         fresh_session) in
  (success r = false /\ errors r = [] /\ error r <> None)
  /\ ~ (success r = true <-> errors r = []).
Proof.
  cbv zeta. split.
  - split; [reflexivity|]. split; [reflexivity|discriminate].
  - intros [_ H]. specialize (H eq_refl). discriminate H.
Qed.

Lemma frame_context_restored_witness :
  let dispatcher :=
    _get_action_handler obliging show 100 int_of float_of some_keys
      (special_key 61) (special_key 9) (special_key 23) (special_key 4)
      "linux" in
  (exists h,
     history (snd (_handle_execute_in_frame obliging show dispatcher
                     (VDict frame_action) fresh_session))
     = h ++ [Called switch_to_default_content
               (obliging h switch_to_default_content)]
     /\ frame_depth
          (history (snd (_handle_execute_in_frame obliging show dispatcher
                           (VDict frame_action) fresh_session)))
        = 0)
  /\ _handle_execute_in_frame obliging show dispatcher
       (VDict frame_action_without_actions) fresh_session
     = (Returned VNone, fresh_session).
Proof.
  intros dispatcher. split.
  - destruct (proj1 (frame_context_restored obliging show dispatcher
                       frame_action fresh_session) eq_refl eq_refl)
      as (h & Hh & Hdepth & _).
    exists h. split; [exact Hh|]. exact (Hdepth (VObj 1) eq_refl).
  - exact (proj2 (frame_context_restored obliging show dispatcher
                    frame_action_without_actions fresh_session)
             (or_intror eq_refl)).
Defined.

(** C6, as stated, fails on the exit path of the guard: an
    [execute_in_frame] action without nested actions, run after the script
    has switched into a frame, completes and leaves the session inside that
    frame. *)
Lemma frame_depth_survives_the_guard :
  let out :=
    on obliging run execute_script
      (VDict (script_of [VDict enter_frame;
                         VDict frame_action_without_actions]))
      fresh_session in
  List.map action_type (actions (returned_result out))
  = [VStr "switch_to_frame"; VStr "execute_in_frame"]
  /\ List.map action_error (actions (returned_result out)) = [None; None]
  /\ frame_depth (history (snd out)) = 1
  /\ frame_depth (history (snd out)) <> 0.
Proof.
  cbv zeta. split; [vm_compute; reflexivity|].
  split; [vm_compute; reflexivity|].
  split; [vm_compute; reflexivity|].
  vm_compute. discriminate.
Qed.

Lemma switch_to_new_window_takes_first_other_witness :
  _handle_switch_window third_window show
    (VDict [("type", VStr "switch_to_window")]) fresh_session
  = (Returned (VBool true),
     after third_window fresh_session
       [ current_window_handle; window_handles;
         wait_until (VInt 10) (number_of_windows_to_be 3) "";
         window_handles; switch_to_window (VStr "A") ])
  /\ List.In (VStr "A") [VStr "A"; VStr "B"]
  /\ third_window
       (history
          (after third_window fresh_session
             [ current_window_handle; window_handles;
               wait_until (VInt 10) (number_of_windows_to_be 3) "" ]))
       window_handles
     = Returned (VList [VStr "A"; VStr "B"; VStr "C"]).
Proof.
  split; [|split; [left; reflexivity|reflexivity]].
  exact (switch_to_new_window_takes_first_other third_window show
           [("type", VStr "switch_to_window")] fresh_session (VStr "B")
           (VList [VStr "A"; VStr "B"]) VNone (VStr "A")
           [VStr "B"; VStr "C"] eq_refl eq_refl eq_refl eq_refl eq_refl
           eq_refl eq_refl).
Defined.

Lemma empty_script_succeeds_witness :
  exists r s',
    on obliging run execute_script (VDict (script_of [])) fresh_session
    = (Returned r, s')
    /\ success r = true
    /\ total_actions r = 0
    /\ executed_actions r = 0
    /\ completion_percentage r = Some (VInt 100)
    /\ actions r = []
    /\ error r = None.
Proof.
  exact (on obliging run empty_script_succeeds (script_of []) fresh_session
           eq_refl eq_refl eq_refl).
Defined.

Lemma executed_within_total_witness :
  let r :=
    returned_result
      (on obliging run execute_script
         (VDict (script_of [VDict jquery_action; VDict lost_and_final;
                            VDict refresh_action]))
         fresh_session) in
  executed_actions r <= total_actions r
  /\ List.length (actions r) <= total_actions r
  /\ executed_actions r + List.length (errors r) = List.length (actions r).
Proof.
  intros r.
  refine (on obliging run executed_within_total
            (VDict (script_of [VDict jquery_action; VDict lost_and_final;
                               VDict refresh_action]))
            fresh_session
            (snd (on obliging run execute_script
                    (VDict (script_of [VDict jquery_action;
                                       VDict lost_and_final;
                                       VDict refresh_action]))
                    fresh_session))
            r _).
  vm_compute. reflexivity.
Defined.

Lemma every_step_is_closed_witness :
  let r :=
    returned_result
      (on obliging run execute_script
         (VDict (script_of [VDict jquery_action; VDict lost_action;
                            VDict refresh_action]))
         fresh_session) in
  Forall (fun a => action_end_time a <> None) (actions r)
  /\ List.map action_index (actions r) = List.seq 1 (List.length (actions r)).
Proof.
  intros r.
  refine (on obliging run every_step_is_closed
            (VDict (script_of [VDict jquery_action; VDict lost_action;
                               VDict refresh_action]))
            fresh_session
            (snd (on obliging run execute_script
                    (VDict (script_of [VDict jquery_action; VDict lost_action;
                                       VDict refresh_action]))
                    fresh_session))
            r _).
  vm_compute. reflexivity.
Defined.

Lemma errors_match_failed_steps_witness :
  let r :=
    returned_result
      (on obliging run execute_script
         (VDict (script_of [VDict jquery_action; VDict lost_action;
                            VDict refresh_action]))
         fresh_session) in
  List.length (errors r) = List.length (List.filter failed (actions r)).
Proof.
  intros r.
  refine (on obliging run errors_match_failed_steps
            (VDict (script_of [VDict jquery_action; VDict lost_action;
                               VDict refresh_action]))
            fresh_session
            (snd (on obliging run execute_script
                    (VDict (script_of [VDict jquery_action; VDict lost_action;
                                       VDict refresh_action]))
                    fresh_session))
            r _).
  vm_compute. reflexivity.
Defined.

(** The dispatcher of the examples. *)
Local Notation "'dispatching' d 'run' f" :=
  (f d show 100 int_of float_of some_keys (special_key 61) (special_key 9)
     (special_key 23) (special_key 4) "linux")
  (at level 10, d at level 9, f at level 9, only parsing).

Lemma handlers_leave_the_session_alone_witness :
  continues fresh_session
    (snd (_handle_click one_missing (VDict click_action) fresh_session)).
Proof.
  exact (dispatching one_missing run handlers_leave_the_session_alone
           (VStr "click") fresh_session (_handle_click one_missing)
           fresh_session (VDict click_action) fresh_session eq_refl).
Defined.

Lemma started_session_is_reused_witness :
  let s' :=
    snd (on obliging run execute_script
           (VDict (script_of [VDict jquery_action; VDict lost_action;
                              VDict refresh_action]))
           fresh_session) in
  self_driver s' = true
  /\ exists t,
       history s' = history fresh_session ++ t
       /\ forallb page_event t = true.
Proof.
  exact (on obliging run started_session_is_reused
           (VDict (script_of [VDict jquery_action; VDict lost_action;
                              VDict refresh_action]))
           fresh_session eq_refl).
Defined.

Lemma helper_releases_the_browser_witness :
  on no_browser run module_execute_script
    (VDict (script_of [VDict refresh_action])) (VBool true)
    (mkState false [])
  = (Raised (mkExn (OtherException "WebDriverException") "cannot start"),
     mkState false
       [Called (start_chrome true)
          (Raised (mkExn (OtherException "WebDriverException")
                     "cannot start"))])
  /\ exists r0 t r,
       history
         (snd (on obliging run module_execute_script
                 (VDict (script_of [VDict refresh_action])) (VBool true)
                 (mkState false [])))
       = [] ++ Called (start_chrome true) (Returned (VObj 1))
               :: Called (set_page_load_timeout 30) r0
               :: t ++ [Called quit r]
       /\ forallb page_event t = true.
Proof.
  split.
  - exact (proj1 (proj2 (on no_browser run helper_releases_the_browser
                           (VDict (script_of [VDict refresh_action]))
                           (VBool true) false []))
             _ eq_refl).
  - exact (proj2 (proj2 (on obliging run helper_releases_the_browser
                           (VDict (script_of [VDict refresh_action]))
                           (VBool true) false []))
             (VObj 1) eq_refl).
Defined.

Lemma automation_request_is_answered_witness :
  exists resp s',
    on obliging run handle_automation_script
      (VDict (automation_request
                (VDict (script_of [VDict refresh_action; VDict lost_action]))))
      (mkState false [])
    = (Returned resp, s')
    /\ self_driver s' = false
    /\ response_type resp = "automation_response"
    /\ (response_status resp = "success" \/ response_status resp = "error")
    /\ (response_status resp = "success" ->
        details_errors (response_details resp) = inl [])
    /\ details_total_actions (response_details resp) = 2
    /\ details_executed_actions (response_details resp)
       <= details_total_actions (response_details resp).
Proof.
  exact (on obliging run automation_request_is_answered
           (automation_request
              (VDict (script_of [VDict refresh_action; VDict lost_action])))
           (script_of [VDict refresh_action; VDict lost_action])
           (mkState false []) eq_refl eq_refl).
Defined.

Lemma automation_request_releases_browser_witness :
  let out :=
    on obliging run handle_automation_script
      (VDict (automation_request
                (VDict (script_of [VDict refresh_action; VDict lost_action]))))
      (mkState false []) in
  self_driver (snd out) = false
  /\ exists r0 t r,
       history (snd out)
       = [] ++ Called (start_chrome true) (Returned (VObj 1))
               :: Called (set_page_load_timeout 30) r0
               :: t ++ [Called quit r]
       /\ forallb page_event t = true.
Proof.
  intro out.
  destruct (on obliging run automation_request_releases_browser
              (automation_request
                 (VDict (script_of [VDict refresh_action; VDict lost_action])))
              (script_of [VDict refresh_action; VDict lost_action])
              (mkState false []) eq_refl) as (Hclosed & _ & Hrun).
  split; [exact Hclosed|]. exact (Hrun (VObj 1) eq_refl).
Defined.

Lemma unanswered_automation_requests_witness :
  (exists e,
     on obliging run handle_automation_script
       (VDict (automation_request VNone)) (mkState false [])
     = (Raised e, mkState false [])
     /\ exn_class e = AttributeError)
  /\ (exists e,
        fst (on obliging run handle_automation_script
               (VDict (automation_request (VDict [("actions", VNone)])))
               (mkState false []))
        = Raised e
        /\ exn_class e = TypeError
        /\ self_driver
             (snd (on obliging run handle_automation_script
                     (VDict (automation_request
                               (VDict [("actions", VNone)])))
                     (mkState false [])))
           = false).
Proof.
  split.
  - exact (proj1 (on obliging run unanswered_automation_requests
                    (automation_request VNone) (mkState false [])) I).
  - exact (proj2 (on obliging run unanswered_automation_requests
                    (automation_request (VDict [("actions", VNone)]))
                    (mkState false []))
             [("actions", VNone)] eq_refl eq_refl).
Defined.

Lemma missing_parameter_rejected_before_any_call_witness :
  exists msg,
    dispatching obliging run invoke (VStr "navigate") (VDict lost_action)
      fresh_session
    = (Raised (mkExn ValueError msg), fresh_session).
Proof.
  exact (dispatching obliging run missing_parameter_rejected_before_any_call
           "navigate" (lacks "url") lost_action fresh_session eq_refl
           eq_refl).
Defined.

Lemma click_fallback_chain_witness :
  _handle_click one_missing (VDict click_action) fresh_session
  = (Returned (VBool true),
     after one_missing fresh_session
       [ wait_until (VInt 5)
           (element_to_be_clickable CSS_SELECTOR (VStr "missing")) "";
         wait_until (VInt 5) (element_to_be_clickable ID (VStr "present")) "";
         click_on (VObj 7) ]).
Proof.
  exact (click_fallback_chain one_missing click_action
           [("css_selector", VStr "missing")] ("Id", VStr "present")
           [("name", VStr "unused")] ID (VObj 7) fresh_session eq_refl
           eq_refl eq_refl eq_refl (ex_intro _ VNone eq_refl)).
Defined.

Lemma click_without_element_witness :
  _handle_click unresponsive (VDict click_at_action) fresh_session
  = (Returned (VBool true),
     after unresponsive fresh_session
       [ wait_until (VInt 5) (element_to_be_clickable ID (VStr "missing")) "";
         perform [move_by_offset (VInt 10) (VInt 20); click] ])
  /\ _handle_click unresponsive
       (VDict [("type", VStr "click");
               ("locators", VList [VList [VStr "id"; VStr "missing"]])])
       fresh_session
     = (Raised (mkExn NoSuchElementException
                  "Could not find element with provided locators"),
        after unresponsive fresh_session
          [ wait_until (VInt 5)
              (element_to_be_clickable ID (VStr "missing")) "" ]).
Proof.
  split.
  - exact (click_without_element unresponsive click_at_action
             [("id", VStr "missing")] fresh_session eq_refl eq_refl).
  - exact (click_without_element unresponsive
             [("type", VStr "click");
              ("locators", VList [VList [VStr "id"; VStr "missing"]])]
             [("id", VStr "missing")] fresh_session eq_refl eq_refl).
Defined.

Lemma click_failure_on_found_element_returns_False_witness :
  _handle_click unclickable (VDict click_intercepted_action) fresh_session
  = (Returned (VBool false),
     after unclickable fresh_session
       [ wait_until (VInt 5) (element_to_be_clickable ID (VStr "present")) "";
         click_on (VObj 7);
         wait_until (VInt 5)
           (element_to_be_clickable NAME (VStr "missing")) "" ]).
Proof.
  exact (click_failure_on_found_element_returns_False unclickable
           click_intercepted_action [] ("id", VStr "present")
           [("name", VStr "missing")] ID (VObj 7)
           (mkExn (OtherException "ElementClickInterceptedException")
              "intercepted")
           fresh_session eq_refl eq_refl eq_refl eq_refl eq_refl eq_refl
           eq_refl).
Defined.

Lemma invisible_wait_uses_first_locator_witness :
  _handle_wait_for_element_invisible one_missing show
    (VDict invisible_action) fresh_session
  = (Raised (mkExn TimeoutException ""),
     after one_missing fresh_session
       [ wait_until (VInt 3)
           (invisibility_of_element_located ID (VStr "missing")) "" ]).
Proof.
  exact (invisible_wait_uses_first_locator one_missing show invisible_action
           ("id", VStr "missing") [("name", VStr "present")] fresh_session
           eq_refl).
Defined.

Lemma unknown_action_type_is_a_step_error_witness :
  exists ar r' s' stamp,
    on obliging run run_action 1 (VDict fly_action)
      (opening_results (script_of [VDict fly_action]) 0, fresh_session)
    = (Returned false, (r', s'))
    /\ actions r' = [] ++ [ar]
    /\ action_index ar = 1
    /\ action_success ar = false
    /\ action_error ar = Some "No handler found for action type: fly"
    /\ errors r'
       = [] ++ [mkErrorEntry (VDict fly_action)
                  "No handler found for action type: fly" 1 stamp]
    /\ executed_actions r' = 0.
Proof.
  exact (on obliging run unknown_action_type_is_a_step_error 1 fly_action
           (opening_results (script_of [VDict fly_action]) 0) fresh_session
           eq_refl).
Defined.

Lemma unknown_types_in_frame_are_skipped_witness :
  _handle_execute_in_frame obliging show
    (dispatching obliging run _get_action_handler)
    (VDict frame_of_unknowns) fresh_session
  = (Returned VNone,
     after obliging fresh_session
       [switch_to_frame (VInt 0); switch_to_default_content]).
Proof.
  apply (unknown_types_in_frame_are_skipped obliging show
           (dispatching obliging run _get_action_handler) frame_of_unknowns
           (VInt 0) fly_action [[("note", VStr "no type")]] fresh_session
           eq_refl eq_refl).
  - intros item' s' [<-|[<-|[]]]; reflexivity.
  - exists (VObj 1). reflexivity.
Defined.

Lemma switch_window_failures_return_False_witness :
  _handle_switch_window obliging show
    (VDict [("type", VStr "switch_to_window"); ("target", VStr "next")])
    fresh_session
  = (Returned (VBool false), fresh_session)
  /\ _handle_switch_window no_windows show
       (VDict [("type", VStr "switch_to_window");
               ("target", VStr "original")])
       fresh_session
     = (Returned (VBool false), after no_windows fresh_session [window_handles])
  /\ _handle_switch_window single_window show
       (VDict [("type", VStr "switch_to_window")]) fresh_session
     = (Returned (VBool false),
        after single_window fresh_session
          [ current_window_handle; window_handles;
            wait_until (VInt 10) (number_of_windows_to_be 2) "" ]).
Proof.
  split; [|split].
  - exact (proj1 (switch_window_failures_return_False obliging show
                    [("type", VStr "switch_to_window");
                     ("target", VStr "next")] fresh_session)
             eq_refl eq_refl).
  - exact (proj1 (proj2 (switch_window_failures_return_False no_windows show
                           [("type", VStr "switch_to_window");
                            ("target", VStr "original")] fresh_session))
             eq_refl eq_refl (VList []) eq_refl eq_refl).
  - exact (proj2 (proj2 (switch_window_failures_return_False single_window
                           show [("type", VStr "switch_to_window")]
                           fresh_session))
             eq_refl (VStr "A") (VList [VStr "A"])
             (mkExn TimeoutException "") eq_refl eq_refl eq_refl eq_refl
             eq_refl).
Defined.

Lemma input_types_character_by_character_witness :
  _handle_input one_missing show (special_key 61) (special_key 9)
    (special_key 23) "linux" (VDict input_action) fresh_session
  = (Returned (VBool true),
     after one_missing fresh_session
       ([ wait_until (VInt 10)
            (visibility_of_element_located CSS_SELECTOR (VStr "missing")) "";
          wait_until (VInt 10)
            (visibility_of_element_located ID (VStr "present")) "";
          send_keys (VObj 7) (VStr (special_key 9 ++ "a"));
          send_keys (VObj 7) (VStr (special_key 23)) ]
        ++ flat_map
             (fun char =>
                [send_keys (VObj 7) (VStr char);
                 sleep (VFloat 0x1.47ae147ae147bp-7)])
             ["h"; "e"; "l"; "l"; "o"]%string))
  /\ _handle_input one_missing show (special_key 61) (special_key 9)
       (special_key 23) "linux" (VDict accent_action) fresh_session
     = (Returned (VBool true),
        after one_missing fresh_session
          [ wait_until (VInt 10)
              (visibility_of_element_located ID (VStr "present")) "";
            send_keys (VObj 7) (VStr e_acute);
            sleep (VFloat 0x1.47ae147ae147bp-7) ])
  /\ String.length e_acute = 2.
Proof.
  split; [|split; [|reflexivity]].
  - exact (input_types_character_by_character one_missing show
             (special_key 61) (special_key 9) (special_key 23) "linux"
             input_action (VObj 7) fresh_session
             (after one_missing fresh_session
                [ wait_until (VInt 10)
                    (visibility_of_element_located CSS_SELECTOR
                       (VStr "missing")) "";
                  wait_until (VInt 10)
                    (visibility_of_element_located ID (VStr "present")) "" ])
             eq_refl eq_refl eq_refl).
  - exact (input_types_character_by_character one_missing show
             (special_key 61) (special_key 9) (special_key 23) "linux"
             accent_action (VObj 7) fresh_session
             (after one_missing fresh_session
                [ wait_until (VInt 10)
                    (visibility_of_element_located ID (VStr "present")) "" ])
             eq_refl eq_refl eq_refl).
Defined.

Lemma alert_text_is_compared_once_witness :
  _handle_wait_for_alert_text alerting show (VDict (alert_action "Saved"))
    fresh_session
  = (Returned (VBool true),
     after alerting fresh_session
       [ wait_until (VInt 10) alert_is_present ""; switch_to_alert;
         alert_text (VObj 1) ])
  /\ _handle_wait_for_alert_text alerting show
       (VDict (alert_action "Deleted")) fresh_session
     = (Raised (mkExn TimeoutException
                  "Alert text did not match. Expected: 'Deleted', Actual: 'Saved'"),
        after alerting fresh_session
          [ wait_until (VInt 10) alert_is_present ""; switch_to_alert;
            alert_text (VObj 1); alert_text (VObj 1) ]).
Proof.
  split.
  - exact (alert_text_is_compared_once alerting show (alert_action "Saved")
             (VObj 1) (VStr "Saved") fresh_session eq_refl
             (ex_intro _ (VObj 1) eq_refl) eq_refl eq_refl).
  - exact (alert_text_is_compared_once alerting show (alert_action "Deleted")
             (VObj 1) (VStr "Saved") fresh_session eq_refl
             (ex_intro _ (VObj 1) eq_refl) eq_refl eq_refl).
Defined.

Lemma requested_screenshot_is_best_effort_witness :
  exists ar r' s',
    on obliging run run_action 1 (VDict refresh_with_screenshot)
      (opening_results (script_of [VDict refresh_with_screenshot]) 0,
       fresh_session)
    = (Returned false, (r', s'))
    /\ actions r' = [] ++ [ar]
    /\ action_success ar = true
    /\ action_error ar = None
    /\ errors r' = []
    /\ executed_actions r' = 1
    /\ action_screenshot ar = Some "screenshot_1_refresh.png"
    /\ lookup "screenshot_1_refresh.png" (screenshots r') = Some (VObj 1).
Proof.
  exact (on obliging run requested_screenshot_is_best_effort 1
           refresh_with_screenshot
           (opening_results (script_of [VDict refresh_with_screenshot]) 0)
           fresh_session (VBool true)
           (after obliging (tick ticking fresh_session) [driver_refresh])
           eq_refl eq_refl eq_refl).
Defined.

Lemma failed_step_is_photographed_witness :
  exists ar r' s' entry,
    on obliging run run_action 1 (VDict lost_action)
      (opening_results (script_of [VDict lost_action]) 0, fresh_session)
    = (Returned false, (r', s'))
    /\ actions r' = [] ++ [ar]
    /\ action_error ar = Some "No URL provided for navigation action"
    /\ errors r' = [] ++ [entry]
    /\ error_text entry = "No URL provided for navigation action"
    /\ action_screenshot ar = Some "error_1_navigate.png"
    /\ lookup "error_1_navigate.png" (screenshots r') = Some (VObj 1).
Proof.
  exact (on obliging run failed_step_is_photographed 1 lost_action
           (opening_results (script_of [VDict lost_action]) 0) fresh_session
           (mkExn ValueError "No URL provided for navigation action")
           (tick ticking fresh_session) eq_refl).
Defined.
